(** * codar_processing: the HF-radar map renderer [plotting/plot_nc.py]

    A shallow embedding of [plot_common] and of its two source adapters
    [plot_radials] and [plot_totals].

    - array cells are IEEE-754 binary64 numbers, as numpy's [float64];
      the arithmetic is the one of [SpecFloat] at precision 53;
    - the numpy, Python and [oceans.ocfis] functions the renderer calls are
      transcribed in the modules [F64], [Py], [Np] and [Ocfis]; the C
      library functions behind them are a parameter, [libm];
    - pyplot, the file system and open dataset handles are an explicit
      [world] threaded through a state-and-exception monad;
    - the definitions come first, the theorems after them. *)

From Stdlib Require Import ZArith Bool String Ascii Lia List.
From Stdlib Require Import SpecFloat DecimalString.
From Stdlib Require Import Reals Lra.
Import ListNotations.

(* ================================================================= *)
(** * binary64 *)

Module F64.

Definition prec : Z := 53.
Definition emax : Z := 1024.

Definition float := spec_float.

Definition nan : float := S754_nan.
Definition pinf : float := S754_infinity false.
Definition zero : float := S754_zero false.

Definition add : float -> float -> float := SFadd prec emax.
Definition sub : float -> float -> float := SFsub prec emax.
Definition mul : float -> float -> float := SFmul prec emax.
Definition div : float -> float -> float := SFdiv prec emax.
Definition sqrt : float -> float := SFsqrt prec emax.

(** Conversion of a Python [int] (exact below 2^53, rounded above). *)
Definition of_Z (z : Z) : float := binary_normalize prec emax z 0 false.

Definition one : float := of_Z 1.

(** The comparisons of C and Python: every comparison with a NaN is
    false. *)
Definition ltb (x y : float) : bool := SFltb x y.
Definition leb (x y : float) : bool := SFleb x y.
Definition gtb (x y : float) : bool := SFltb y x.
Definition geb (x y : float) : bool := SFleb y x.
Definition eqb (x y : float) : bool := SFeqb x y.

Definition is_nan (x : float) : bool :=
  match x with S754_nan => true | _ => false end.

Definition is_inf (x : float) : bool :=
  match x with S754_infinity _ => true | _ => false end.

(** [np.isfinite] *)
Definition is_finite (x : float) : bool :=
  match x with
  | S754_zero _ | S754_finite _ _ _ => true
  | S754_infinity _ | S754_nan => false
  end.

Definition is_zero (x : float) : bool :=
  match x with S754_zero _ => true | _ => false end.

Definition sign (x : float) : bool :=
  match x with
  | S754_zero s | S754_infinity s | S754_finite s _ _ => s
  | S754_nan => false
  end.

(** [math.pi], the binary64 number nearest to pi. *)
Definition pi : float := S754_finite false 7074237752028440 (-51).



(** C's [fmod x y]: the exact remainder of the truncated division, with
    the sign of [x].  The remainder of two binary64 numbers is a binary64
    number, so no rounding takes place. *)
Definition fmod (x y : float) : float :=
  match x, y with
  | S754_nan, _ | _, S754_nan => nan
  | S754_infinity _, _ => nan
  | _, S754_zero _ => nan
  | S754_zero _, _ => x
  | S754_finite _ _ _, S754_infinity _ => x
  | S754_finite sx mx ex, S754_finite _ my ey =>
      let e := Z.min ex ey in
      let ax := (Z.pos mx * 2 ^ (ex - e))%Z in
      let ay := (Z.pos my * 2 ^ (ey - e))%Z in
      let r := Z.rem ax ay in
      binary_normalize prec emax (if sx then (- r)%Z else r) e sx
  end.

(** The comparison of two numbers is the lexicographic comparison of
    their keys. *)
Definition key (x : float) : Z * Z * Z :=
  match x with
  | S754_nan => (0, 0, 0)
  | S754_zero _ => (0, 0, 0)
  | S754_infinity s => (if s then -2 else 2, 0, 0)
  | S754_finite s m e =>
      if s then (-1, - e, - Z.pos m) else (1, e, Z.pos m)
  end%Z.

Definition lex_lt (a b : Z * Z * Z) : Prop :=
  let '(a1, a2, a3) := a in
  let '(b1, b2, b3) := b in
  (a1 < b1 \/ (a1 = b1 /\ (a2 < b2 \/ (a2 = b2 /\ a3 < b3))))%Z.

Definition lex_le (a b : Z * Z * Z) : Prop :=
  let '(a1, a2, a3) := a in
  let '(b1, b2, b3) := b in
  (a1 < b1 \/ (a1 = b1 /\ (a2 < b2 \/ (a2 = b2 /\ a3 <= b3))))%Z.


End F64.

Abbreviation float := F64.float.

(* ================================================================= *)
(** * Python values and exceptions *)

Module Py.

Inductive exn : Type :=
| ValueError
| IndexError
| KeyError
| AttributeError
| OSError.

Inductive result (A : Type) : Type :=
| Ok (a : A)
| Raise (e : exn).
Arguments Ok {A} a.
Arguments Raise {A} e.

Definition bind {A B} (r : result A) (k : A -> result B) : result B :=
  match r with
  | Ok a => k a
  | Raise e => Raise e
  end.

(** [bool(x)] of a float: [x != 0.0].  A NaN differs from zero, so it
    is true. *)
Definition truthy (x : float) : bool := negb (F64.eqb x F64.zero).

(** [x or d] where [x] is [None] or a float. *)
Definition or_else (x : option float) (d : float) : float :=
  match x with
  | None => d
  | Some a => if truthy a then a else d
  end.

(** [l[::step]] on a sequence.  [every_from k c l] keeps an element when
    the countdown [c] is at zero and then skips [k] elements. *)
Fixpoint every_from {A} (k c : nat) (l : list A) : list A :=
  match l with
  | [] => []
  | x :: t =>
      match c with
      | O => x :: every_from k k t
      | S c' => every_from k c' t
      end
  end.

Definition every {A} (step : nat) (l : list A) : list A :=
  every_from (Nat.pred step) 0 l.

(** [f'{x:.2f}']: the decimal expansion of the exact binary value,
    rounded to two places, ties to even. *)
Definition round_half_even (n d : Z) : Z :=
  let q := (n / d)%Z in
  let r := (n mod d)%Z in
  match (2 * r ?= d)%Z with
  | Lt => q
  | Gt => (q + 1)%Z
  | Eq => if Z.even q then q else (q + 1)%Z
  end.

(** The integer nearest to [100 * m * 2^e]. *)
Definition hundredths (m : positive) (e : Z) : Z :=
  match e with
  | Zneg p => round_half_even (100 * Z.pos m) (2 ^ Z.pos p)
  | _ => (100 * Z.pos m * 2 ^ e)%Z
  end.

Definition digits (n : Z) : string :=
  NilZero.string_of_uint (N.to_uint (Z.to_N n)).

Definition two_digits (n : Z) : string :=
  (digits (n / 10) ++ digits (n mod 10))%string.

Definition fixed2 (neg : bool) (h : Z) : string :=
  ((if neg then "-" else "") ++ digits (h / 100) ++ "."
     ++ two_digits (h mod 100))%string.

Definition format_2f (x : float) : string :=
  match x with
  | S754_nan => "nan"
  | S754_infinity s => if s then "-inf" else "inf"
  | S754_zero s => fixed2 s 0
  | S754_finite s m e => fixed2 s (hundredths m e)
  end.

End Py.

Import Py.

Notation "x <- r ;; k" := (Py.bind r (fun x => k))
  (at level 100, r at next level, right associativity).

(* ================================================================= *)
(** * numpy *)

Module Np.

(** Arrays of rank 0, 1 and 2.  A rank-2 array is the list of its rows. *)
Inductive ndarray (A : Type) : Type :=
| Arr0 (x : A)
| Arr1 (l : list A)
| Arr2 (rows : list (list A)).
Arguments Arr0 {A} x.
Arguments Arr1 {A} l.
Arguments Arr2 {A} rows.

Definition shape2 {A} (rows : list (list A)) : nat * nat :=
  (length rows, length (hd [] rows)).

Definition shape {A} (a : ndarray A) : list nat :=
  match a with
  | Arr0 _ => []
  | Arr1 l => [length l]
  | Arr2 rows => [fst (shape2 rows); snd (shape2 rows)]
  end.

(** [a.ravel()]: the elements in row-major order. *)
Definition ravel {A} (a : ndarray A) : list A :=
  match a with
  | Arr0 x => [x]
  | Arr1 l => l
  | Arr2 rows => concat rows
  end.

Definition amap {A B} (f : A -> B) (a : ndarray A) : ndarray B :=
  match a with
  | Arr0 x => Arr0 (f x)
  | Arr1 l => Arr1 (map f l)
  | Arr2 rows => Arr2 (map (map f) rows)
  end.

(** [a.squeeze()]: the axes of length one are removed. *)
Definition squeeze {A} (a : ndarray A) : ndarray A :=
  match a with
  | Arr0 _ => a
  | Arr1 [x] => Arr0 x
  | Arr1 _ => a
  | Arr2 rows =>
      match shape2 rows, concat rows with
      | (1, 1), x :: _ => Arr0 x
      | (1, 1), [] => a
      | (1, _), l | (_, 1), l => Arr1 l
      | _, _ => a
      end
  end.

(** [a[::sub, ::sub]] on a rank-2 array.  A slice with a negative step and
    no bounds walks from the last element backwards; a zero step is
    refused. *)
Definition slice2 {A} (sub : Z) (rows : list (list A))
  : result (list (list A)) :=
  match sub with
  | Z0 => Raise ValueError
  | Zpos p =>
      Ok (map (every (Pos.to_nat p)) (every (Pos.to_nat p) rows))
  | Zneg p =>
      Ok (map (fun r => every (Pos.to_nat p) (rev r))
            (every (Pos.to_nat p) (rev rows)))
  end.

(** The same subscript on an array of any rank: two subscripts on fewer
    than two axes are an [IndexError]. *)
Definition slice2_nd {A} (sub : Z) (a : ndarray A)
  : result (list (list A)) :=
  match a with
  | Arr2 rows => slice2 sub rows
  | _ => Raise IndexError
  end.

(** The inner loops of the ufuncs [maximum], [minimum] and [fmax]. *)
Definition maximum (a b : float) : float :=
  if F64.geb a b || F64.is_nan a then a else b.

Definition minimum (a b : float) : float :=
  if F64.leb a b || F64.is_nan a then a else b.

Definition fmax (a b : float) : float :=
  if F64.geb a b || F64.is_nan b then a else b.

(** [ufunc.reduce] over all the elements; these three have no identity,
    so an empty array is refused. *)
Definition reduce (op : float -> float -> float) (l : list float)
  : result float :=
  match l with
  | [] => Raise ValueError
  | x :: t => Ok (fold_left op t x)
  end.

Definition amin (a : ndarray float) : result float :=
  reduce minimum (ravel a).

Definition amax (a : ndarray float) : result float :=
  reduce maximum (ravel a).

(** [np.nanmax]: [fmax.reduce]; the result is NaN (with a warning) when
    every element is. *)
Definition nanmax (a : ndarray float) : result float :=
  reduce fmax (ravel a).

(** [np.clip], one element: [min(max(x, lo), hi)], where this [max] and
    this [min] keep a NaN first operand. *)
Definition clip_max (a b : float) : float :=
  if F64.is_nan a then a else if F64.gtb a b then a else b.

Definition clip_min (a b : float) : float :=
  if F64.is_nan a then a else if F64.ltb a b then a else b.

Definition clip1 (lo hi x : float) : float :=
  clip_min (clip_max x lo) hi.

Definition clip (a : ndarray float) (lo hi : float) : ndarray float :=
  amap (clip1 lo hi) a.

(** [np.meshgrid(x, y)] with the default [xy] indexing; the inputs are
    flattened. *)
Definition meshgrid {A} (x y : ndarray A)
  : list (list A) * list (list A) :=
  (map (fun _ => ravel x) (ravel y),
   map (fun b => map (fun _ => b) (ravel x)) (ravel y)).

Definition set_last {A} (l : list A) (x : A) : list A :=
  match l with
  | [] => []
  | _ => removelast l ++ [x]
  end.

(** [np.linspace(start, stop, num)] with [endpoint=True]. *)
Definition linspace (start stop : float) (num : nat) : list float :=
  let div := F64.of_Z (Z.of_nat (num - 1)) in
  let delta := F64.sub stop start in
  let y := map (fun i => F64.of_Z (Z.of_nat i)) (seq 0 num) in
  let y :=
    if (1 <? num)%nat then
      let step := F64.div delta div in
      if F64.eqb step F64.zero
      then map (fun t => F64.mul (F64.div t div) delta) y
      else map (fun t => F64.mul t step) y
    else map (fun t => F64.mul t delta) y in
  let y := map (fun t => F64.add t start) y in
  if (1 <? num)%nat then set_last y stop else y.

(** [np.mod(a, b)] on floats: [fmod] moved to the sign of [b]. *)
Definition mod_ (a b : float) : float :=
  let m := F64.fmod a b in
  if F64.is_zero b then m
  else if negb (F64.eqb m F64.zero) then
    if negb (Bool.eqb (F64.ltb b F64.zero) (F64.ltb m F64.zero))
    then F64.add m b else m
  else S754_zero (F64.sign b).

(** [np.deg2rad] *)
Definition deg2rad (x : float) : float :=
  F64.mul x (F64.div F64.pi (F64.of_Z 180)).

(** Masked arrays: the data is kept as it is under the mask. *)
Record masked : Type :=
  { ma_data : list (list float);
    ma_mask : list (list bool) }.

(** [ma.masked_invalid]: the mask is set where the data is NaN or
    infinite. *)
Definition masked_invalid (a : list (list float)) : masked :=
  {| ma_data := a;
     ma_mask := map (map (fun x => negb (F64.is_finite x))) a |}.

(** [np.asarray] of a masked array is its data, without the mask. *)
Definition asarray (m : masked) : list (list float) := ma_data m.

(** An elementwise binary operation.  Operands of one shape are
    combined cell by cell; unequal shapes raise (broadcasting between
    different shapes is outside this model: the renderer is given [u] and
    [v] of one shape). *)
Fixpoint zip1 {A B C} (f : A -> B -> C) (l1 : list A) (l2 : list B)
  : result (list C) :=
  match l1, l2 with
  | [], [] => Ok []
  | x :: t1, y :: t2 => r <- zip1 f t1 t2 ;; Ok (f x y :: r)
  | _, _ => Raise ValueError
  end.

Fixpoint zip2 {A B C} (f : A -> B -> C)
  (a : list (list A)) (b : list (list B)) : result (list (list C)) :=
  match a, b with
  | [], [] => Ok []
  | r1 :: t1, r2 :: t2 =>
      r <- zip1 f r1 r2 ;; t <- zip2 f t1 t2 ;; Ok (r :: t)
  | _, _ => Raise ValueError
  end.

End Np.

Import Np.

(* ================================================================= *)
(** * The C mathematical library *)

(** [hypot], [atan2], [sin] and [cos] are not specified bit by bit by the
    C standard.  Their values at special arguments (C99, annex F.9) are
    written out below; their values at ordinary arguments are whatever the
    platform computes, a parameter of the model. *)

Record libm : Type :=
  { hypot_ord : float -> float -> float;
    atan2_ord : float -> float -> float;
    sin_ord : float -> float;
    cos_ord : float -> float }.

Module Cmath.
Section Libm.

Variable L : libm.

(** F.9.4.3: an infinite argument gives +inf, even when the other one
    is a NaN. *)
Definition hypot (x y : float) : float :=
  if F64.is_inf x || F64.is_inf y then F64.pinf
  else if F64.is_nan x || F64.is_nan y then F64.nan
  else hypot_ord L x y.

Definition atan2 (y x : float) : float :=
  if F64.is_nan y || F64.is_nan x then F64.nan
  else atan2_ord L y x.

(** F.9.1.6, F.9.1.5: NaN at NaN and at the infinities. *)
Definition sin (x : float) : float :=
  if F64.is_finite x then sin_ord L x else F64.nan.

Definition cos (x : float) : float :=
  if F64.is_finite x then cos_ord L x else F64.nan.

End Libm.
End Cmath.

(* ================================================================= *)
(** * oceans.ocfis *)

Module Ocfis.
Section Ocfis.

Variable L : libm.

(** A complex number, as its real and imaginary parts. *)
Definition complex : Type := (float * float)%type.

Definition cadd (a b : complex) : complex :=
  (F64.add (fst a) (fst b), F64.add (snd a) (snd b)).

Definition cmul (a b : complex) : complex :=
  (F64.sub (F64.mul (fst a) (fst b)) (F64.mul (snd a) (snd b)),
   F64.add (F64.mul (fst a) (snd b)) (F64.mul (snd a) (fst b))).

Definition of_real (x : float) : complex := (x, F64.zero).

Definition imag_unit : complex := (F64.zero, F64.one).

(** [vec = u + 1j * v] *)
Definition vec (u v : float) : complex :=
  cadd (of_real u) (cmul imag_unit (of_real v)).

(** [np.abs] of a complex number *)
Definition cabs (z : complex) : float := Cmath.hypot L (fst z) (snd z).

(** [np.angle(z, deg=True)] *)
Definition angle_deg (z : complex) : float :=
  F64.mul (Cmath.atan2 L (snd z) (fst z)) (F64.div (F64.of_Z 180) F64.pi).

(** One cell of [uv2spdir(u, v)], with [mag = 0] and [rot = 0]:
    the pair (angle, speed). *)
Definition uv2spdir1 (u v : float) : float * float :=
  let z := vec u v in
  let spd := cabs z in
  let ang := angle_deg z in
  let ang := F64.add (F64.sub ang (F64.of_Z 0)) (F64.of_Z 0) in
  let ang := Np.mod_ (F64.sub (F64.of_Z 90) ang) (F64.of_Z 360) in
  (ang, spd).

(** One cell of [spdir2uv(spd, ang, deg=True)]. *)
Definition spdir2uv1 (spd ang : float) : float * float :=
  let ang := Np.deg2rad ang in
  (F64.mul spd (Cmath.sin L ang), F64.mul spd (Cmath.cos L ang)).

(** [uv2spdir] takes [np.asarray] of its arguments: a mask is dropped
    and the data under it is used. *)
Definition uv2spdir (u v : masked)
  : result (list (list float) * list (list float)) :=
  cells <- zip2 uv2spdir1 (asarray u) (asarray v) ;;
  Ok (map (map fst) cells, map (map snd) cells).

Definition spdir2uv (spd ang : list (list float))
  : result (list (list float) * list (list float)) :=
  cells <- zip2 spdir2uv1 spd ang ;;
  Ok (map (map fst) cells, map (map snd) cells).

End Ocfis.
End Ocfis.

(* ================================================================= *)
(** * The world: pyplot, the file system, dataset handles *)

(** A path, as the list of its components; [Path(p).parent] drops the
    last one and the empty path is the working directory. *)
Definition path : Type := list string.

Definition parent (p : path) : path := removelast p.

Definition path_eqb (p q : path) : bool :=
  if list_eq_dec string_dec p q then true else false.

Record marker : Type :=
  { m_lon : float;
    m_lat : float;
    m_style : list (string * string) }.

Record quiver : Type :=
  { q_X : list (list float);
    q_Y : list (list float);
    q_U : list (list float);
    q_V : list (list float);
    q_C : ndarray float;
    q_cmap : string;
    q_scale : Z }.

Record colorbar : Type :=
  { cb_ticks : list float;
    cb_ticklabels : list string;
    cb_label : string }.

(** What has been drawn on a figure. *)
Record figure : Type :=
  { fig_title : option string;
    fig_quiver : option quiver;
    fig_colorbar : option colorbar;
    fig_markers : list marker;
    fig_gridlines : bool;
    fig_extent : option (list float);
    fig_features : list string }.

Definition blank : figure :=
  {| fig_title := None; fig_quiver := None; fig_colorbar := None;
     fig_markers := []; fig_gridlines := false; fig_extent := None;
     fig_features := [] |}.

(** A gridded dataset, after [squeeze]: a variable or coordinate that is
    absent is [None]. *)
Record dataset : Type :=
  { ds_u : option (list (list float));
    ds_v : option (list (list float));
    ds_time : option (list string);
    ds_lon : option (ndarray float);
    ds_lat : option (ndarray float) }.

Record world : Type :=
  { figures : list figure;          (* open figures, the current one first *)
    dirs : list path;               (* existing directories *)
    images : list (path * (figure * Z));   (* raster files, with their dpi *)
    netcdf : list (path * dataset); (* dataset files *)
    handles : list path;            (* dataset files held open *)
    rc_figsize : float * float }.

Definition with_figures (w : world) (fs : list figure) : world :=
  {| figures := fs; dirs := dirs w; images := images w; netcdf := netcdf w;
     handles := handles w; rc_figsize := rc_figsize w |}.

Definition with_dirs (w : world) (ds : list path) : world :=
  {| figures := figures w; dirs := ds; images := images w;
     netcdf := netcdf w; handles := handles w; rc_figsize := rc_figsize w |}.

Definition with_images (w : world) (im : list (path * (figure * Z)))
  : world :=
  {| figures := figures w; dirs := dirs w; images := im; netcdf := netcdf w;
     handles := handles w; rc_figsize := rc_figsize w |}.

Definition with_handles (w : world) (hs : list path) : world :=
  {| figures := figures w; dirs := dirs w; images := images w;
     netcdf := netcdf w; handles := hs; rc_figsize := rc_figsize w |}.

Definition with_figsize (w : world) (sz : float * float) : world :=
  {| figures := figures w; dirs := dirs w; images := images w;
     netcdf := netcdf w; handles := handles w; rc_figsize := sz |}.

(** Statements: a state transformer that may raise.  The world reached
    when an exception escapes is kept: it is what the caller is left
    with. *)
Definition M (A : Type) : Type := world -> result A * world.

Definition ret {A} (a : A) : M A := fun w => (Ok a, w).

Definition raise {A} (e : exn) : M A := fun w => (Raise e, w).

Definition bindM {A B} (c : M A) (k : A -> M B) : M B :=
  fun w =>
    match c w with
    | (Ok a, w') => k a w'
    | (Raise e, w') => (Raise e, w')
    end.

Definition lift {A} (r : result A) : M A := fun w => (r, w).

Definition modify (f : world -> world) : M unit := fun w => (Ok tt, f w).

Notation "x <-- c ;; k" := (bindM c (fun x => k))
  (at level 100, c at next level, right associativity).
Notation "c ;;; k" := (bindM c (fun _ => k))
  (at level 100, right associativity).

Module Plt.

(** The module object [plt] itself, which [plot_common] returns. *)
Inductive pyplot : Type := Pyplot.

(** [plt.figure()] and [plt.subplots()] open a new figure and make it
    the current one. *)
Definition figure_ : M unit :=
  modify (fun w => with_figures w (blank :: figures w)).

Definition subplots : M unit :=
  modify (fun w => with_figures w (blank :: figures w)).

(** Drawing goes to the axes of the current figure. *)
Definition draw (f : figure -> figure) : M unit :=
  modify (fun w =>
            match figures w with
            | [] => w
            | g :: rest => with_figures w (f g :: rest)
            end).

Definition title (t : string) : M unit :=
  draw (fun g =>
          {| fig_title := Some t; fig_quiver := fig_quiver g;
             fig_colorbar := fig_colorbar g; fig_markers := fig_markers g;
             fig_gridlines := fig_gridlines g;
             fig_extent := fig_extent g;
             fig_features := fig_features g |}).

Definition quiver_ (q : quiver) : M unit :=
  draw (fun g =>
          {| fig_title := fig_title g; fig_quiver := Some q;
             fig_colorbar := fig_colorbar g; fig_markers := fig_markers g;
             fig_gridlines := fig_gridlines g;
             fig_extent := fig_extent g;
             fig_features := fig_features g |}).

Definition colorbar_ (c : colorbar) : M unit :=
  draw (fun g =>
          {| fig_title := fig_title g; fig_quiver := fig_quiver g;
             fig_colorbar := Some c; fig_markers := fig_markers g;
             fig_gridlines := fig_gridlines g;
             fig_extent := fig_extent g;
             fig_features := fig_features g |}).

Definition plot (m : marker) : M unit :=
  draw (fun g =>
          {| fig_title := fig_title g; fig_quiver := fig_quiver g;
             fig_colorbar := fig_colorbar g;
             fig_markers := fig_markers g ++ [m];
             fig_gridlines := fig_gridlines g;
             fig_extent := fig_extent g;
             fig_features := fig_features g |}).

Definition gridlines : M unit :=
  draw (fun g =>
          {| fig_title := fig_title g; fig_quiver := fig_quiver g;
             fig_colorbar := fig_colorbar g; fig_markers := fig_markers g;
             fig_gridlines := true;
             fig_extent := fig_extent g;
             fig_features := fig_features g |}).

(** [ax.set_extent(e)]: limits that are NaN or infinite are refused with
    a [ValueError], and the axes are not changed. *)
Definition valid_limits (e : list float) : bool := forallb F64.is_finite e.

Definition set_extent (e : list float) : M unit :=
  fun w =>
    if valid_limits e then
      draw (fun g =>
              {| fig_title := fig_title g; fig_quiver := fig_quiver g;
                 fig_colorbar := fig_colorbar g;
                 fig_markers := fig_markers g;
                 fig_gridlines := fig_gridlines g;
                 fig_extent := Some e;
                 fig_features := fig_features g |}) w
    else (Raise ValueError, w).

Definition add_feature (name : string) : M unit :=
  draw (fun g =>
          {| fig_title := fig_title g; fig_quiver := fig_quiver g;
             fig_colorbar := fig_colorbar g; fig_markers := fig_markers g;
             fig_gridlines := fig_gridlines g;
             fig_extent := fig_extent g;
             fig_features := fig_features g ++ [name] |}).

Definition dir_exists (w : world) (d : path) : bool :=
  match d with
  | [] => true
  | _ => existsb (path_eqb d) (dirs w)
  end.

(** [plt.savefig(f, dpi=d)] rasterises the current figure; the
    directory of [f] must exist. *)
Definition savefig (f : path) (dpi : Z) : M unit :=
  fun w =>
    if dir_exists w (parent f) then
      (Ok tt,
       with_images w
         ((f, (hd blank (figures w), dpi))
            :: filter (fun e => negb (path_eqb f (fst e))) (images w)))
    else (Raise OSError, w).

(** [plt.close('all')] *)
Definition close_all : M unit := modify (fun w => with_figures w []).

End Plt.

(* ================================================================= *)
(** * codar_processing.src.common *)

(** The directories a nested directory needs: its non-empty prefixes,
    the shortest first. *)
Fixpoint prefixes (d : path) : list path :=
  match d with
  | [] => []
  | c :: rest => [c] :: map (cons c) (prefixes rest)
  end.

Definition is_image (w : world) (p : path) : bool :=
  existsb (fun e => path_eqb p (fst e)) (images w).

(** Modelled from the spec: [create_dir] of [codar_processing.src.common],
    which the renderer imports and whose source is not at hand.  Section
    4.5: "ensure the containing directory exists (creating it if
    necessary)"; section 7: "DirectoryCreationFailure: output directory
    cannot be created (permissions, invalid path); surfaced as a filesystem
    error".  Here the directory and the missing ones above it are created,
    and the creation fails when a regular file stands where a directory is
    needed. *)
Definition create_dir (d : path) : M unit :=
  fun w =>
    if existsb (is_image w) (prefixes d) then (Raise OSError, w)
    else
      (Ok tt,
       with_dirs w
         (dirs w
            ++ filter (fun q => negb (Plt.dir_exists w q)) (prefixes d))).

(* ================================================================= *)
(** * plotting/plot_nc.py *)

Section Plot.

Variable L : libm.

Definition ones_like (a : list (list float)) : list (list float) :=
  map (map (fun _ => F64.one)) a.

(** Lines 115-123: [angle], [speed], [us], [vs]. *)
Definition decompose (u v : list (list float))
  : result (list (list float) * list (list float)
            * list (list float) * list (list float)) :=
  let u := masked_invalid u in
  let v := masked_invalid v in
  r <- Ocfis.uv2spdir L u v ;;
  let '(angle, speed) := r in
  r' <- Ocfis.spdir2uv L (ones_like speed) angle ;;
  let '(us, vs) := r' in
  Ok (angle, speed, us, vs).

(** Line 130: [velocity_min or 0]. *)
Definition effective_min (velocity_min : option float) : float :=
  or_else velocity_min (F64.of_Z 0).

(** Line 131: [velocity_max or np.nanmax(speed) or 15].  The maximum is
    computed only when [velocity_max] is [None] or false. *)
Definition speed_ceiling (speed : list (list float)) : result float :=
  m <- nanmax (Arr2 speed) ;;
  Ok (if truthy m then m else F64.of_Z 15).

Definition effective_max (velocity_max : option float)
  (speed : list (list float)) : result float :=
  match velocity_max with
  | Some a => if truthy a then Ok a else speed_ceiling speed
  | None => speed_ceiling speed
  end.

(** Lines 133-137: [np.clip(speed[::sub, ::sub], lo, hi).squeeze()]. *)
Definition clip_stage (sub : Z) (lo hi : float)
  (speed : list (list float)) : result (ndarray float) :=
  s <- slice2 sub speed ;;
  Ok (squeeze (clip (Arr2 s) lo hi)).

(** Line 163-165: the ticks and their labels. *)
Definition colorbar_ticks (lo hi : float) : list float :=
  linspace lo hi 5.

Definition tick_labels (ticks : list float) : list string :=
  map format_2f ticks.

(** Lines 186-191: the argument of [set_extent]. *)
Definition map_extent (lon lat : ndarray float) : result (list float) :=
  lon_min <- amin lon ;;
  lon_max <- amax lon ;;
  lat_min <- amin lat ;;
  lat_max <- amax lat ;;
  Ok [F64.sub lon_min F64.one; F64.add lon_max F64.one;
      F64.sub lat_min F64.one; F64.add lat_max F64.one].

Fixpoint plot_markers (ms : list marker) : M unit :=
  match ms with
  | [] => ret tt
  | m :: rest => Plt.plot m ;;; plot_markers rest
  end.

(** Lines 202-208. *)
Definition output_sink (output_file : option path)
  : M (option Plt.pyplot) :=
  match output_file with
  | Some f =>
      create_dir (parent f) ;;;
      let resoluton := 150%Z in
      Plt.savefig f resoluton ;;;
      Plt.close_all ;;;
      ret None
  | None => ret (Some Plt.Pyplot)
  end.

Definition newline : string := String (ascii_of_nat 10) EmptyString.

(** Lines 111-200: everything up to the output. *)
Definition compose (time : string) (lon lat : ndarray float)
  (u v : list (list float))
  (meshgrid : bool) (sub : Z) (velocity_min velocity_max : option float)
  (markers : option (list marker)) (title : string) : M unit :=
  let markers := match markers with Some m => m | None => [] end in
  Plt.figure_ ;;;
  d <-- lift (decompose u v) ;;
  let '(angle, speed, us, vs) := d in
  let '(lons, lats) :=
    if meshgrid
    then (Arr2 (fst (Np.meshgrid lon lat)), Arr2 (snd (Np.meshgrid lon lat)))
    else (lon, lat) in
  let velocity_min := effective_min velocity_min in
  velocity_max <-- lift (effective_max velocity_max speed) ;;
  speed_clipped <-- lift (clip_stage sub velocity_min velocity_max speed) ;;
  Plt.subplots ;;;
  Plt.title (title ++ newline ++ time)%string ;;;
  X <-- lift (slice2_nd sub lons) ;;
  Y <-- lift (slice2_nd sub lats) ;;
  U <-- lift (slice2 sub us) ;;
  V <-- lift (slice2 sub vs) ;;
  Plt.quiver_ {| q_X := X; q_Y := Y; q_U := U; q_V := V;
                 q_C := speed_clipped; q_cmap := "jet"; q_scale := 60 |} ;;;
  let ticks := colorbar_ticks velocity_min velocity_max in
  Plt.colorbar_ {| cb_ticks := ticks; cb_ticklabels := tick_labels ticks;
                   cb_label := "cm/s" |} ;;;
  plot_markers markers ;;;
  Plt.gridlines ;;;
  e <-- lift (map_extent lon lat) ;;
  Plt.set_extent e ;;;
  Plt.add_feature "land" ;;;
  Plt.add_feature "lakes" ;;;
  Plt.add_feature "borders" ;;;
  Plt.add_feature "state_lines" ;;;
  modify (fun w =>
            with_figsize w (F64.of_Z 12, F64.div (F64.of_Z 17) (F64.of_Z 2))).

Definition plot_common (time : string) (lon lat : ndarray float)
  (u v : list (list float)) (output_file : option path)
  (meshgrid : bool) (sub : Z) (velocity_min velocity_max : option float)
  (markers : option (list marker)) (title : string)
  : M (option Plt.pyplot) :=
  compose time lon lat u v meshgrid sub velocity_min velocity_max
    markers title ;;;
  output_sink output_file.

(** The figure [compose] draws, as a function of its arguments. *)
Definition rendered (time : string) (lon lat : ndarray float)
  (u v : list (list float))
  (meshgrid : bool) (sub : Z) (velocity_min velocity_max : option float)
  (markers : option (list marker)) (title : string) : result figure :=
  d <- decompose u v ;;
  let '(angle, speed, us, vs) := d in
  let '(lons, lats) :=
    if meshgrid
    then (Arr2 (fst (Np.meshgrid lon lat)), Arr2 (snd (Np.meshgrid lon lat)))
    else (lon, lat) in
  let lo := effective_min velocity_min in
  hi <- effective_max velocity_max speed ;;
  c <- clip_stage sub lo hi speed ;;
  X <- slice2_nd sub lons ;;
  Y <- slice2_nd sub lats ;;
  U <- slice2 sub us ;;
  V <- slice2 sub vs ;;
  e <- map_extent lon lat ;;
  _ <- (if Plt.valid_limits e then Ok tt else Raise ValueError) ;;
  Ok {| fig_title := Some (title ++ newline ++ time)%string;
        fig_quiver :=
          Some {| q_X := X; q_Y := Y; q_U := U; q_V := V; q_C := c;
                  q_cmap := "jet"; q_scale := 60 |};
        fig_colorbar :=
          Some {| cb_ticks := colorbar_ticks lo hi;
                  cb_ticklabels := tick_labels (colorbar_ticks lo hi);
                  cb_label := "cm/s" |};
        fig_markers := match markers with Some m => m | None => [] end;
        fig_gridlines := true;
        fig_extent := Some e;
        fig_features :=
          ["land"; "lakes"; "borders"; "state_lines"]%string |}.

(** The world [compose] leaves when it has drawn [g]. *)
Definition composed (w : world) (g : figure) : world :=
  with_figsize (with_figures w (g :: blank :: figures w))
    (F64.of_Z 12, F64.div (F64.of_Z 17) (F64.of_Z 2)).

(** ** The source adapters *)

Inductive source : Type :=
| FromPath (p : path)       (* a path to a dataset file *)
| InMemory (d : dataset)    (* an [xr.Dataset] object *)
| Other.                    (* anything else *)

(** [xr.open_dataset]: a path is opened and held open; anything that is
    not a path raises [AttributeError], which is what the adapters
    expect of a dataset object. *)
Definition open_dataset (s : source) : M (dataset * path) :=
  match s with
  | FromPath p =>
      fun w =>
        match find (fun e => path_eqb p (fst e)) (netcdf w) with
        | Some e => (Ok (snd e, p), with_handles w (p :: handles w))
        | None => (Raise OSError, w)
        end
  | _ => raise AttributeError
  end.

(** [ds.close] *)
Definition close (p : path) : M unit :=
  modify (fun w =>
            with_handles w
              (filter (fun q => negb (path_eqb p q)) (handles w))).

Definition getitem {A} (x : option A) : M A :=
  match x with
  | Some a => ret a
  | None => raise KeyError
  end.

(** Lines 35-43 and 70-78: the dataset and the function that closes
    it. *)
Definition acquire (s : source) : M (dataset * M unit) :=
  fun w =>
    match open_dataset s w with
    | (Ok (ds, p), w') => (Ok (ds, close p), w')
    | (Raise AttributeError, w') =>
        match s with
        | InMemory d => (Ok (d, ret tt), w')
        | _ => (Raise AttributeError, w')
        end
    | (Raise e, w') => (Raise e, w')
    end.

(** Lines 45-50 and 80-85. *)
Definition read_fields (ds : dataset)
  : M (string * ndarray float * ndarray float
       * list (list float) * list (list float)) :=
  u <-- getitem (ds_u ds) ;;
  v <-- getitem (ds_v ds) ;;
  time <-- match ds_time ds with
           | None => raise AttributeError
           | Some [] => raise IndexError
           | Some (t :: _) => ret t
           end ;;
  lon <-- getitem (ds_lon ds) ;;
  lat <-- getitem (ds_lat ds) ;;
  ret (time, lon, lat, u, v).

Definition plot_source (meshgrid : bool) (s : source)
  (output_file : option path) (sub : Z)
  (velocity_min velocity_max : option float)
  (markers : option (list marker)) (title : string) : M unit :=
  a <-- acquire s ;;
  let '(ds, closing) := a in
  f <-- read_fields ds ;;
  let '(time, lon, lat, u, v) := f in
  closing ;;;
  plot_common time lon lat u v output_file meshgrid sub
    velocity_min velocity_max markers title ;;;
  ret tt.

Definition plot_radials := plot_source false.

Definition plot_totals := plot_source true.

End Plot.

(* ================================================================= *)
(** * Values to run the model on *)

(** A C library for the examples: [hypot] by the textbook formula, and
    for the other three functions the values of glibc at the arguments
    that a field of [u = v = 1] reaches, NaN elsewhere. *)
Definition quarter_pi : float := F64.div F64.pi (F64.of_Z 4).

Definition libm_sample : libm :=
  {| hypot_ord := fun x y =>
       F64.sqrt (F64.add (F64.mul x x) (F64.mul y y));
     atan2_ord := fun y x =>
       if F64.eqb y x && F64.gtb x F64.zero then quarter_pi else F64.nan;
     sin_ord := fun x =>
       if F64.eqb x quarter_pi
       then S754_finite false 6369051672525772 (-53)
       else F64.nan;
     cos_ord := fun x =>
       if F64.eqb x quarter_pi
       then S754_finite false 6369051672525773 (-53)
       else F64.nan |}.

(** A world with nothing open and an empty file system. *)
Definition empty_world : world :=
  {| figures := []; dirs := []; images := []; netcdf := []; handles := [];
     rc_figsize := (F64.zero, F64.zero) |}.

(** A grid of [n] rows and [m] columns holding [x] everywhere. *)
Definition full {A} (n m : nat) (x : A) : list (list A) :=
  repeat (repeat x m) n.

Definition sample_lon : ndarray float :=
  Arr1 [F64.of_Z (-75); F64.of_Z (-74); F64.of_Z (-73); F64.of_Z (-72)].

Definition sample_lat : ndarray float :=
  Arr1 [F64.of_Z 35; F64.of_Z 36; F64.of_Z 37; F64.of_Z 38].

Definition sample_png : path := ["out"; "maps"; "radials.png"]%string.

Definition sample_nc : path := ["data"; "totals.nc"]%string.

(** A dataset file without the variable [u]. *)
Definition dataset_without_u : dataset :=
  {| ds_u := None;
     ds_v := Some (full 4 4 F64.one);
     ds_time := Some ["2019-01-01T00:00:00"%string];
     ds_lon := Some sample_lon;
     ds_lat := Some sample_lat |}.

Definition world_with (d : dataset) : world :=
  {| figures := []; dirs := []; images := []; netcdf := [(sample_nc, d)];
     handles := []; rc_figsize := (F64.zero, F64.zero) |}.

Definition sample_dataset : dataset :=
  {| ds_u := Some (full 4 4 F64.one);
     ds_v := Some (full 4 4 F64.one);
     ds_time := Some ["2019-01-01T00:00:00"%string];
     ds_lon := Some sample_lon;
     ds_lat := Some sample_lat |}.

(* ================================================================= *)
(** * Auxiliary definitions *)

(** [a[i][j]] when both indices are in range. *)
Definition get2 {A} (a : list (list A)) (i j : nat) : option A :=
  match nth_error a i with
  | Some r => nth_error r j
  | None => None
  end.

(** A cell that is a number or an infinity. *)
Definition not_nan (x : float) : Prop := F64.is_nan x = false.

(** The state of [fmax.reduce] after the cells [seen]: NaN when they all
    are, their greatest number otherwise. *)
Definition fmax_inv (acc : float) (seen : list float) : Prop :=
  (acc = F64.nan /\ Forall (fun y => y = F64.nan) seen)
  \/ (not_nan acc /\ In acc seen
      /\ forall y, In y seen -> not_nan y -> F64.leb y acc = true).

Definition add_markers (g : figure) (ms : list marker) : figure :=
  {| fig_title := fig_title g; fig_quiver := fig_quiver g;
     fig_colorbar := fig_colorbar g;
     fig_markers := fig_markers g ++ ms;
     fig_gridlines := fig_gridlines g;
     fig_extent := fig_extent g;
     fig_features := fig_features g |}.

(** The figure a call has drawn: without a destination it is the
    current figure, with a destination it is the image written there at
    150 dots per inch. *)
Definition drawn (o : option path) (w : world) (g : figure) : Prop :=
  match o with
  | None => hd_error (figures w) = Some g
  | Some f =>
      find (fun e => path_eqb f (fst e)) (images w) = Some (f, (g, 150%Z))
  end.

(** The parts of the world drawing does not touch. *)
Definition same_files (w w' : world) : Prop :=
  dirs w' = dirs w /\ images w' = images w
  /\ netcdf w' = netcdf w /\ handles w' = handles w.

(** The coordinates handed to [quiver], before the slice. *)
Definition lons_of (lon lat : ndarray float) (meshgrid : bool)
  : ndarray float :=
  if meshgrid then Arr2 (fst (Np.meshgrid lon lat)) else lon.

Definition lats_of (lon lat : ndarray float) (meshgrid : bool)
  : ndarray float :=
  if meshgrid then Arr2 (snd (Np.meshgrid lon lat)) else lat.



(* ================================================================= *)
(** * The order of binary64 *)

Module F64Facts.

Lemma compare_key (x y : float) :
  F64.is_nan x = false -> F64.is_nan y = false ->
  match SFcompare x y with
  | Some Lt => F64.lex_lt (F64.key x) (F64.key y)
  | Some Eq => F64.key x = F64.key y
  | Some Gt => F64.lex_lt (F64.key y) (F64.key x)
  | None => False
  end.
Proof.
  destruct x as [sx|sx| |sx mx ex], y as [sy|sy| |sy my ey];
    try discriminate; intros _ _; cbn.
  all: try reflexivity.
  all: try (destruct sx; cbn; lia).
  all: try (destruct sy; cbn; lia).
  all: try (destruct sx, sy; cbn; first [reflexivity | lia]).
  change (Pos.compare_cont Eq mx my) with (Pos.compare mx my).
  destruct sx, sy; cbn; try lia;
    destruct (Z.compare_spec ex ey); cbn; try lia; subst;
    destruct (Pos.compare_spec mx my); cbn; subst;
    first [reflexivity | lia].
Qed.

Lemma compare_nan_l (y : float) : SFcompare S754_nan y = None.
Proof. destruct y; reflexivity. Qed.

Lemma compare_nan_r (x : float) : SFcompare x S754_nan = None.
Proof. destruct x; reflexivity. Qed.

Lemma is_nan_eq (x : float) : F64.is_nan x = true -> x = F64.nan.
Proof. destruct x; cbn; intros; try discriminate; reflexivity. Qed.

Lemma ltb_key (x y : float) :
  F64.is_nan x = false -> F64.is_nan y = false ->
  (F64.ltb x y = true <-> F64.lex_lt (F64.key x) (F64.key y)).
Proof.
  intros Hx Hy. pose proof (compare_key x y Hx Hy) as H.
  pose proof (compare_key y x Hy Hx) as H'.
  unfold F64.ltb, SFltb.
  destruct (SFcompare x y) as [[]|]; try tauto;
    destruct (F64.key x) as [[a1 a2] a3], (F64.key y) as [[b1 b2] b3];
    cbn in *; split; intros; try discriminate; try lia; try congruence.
  injection H as -> -> ->. lia.
Qed.

Lemma leb_key (x y : float) :
  F64.is_nan x = false -> F64.is_nan y = false ->
  (F64.leb x y = true <-> F64.lex_le (F64.key x) (F64.key y)).
Proof.
  intros Hx Hy. pose proof (compare_key x y Hx Hy) as H.
  unfold F64.leb, SFleb.
  destruct (SFcompare x y) as [[]|]; try tauto;
    destruct (F64.key x) as [[a1 a2] a3], (F64.key y) as [[b1 b2] b3];
    cbn in *; split; intros; try discriminate; try lia; try congruence.
  injection H as -> -> ->. lia.
Qed.

Lemma ltb_nan_l (y : float) : F64.ltb F64.nan y = false.
Proof. unfold F64.ltb, SFltb, F64.nan. now rewrite compare_nan_l. Qed.

Lemma ltb_nan_r (x : float) : F64.ltb x F64.nan = false.
Proof. unfold F64.ltb, SFltb, F64.nan. now rewrite compare_nan_r. Qed.

Lemma leb_nan_l (y : float) : F64.leb F64.nan y = false.
Proof. unfold F64.leb, SFleb, F64.nan. now rewrite compare_nan_l. Qed.

Lemma leb_nan_r (x : float) : F64.leb x F64.nan = false.
Proof. unfold F64.leb, SFleb, F64.nan. now rewrite compare_nan_r. Qed.

Lemma leb_nan_r' (x : float) : SFleb x F64.nan = false.
Proof. exact (leb_nan_r x). Qed.

Lemma leb_not_nan (x y : float) :
  F64.leb x y = true -> F64.is_nan x = false /\ F64.is_nan y = false.
Proof.
  intros H; split.
  - destruct (F64.is_nan x) eqn:E; [|reflexivity].
    apply is_nan_eq in E; subst. now rewrite leb_nan_l in H.
  - destruct (F64.is_nan y) eqn:E; [|reflexivity].
    apply is_nan_eq in E; subst. now rewrite leb_nan_r in H.
Qed.

Lemma ltb_not_nan (x y : float) :
  F64.ltb x y = true -> F64.is_nan x = false /\ F64.is_nan y = false.
Proof.
  intros H; split.
  - destruct (F64.is_nan x) eqn:E; [|reflexivity].
    apply is_nan_eq in E; subst. now rewrite ltb_nan_l in H.
  - destruct (F64.is_nan y) eqn:E; [|reflexivity].
    apply is_nan_eq in E; subst. now rewrite ltb_nan_r in H.
Qed.

Lemma ltb_irrefl (x : float) : F64.ltb x x = false.
Proof.
  destruct (F64.ltb x x) eqn:E; [|reflexivity].
  destruct (ltb_not_nan _ _ E) as [Hx _].
  apply (ltb_key x x Hx Hx) in E.
  destruct (F64.key x) as [[a b] c]. cbn in E. lia.
Qed.

Lemma ltb_leb_false (x y : float) :
  F64.ltb x y = true -> F64.leb y x = false.
Proof.
  intros E. destruct (ltb_not_nan _ _ E) as [Hx Hy].
  destruct (F64.leb y x) eqn:E'; [|reflexivity].
  apply (ltb_key x y Hx Hy) in E. apply (leb_key y x Hy Hx) in E'.
  destruct (F64.key x) as [[a b] c], (F64.key y) as [[a' b'] c']. cbn in *. lia.
Qed.

Lemma leb_ltb_false (x y : float) :
  F64.leb x y = true -> F64.ltb y x = false.
Proof.
  intros E. destruct (F64.ltb y x) eqn:E'; [|reflexivity].
  apply ltb_leb_false in E'. congruence.
Qed.

Lemma ltb_leb (x y : float) : F64.ltb x y = true -> F64.leb x y = true.
Proof.
  intros E. destruct (ltb_not_nan _ _ E) as [Hx Hy].
  apply (leb_key x y Hx Hy). apply (ltb_key x y Hx Hy) in E.
  destruct (F64.key x) as [[a b] c], (F64.key y) as [[a' b'] c']. cbn in *. lia.
Qed.

Lemma lex_lt_dec_aux (a b : Z * Z * Z) : F64.lex_lt a b \/ F64.lex_le b a.
Proof.
  destruct a as [[a1 a2] a3], b as [[b1 b2] b3]. cbn. lia.
Qed.

(** Two numbers are comparable. *)
Lemma not_ltb_leb (x y : float) :
  F64.is_nan x = false -> F64.is_nan y = false ->
  F64.ltb x y = false -> F64.leb y x = true.
Proof.
  intros Hx Hy E. apply (leb_key y x Hy Hx).
  destruct (lex_lt_dec_aux (F64.key x) (F64.key y)) as [H|H].
  - apply (ltb_key x y Hx Hy) in H. congruence.
  - exact H.
Qed.

Lemma leb_trans (x y z : float) :
  F64.leb x y = true -> F64.leb y z = true -> F64.leb x z = true.
Proof.
  intros E1 E2.
  destruct (leb_not_nan _ _ E1) as [Hx Hy].
  destruct (leb_not_nan _ _ E2) as [_ Hz].
  apply (leb_key x y Hx Hy) in E1. apply (leb_key y z Hy Hz) in E2.
  apply (leb_key x z Hx Hz).
  destruct (F64.key x) as [[a b] c], (F64.key y) as [[a' b'] c'],
    (F64.key z) as [[a'' b''] c'']. cbn in *. lia.
Qed.

Lemma leb_refl (x : float) : F64.is_nan x = false -> F64.leb x x = true.
Proof.
  intros Hx. apply (leb_key x x Hx Hx).
  destruct (F64.key x) as [[a b] c]. cbn. lia.
Qed.

Lemma leb_total (x y : float) :
  F64.is_nan x = false -> F64.is_nan y = false ->
  F64.leb x y = true \/ F64.leb y x = true.
Proof.
  intros Hx Hy.
  destruct (F64.ltb y x) eqn:E.
  - right. now apply ltb_leb.
  - left. now apply not_ltb_leb.
Qed.

Lemma leb_ltb_trans (x y z : float) :
  F64.leb x y = true -> F64.ltb y z = true -> F64.ltb x z = true.
Proof.
  intros E1 E2.
  destruct (leb_not_nan _ _ E1) as [Hx Hy].
  destruct (ltb_not_nan _ _ E2) as [_ Hz].
  apply (leb_key x y Hx Hy) in E1. apply (ltb_key y z Hy Hz) in E2.
  apply (ltb_key x z Hx Hz).
  destruct (F64.key x) as [[a b] c], (F64.key y) as [[a' b'] c'],
    (F64.key z) as [[a'' b''] c'']. cbn in *. lia.
Qed.

Lemma ltb_asym (x y : float) : F64.ltb x y = true -> F64.ltb y x = false.
Proof. intros H. apply leb_ltb_false. now apply ltb_leb. Qed.

(** Two numbers that bound each other compare equal. *)
Lemma leb_antisym (x y : float) :
  F64.leb x y = true -> F64.leb y x = true -> F64.eqb x y = true.
Proof.
  intros E1 E2. destruct (leb_not_nan _ _ E1) as [Hx Hy].
  pose proof (compare_key x y Hx Hy) as H.
  apply (leb_key x y Hx Hy) in E1. apply (leb_key y x Hy Hx) in E2.
  unfold F64.eqb, SFeqb.
  destruct (SFcompare x y) as [[]|]; try reflexivity; try contradiction;
    destruct (F64.key x) as [[a b] c], (F64.key y) as [[a' b'] c'];
    cbn in *; lia.
Qed.

(** [x == 0.0] holds of the two zeros only. *)
Lemma eqb_zero (x : float) : F64.eqb x F64.zero = F64.is_zero x.
Proof. destruct x as [s|s| |s m e]; try destruct s; reflexivity. Qed.

Lemma truthy_is_zero (x : float) : truthy x = negb (F64.is_zero x).
Proof. unfold truthy. now rewrite eqb_zero. Qed.





End F64Facts.

(* ================================================================= *)
(** * The magnitude of binary64 results *)

Module Magnitude.
Local Open Scope Z_scope.









Local Abbreviation fexp := (SpecFloat.fexp F64.prec F64.emax).






















End Magnitude.

(* ================================================================= *)
(** * Slices *)

Section Slices.

Context {A : Type}.

Lemma every_from_nth (k : nat) (l : list A) :
  forall c i,
    nth_error (every_from k c l) i = nth_error l (c + i * S k).
Proof.
  induction l as [|x t IH]; intros c i; cbn [every_from].
  - now rewrite !nth_error_nil.
  - destruct c as [|c'].
    + destruct i as [|i']; [reflexivity|].
      cbn [nth_error]. rewrite IH.
      replace (0 + S i' * S k) with (S (k + i' * S k)) by lia.
      reflexivity.
    + rewrite IH. reflexivity.
Qed.

Lemma every_from_length (k : nat) (l : list A) :
  forall c, c <= k ->
    length (every_from k c l) = (length l + k - c) / S k.
Proof.
  induction l as [|x t IH]; intros c Hc; cbn [every_from length].
  - symmetry. apply Nat.div_small. lia.
  - destruct c as [|c'].
    + cbn [length]. rewrite IH by lia.
      replace (S (length t) + k - 0) with (length t + k - k + 1 * S k)
        by lia.
      rewrite Nat.div_add by lia. lia.
    + rewrite IH by lia. f_equal; lia.
Qed.

(** [l[::step][i]] is [l[i * step]]. *)
Lemma every_nth (step : nat) (l : list A) (i : nat) :
  1 <= step -> nth_error (every step l) i = nth_error l (i * step).
Proof.
  intros H. unfold every. rewrite every_from_nth.
  replace (S (Nat.pred step)) with step by lia. reflexivity.
Qed.

(** [len(l[::step])] is [len(l)] divided by [step], rounded up. *)
Lemma every_length (step : nat) (l : list A) :
  1 <= step -> length (every step l) = (length l + step - 1) / step.
Proof.
  intros H. unfold every. rewrite every_from_length by lia.
  replace (S (Nat.pred step)) with step by lia. f_equal. lia.
Qed.

End Slices.

Section Arrays.

Context {A : Type}.

Lemma slice2_get (p : positive) (a : list (list A)) (i j : nat) :
  exists s, slice2 (Zpos p) a = Ok s /\
    get2 s i j = get2 a (i * Pos.to_nat p) (j * Pos.to_nat p).
Proof.
  eexists; split; [reflexivity|].
  unfold get2. rewrite nth_error_map.
  rewrite every_nth by lia.
  destruct (nth_error a (i * Pos.to_nat p)) as [r|]; cbn; [|reflexivity].
  apply every_nth. lia.
Qed.

(** The shape of a slice is a function of the shape of the array. *)
Lemma slice2_shape (p : positive) (a : list (list A)) :
  shape2 (map (every (Pos.to_nat p)) (every (Pos.to_nat p) a))
  = ((fst (shape2 a) + Pos.to_nat p - 1) / Pos.to_nat p,
     (snd (shape2 a) + Pos.to_nat p - 1) / Pos.to_nat p).
Proof.
  unfold shape2; cbn [fst snd]. rewrite length_map.
  rewrite every_length by lia. f_equal.
  destruct a as [|r t]; cbn.
  - symmetry. apply Nat.div_small. lia.
  - apply every_length. lia.
Qed.

Lemma ravel_squeeze (a : ndarray A) : ravel (squeeze a) = ravel a.
Proof.
  destruct a as [x|l|rows]; cbn; [reflexivity| |].
  - destruct l as [|x [|y t]]; reflexivity.
  - destruct rows as [|r [|r' t]]; cbn; [reflexivity| |].
    + rewrite app_nil_r. destruct r as [|x [|y t]]; reflexivity.
    + destruct (length t); destruct r as [|x [|y r]]; reflexivity.
Qed.

Lemma squeeze_amap {B} (f : A -> B) (a : ndarray A) :
  squeeze (amap f a) = amap f (squeeze a).
Proof.
  destruct a as [x|l|rows]; cbn; [reflexivity| |].
  - destruct l as [|x [|y t]]; reflexivity.
  - rewrite <- concat_map, !length_map.
    destruct rows as [|r t]; cbn; [reflexivity|].
    rewrite ?length_map.
    destruct (length t), r as [|x [|y r]]; reflexivity.
Qed.

Lemma ravel_amap {B} (f : A -> B) (a : ndarray A) :
  ravel (amap f a) = map f (ravel a).
Proof.
  destruct a as [x|l|rows]; cbn; try reflexivity.
  now rewrite concat_map.
Qed.

End Arrays.

(* ================================================================= *)
(** * Reductions *)

Section Reductions.

Import F64Facts.







Lemma fmax_step (acc b : float) (seen : list float) :
  fmax_inv acc seen -> fmax_inv (fmax acc b) (seen ++ [b]).
Proof.
  intros [[-> Hall]|(Ha & Hin & Hle)]; unfold fmax, F64.geb.
  - rewrite leb_nan_r' . cbn [orb].
    destruct (F64.is_nan b) eqn:Hb.
    + left. split; [reflexivity|].
      apply Forall_app; split; [assumption|].
      constructor; [now apply is_nan_eq|constructor].
    + right. split; [assumption|]. split; [apply in_or_app; right; now left|].
      intros y Hy Hny. apply in_app_or in Hy as [Hy|[<-|[]]].
      * rewrite Forall_forall in Hall. rewrite (Hall _ Hy) in Hny.
        discriminate.
      * now apply leb_refl.
  - destruct (F64.is_nan b) eqn:Hb.
    + rewrite orb_true_r. right. split; [assumption|].
      split; [apply in_or_app; now left|].
      intros y Hy Hny. apply in_app_or in Hy as [Hy|[<-|[]]]; auto.
      unfold not_nan in Hny. congruence.
    + rewrite orb_false_r.
      destruct (SFleb b acc) eqn:E; right.
      * split; [assumption|]. split; [apply in_or_app; now left|].
        intros y Hy Hny. apply in_app_or in Hy as [Hy|[<-|[]]]; auto.
      * destruct (leb_total acc b Ha Hb) as [H|H];
          [|unfold F64.leb in H; congruence].
        split; [assumption|].
        split; [apply in_or_app; right; now left|].
        intros y Hy Hny. apply in_app_or in Hy as [Hy|[<-|[]]].
        -- eauto using leb_trans.
        -- now apply leb_refl.
Qed.

Lemma fold_fmax (t : list float) :
  forall acc seen,
    fmax_inv acc seen -> fmax_inv (fold_left fmax t acc) (seen ++ t).
Proof.
  induction t as [|b t IH]; intros acc seen H; cbn [fold_left].
  - now rewrite app_nil_r.
  - replace (seen ++ b :: t) with ((seen ++ [b]) ++ t)
      by (now rewrite <- app_assoc).
    apply IH. now apply fmax_step.
Qed.

(** [np.nanmax] of a non-empty array. *)
Lemma nanmax_spec (a : ndarray float) :
  ravel a <> [] ->
  exists m, nanmax a = Ok m /\ fmax_inv m (ravel a).
Proof.
  unfold nanmax, reduce. destruct (ravel a) as [|x t]; [congruence|].
  intros _. eexists; split; [reflexivity|].
  apply (fold_fmax t x [x]).
  destruct (F64.is_nan x) eqn:Hx.
  - left. apply is_nan_eq in Hx. split; [assumption|].
    constructor; [assumption|constructor].
  - right. split; [assumption|]. split; [now left|].
    intros y [<-|[]] _. now apply leb_refl.
Qed.

End Reductions.

(* ================================================================= *)
(** * The clip *)

Section Clip.

Import F64Facts.

Variables lo hi : float.

Lemma clip_max_nan (a b : float) :
  F64.is_nan a = true -> clip_max a b = a.
Proof. intros H. unfold clip_max. now rewrite H. Qed.

Lemma clip_min_nan (a b : float) :
  F64.is_nan a = true -> clip_min a b = a.
Proof. intros H. unfold clip_min. now rewrite H. Qed.

Lemma clip_max_same (a : float) : clip_max a a = a.
Proof. unfold clip_max. now destruct (F64.is_nan a), (F64.gtb a a). Qed.

Lemma clip_min_same (a : float) : clip_min a a = a.
Proof. unfold clip_min. now destruct (F64.is_nan a), (F64.ltb a a). Qed.

Lemma clip_max_idempotent (a b : float) :
  clip_max (clip_max a b) b = clip_max a b.
Proof.
  unfold clip_max at 2 3.
  destruct (F64.is_nan a) eqn:Ha; [now apply clip_max_nan|].
  destruct (F64.gtb a b) eqn:E.
  - unfold clip_max. now rewrite Ha, E.
  - apply clip_max_same.
Qed.

Lemma clip1_is_nan (x : float) :
  F64.is_nan x = true -> clip1 lo hi x = x.
Proof.
  intros H. unfold clip1. rewrite (clip_max_nan _ _ H).
  now apply clip_min_nan.
Qed.

Lemma clip1_idempotent (x : float) :
  clip1 lo hi (clip1 lo hi x) = clip1 lo hi x.
Proof.
  unfold clip1. set (t := clip_max x lo).
  assert (Ht : clip_max t lo = t) by apply clip_max_idempotent.
  unfold clip_min at 2 3.
  destruct (F64.is_nan t) eqn:Nt; [now rewrite Ht, clip_min_nan|].
  destruct (F64.ltb t hi) eqn:E.
  { rewrite Ht. unfold clip_min. now rewrite Nt, E. }
  unfold clip_max.
  destruct (F64.is_nan hi) eqn:Nh; [now apply clip_min_nan|].
  change (F64.gtb hi lo) with (F64.ltb lo hi).
  destruct (F64.ltb lo hi) eqn:El.
  { apply clip_min_same. }
  unfold clip_min. rewrite El.
  destruct (F64.is_nan lo) eqn:Nl; [|reflexivity].
  exfalso. apply is_nan_eq in Nl. subst t. unfold clip_max in Nt.
  rewrite Nl in Nt. unfold F64.gtb in Nt. rewrite ltb_nan_l in Nt.
  destruct (F64.is_nan x) eqn:Nx; cbn in Nt; congruence.
Qed.

Hypothesis lo_le_hi : F64.leb lo hi = true.

Lemma clip1_bounds (x : float) :
  F64.ltb (clip1 lo hi x) lo = false
  /\ F64.gtb (clip1 lo hi x) hi = false
  /\ (F64.is_nan x = false ->
      F64.leb lo (clip1 lo hi x) = true
      /\ F64.leb (clip1 lo hi x) hi = true).
Proof.
  destruct (leb_not_nan _ _ lo_le_hi) as [Hl Hh].
  destruct (F64.is_nan x) eqn:Hx.
  { rewrite (clip1_is_nan _ Hx). apply is_nan_eq in Hx; subst.
    unfold F64.gtb. rewrite ltb_nan_l, ltb_nan_r.
    repeat split; discriminate. }
  unfold clip1, clip_max. rewrite Hx.
  change (F64.gtb x lo) with (F64.ltb lo x).
  destruct (F64.ltb lo x) eqn:E1; unfold clip_min, F64.gtb.
  - rewrite Hx. destruct (F64.ltb x hi) eqn:E2.
    + repeat split; auto using ltb_leb, leb_ltb_false, ltb_asym.
    + repeat split; auto using ltb_irrefl, leb_ltb_false, leb_refl.
  - rewrite Hl. destruct (F64.ltb lo hi) eqn:E2.
    + repeat split; auto using ltb_irrefl, leb_ltb_false, leb_refl.
    + repeat split; auto using ltb_irrefl, leb_ltb_false, leb_refl.
Qed.

(** A cell above the range is pulled to the upper bound, a cell below it
    to the lower bound, and a cell in the range keeps its value. *)
Lemma clip1_above (x : float) :
  F64.gtb x hi = true -> clip1 lo hi x = hi.
Proof.
  unfold F64.gtb. intros H. destruct (ltb_not_nan _ _ H) as [_ Hx].
  unfold clip1, clip_max. rewrite Hx.
  change (F64.gtb x lo) with (F64.ltb lo x).
  rewrite (leb_ltb_trans _ _ _ lo_le_hi H).
  unfold clip_min. now rewrite Hx, (ltb_asym _ _ H).
Qed.

Lemma clip1_below (x : float) :
  F64.ltb x lo = true -> F64.eqb (clip1 lo hi x) lo = true.
Proof.
  intros H. destruct (ltb_not_nan _ _ H) as [Hx Hl].
  unfold clip1, clip_max. rewrite Hx.
  change (F64.gtb x lo) with (F64.ltb lo x).
  rewrite (ltb_asym _ _ H). unfold clip_min. rewrite Hl.
  destruct (F64.ltb lo hi) eqn:E.
  - apply leb_antisym; now apply leb_refl.
  - apply leb_antisym; [|assumption].
    apply not_ltb_leb; auto. now destruct (leb_not_nan _ _ lo_le_hi).
Qed.

Lemma clip1_inside (x : float) :
  F64.leb lo x = true -> F64.leb x hi = true ->
  F64.eqb (clip1 lo hi x) x = true.
Proof.
  intros H1 H2. destruct (leb_not_nan _ _ H1) as [Hl Hx].
  destruct (leb_not_nan _ _ H2) as [_ Hh].
  unfold clip1, clip_max. rewrite Hx.
  change (F64.gtb x lo) with (F64.ltb lo x).
  destruct (F64.ltb lo x) eqn:E1; unfold clip_min.
  - rewrite Hx. destruct (F64.ltb x hi) eqn:E2.
    + apply leb_antisym; now apply leb_refl.
    + apply leb_antisym; [now apply not_ltb_leb|assumption].
  - assert (E : F64.leb x lo = true) by now apply not_ltb_leb.
    rewrite Hl. destruct (F64.ltb lo hi) eqn:E2.
    + now apply leb_antisym.
    + apply leb_antisym; [|assumption].
      apply leb_trans with lo; [now apply not_ltb_leb|assumption].
Qed.

End Clip.

(* ================================================================= *)
(** * The default ceiling (C1) *)

Section Ceiling.

Import F64Facts.

(** C1, as amended.  When [velocity_max] is [None] and [speed] is not
    empty, the ceiling is [m], the result of [np.nanmax(speed)], unless
    [m] is a zero, and then it is 15.  [m] is NaN exactly when every cell
    is NaN, and NaN is then the ceiling: a NaN is true in Python, so
    there is no fallback.  Otherwise [m] is the greatest of the cells
    that are not NaN.  For a field of zeros the ceiling is 15. *)
Theorem C1_default_ceiling (speed : list (list float)) :
  concat speed <> [] ->
  exists m,
    nanmax (Arr2 speed) = Ok m
    /\ effective_max None speed
       = Ok (if F64.is_zero m then F64.of_Z 15 else m)
    /\ (F64.is_nan m = true <->
        Forall (fun y => F64.is_nan y = true) (concat speed))
    /\ (F64.is_nan m = false ->
        In m (concat speed)
        /\ forall y, In y (concat speed) -> F64.is_nan y = false ->
                     F64.leb y m = true)
    /\ (Forall (fun y => F64.is_zero y = true) (concat speed) ->
        effective_max None speed = Ok (F64.of_Z 15)).
Proof.
  intros Hne.
  destruct (nanmax_spec (Arr2 speed) Hne) as (m & Hm & Hinv).
  cbn [ravel] in Hinv.
  assert (Heff : effective_max None speed
                 = Ok (if F64.is_zero m then F64.of_Z 15 else m)).
  { unfold effective_max, speed_ceiling. rewrite Hm. cbn [Py.bind].
    rewrite truthy_is_zero. now destruct (F64.is_zero m). }
  exists m. split; [assumption|]. split; [assumption|].
  destruct Hinv as [[-> Hall]|(Hn & Hin & Hle)].
  - split; [|split; [discriminate|]].
    + split; [intros _|reflexivity].
      eapply Forall_impl; [|exact Hall]. now intros y ->.
    + intros Hz. destruct (concat speed) as [|y t]; [congruence|].
      inversion Hall; inversion Hz; subst. discriminate.
  - split; [|split; [auto|]].
    + split; [unfold not_nan in Hn; congruence|].
      intros Hall. rewrite Forall_forall in Hall. exact (Hall _ Hin).
    + intros Hz. rewrite Forall_forall in Hz.
      now rewrite Heff, (Hz _ Hin).
Qed.

Lemma C1_default_ceiling_witness :
  exists m,
    nanmax (Arr2 [[F64.zero; F64.zero]]) = Ok m
    /\ effective_max None [[F64.zero; F64.zero]]
       = Ok (if F64.is_zero m then F64.of_Z 15 else m)
    /\ (F64.is_nan m = true <->
        Forall (fun y => F64.is_nan y = true)
          (concat [[F64.zero; F64.zero]]))
    /\ (F64.is_nan m = false ->
        In m (concat [[F64.zero; F64.zero]])
        /\ forall y, In y (concat [[F64.zero; F64.zero]]) ->
                     F64.is_nan y = false -> F64.leb y m = true)
    /\ (Forall (fun y => F64.is_zero y = true)
          (concat [[F64.zero; F64.zero]]) ->
        effective_max None [[F64.zero; F64.zero]] = Ok (F64.of_Z 15)).
Proof.
  apply (C1_default_ceiling [[F64.zero; F64.zero]]). cbn. discriminate.
Defined.

(** C1 as stated fails where every cell is NaN: the maximum is NaN,
    which is true, and stays the ceiling. *)
Lemma C1_nan_maximum_is_kept :
  nanmax (Arr2 [[F64.nan; F64.nan]]) = Ok F64.nan
  /\ truthy F64.nan = true
  /\ effective_max None [[F64.nan; F64.nan]] = Ok F64.nan
  /\ effective_max None [[F64.nan; F64.nan]] <> Ok (F64.of_Z 15).
Proof. repeat split. discriminate. Qed.

End Ceiling.

(* ================================================================= *)
(** * The clipped field (C3, C8) *)

Section Clipped.

(** C3.  With a stride of at least one and [lo <= hi], the clip stage
    returns a field that holds the clip of every cell of the subsampled
    speed, in order, none dropped; no cell of it is below [lo] or above
    [hi]; every cell that is a number lies in the range; a cell above the
    range has become [hi], a cell below it [lo], and a cell in the range
    has kept its value. *)
Theorem C3_clipped_within_bounds (speed : list (list float)) (sub : Z)
  (lo hi : float) :
  (1 <= sub)%Z -> F64.leb lo hi = true ->
  exists s c,
    slice2 sub speed = Ok s
    /\ clip_stage sub lo hi speed = Ok c
    /\ ravel c = map (clip1 lo hi) (concat s)
    /\ (forall y, In y (ravel c) ->
          F64.ltb y lo = false /\ F64.gtb y hi = false
          /\ (F64.is_nan y = false ->
              F64.leb lo y = true /\ F64.leb y hi = true))
    /\ (forall x, F64.gtb x hi = true -> clip1 lo hi x = hi)
    /\ (forall x, F64.ltb x lo = true ->
                  F64.eqb (clip1 lo hi x) lo = true)
    /\ (forall x, F64.leb lo x = true -> F64.leb x hi = true ->
                  F64.eqb (clip1 lo hi x) x = true).
Proof.
  intros Hsub Hle.
  destruct sub as [|p|p]; try lia.
  eexists; eexists. split; [reflexivity|]. split; [reflexivity|].
  split; [unfold clip; now rewrite ravel_squeeze, ravel_amap|].
  split; [|auto using clip1_above, clip1_below, clip1_inside].
  intros y Hy. unfold clip in Hy. rewrite ravel_squeeze, ravel_amap in Hy.
  apply in_map_iff in Hy as (x & <- & _).
  destruct (clip1_bounds lo hi Hle x) as (H1 & H2 & H3).
  split; [assumption|]. split; [assumption|].
  intros Hn. apply H3.
  destruct (F64.is_nan x) eqn:Hx; [|reflexivity].
  rewrite (clip1_is_nan lo hi x Hx) in Hn. congruence.
Qed.

Lemma C3_clipped_within_bounds_witness :
  exists s c,
    slice2 2 [[F64.of_Z 50; F64.one; F64.nan]; [F64.one; F64.one; F64.one]]
    = Ok s
    /\ clip_stage 2 (F64.of_Z 0) (F64.of_Z 10)
         [[F64.of_Z 50; F64.one; F64.nan]; [F64.one; F64.one; F64.one]]
       = Ok c
    /\ ravel c = map (clip1 (F64.of_Z 0) (F64.of_Z 10)) (concat s)
    /\ (forall y, In y (ravel c) ->
          F64.ltb y (F64.of_Z 0) = false
          /\ F64.gtb y (F64.of_Z 10) = false
          /\ (F64.is_nan y = false ->
              F64.leb (F64.of_Z 0) y = true
              /\ F64.leb y (F64.of_Z 10) = true))
    /\ (forall x, F64.gtb x (F64.of_Z 10) = true ->
                  clip1 (F64.of_Z 0) (F64.of_Z 10) x = F64.of_Z 10)
    /\ (forall x, F64.ltb x (F64.of_Z 0) = true ->
                  F64.eqb (clip1 (F64.of_Z 0) (F64.of_Z 10) x)
                    (F64.of_Z 0) = true)
    /\ (forall x, F64.leb (F64.of_Z 0) x = true ->
                  F64.leb x (F64.of_Z 10) = true ->
                  F64.eqb (clip1 (F64.of_Z 0) (F64.of_Z 10) x) x = true).
Proof.
  apply (C3_clipped_within_bounds
           [[F64.of_Z 50; F64.one; F64.nan]; [F64.one; F64.one; F64.one]]
           2 (F64.of_Z 0) (F64.of_Z 10)); [lia|reflexivity].
Defined.

(** Scenario 3 of the spec: a speed of 50 between the bounds 0 and 10 is
    drawn as exactly 10. *)
Example clip_50_is_10 :
  clip_stage 1 (F64.of_Z 0) (F64.of_Z 10) [[F64.one; F64.of_Z 50]]
  = Ok (Arr1 [F64.one; F64.of_Z 10]).
Proof. reflexivity. Qed.

(** C8.  Clipping a clipped array again, with the same bounds, gives the
    same array: for [np.clip] alone, and for the output of the clip
    stage, whatever the array and the bounds. *)
Theorem C8_clip_idempotent (a : ndarray float) (lo hi : float) :
  clip (clip a lo hi) lo hi = clip a lo hi
  /\ clip (squeeze (clip a lo hi)) lo hi = squeeze (clip a lo hi).
Proof.
  assert (H : clip (clip a lo hi) lo hi = clip a lo hi).
  { unfold clip. destruct a as [x|l|rows]; cbn [amap].
    - now rewrite clip1_idempotent.
    - rewrite map_map. f_equal. apply map_ext.
      intros x. apply clip1_idempotent.
    - rewrite map_map. f_equal. apply map_ext. intros r.
      rewrite map_map. apply map_ext. intros x. apply clip1_idempotent. }
  split; [assumption|].
  unfold clip at 1. rewrite <- squeeze_amap.
  change (amap (clip1 lo hi) (clip a lo hi))
    with (clip (clip a lo hi) lo hi).
  now rewrite H.
Qed.

End Clipped.

(* ================================================================= *)
(** * Elementwise operations *)

Section Elementwise.

Context {A B C : Type}.
Variable f : A -> B -> C.

Lemma zip1_total (l1 : list A) :
  forall l2 : list B, length l1 = length l2 ->
    exists r, zip1 f l1 l2 = Ok r.
Proof.
  induction l1 as [|x t IH]; intros [|y t'] H; try discriminate.
  - now exists [].
  - injection H as H. destruct (IH t' H) as (r & Hr).
    exists (f x y :: r). cbn. now rewrite Hr.
Qed.

Lemma zip1_nth (l1 : list A) :
  forall (l2 : list B) r, zip1 f l1 l2 = Ok r ->
    length l1 = length l2 /\ length r = length l1
    /\ forall j, nth_error r j
                 = match nth_error l1 j, nth_error l2 j with
                   | Some x, Some y => Some (f x y)
                   | _, _ => None
                   end.
Proof.
  induction l1 as [|x t IH]; intros [|y t'] r H; try discriminate.
  - injection H as <-. repeat split. now intros [|j].
  - cbn in H. destruct (zip1 f t t') as [r'|] eqn:E; try discriminate.
    injection H as <-. destruct (IH _ _ E) as (H1 & H2 & H3).
    cbn [length]. repeat split; try congruence.
    intros [|j]; [reflexivity|apply H3].
Qed.

Lemma zip2_total (a : list (list A)) :
  forall b : list (list B), map (@length A) a = map (@length B) b ->
    exists c, zip2 f a b = Ok c.
Proof.
  induction a as [|r t IH]; intros [|r' t'] H; try discriminate.
  - now exists [].
  - injection H as H H'. destruct (IH t' H') as (c & Hc).
    destruct (zip1_total r r' H) as (c0 & Hc0).
    exists (c0 :: c). cbn. now rewrite Hc0, Hc.
Qed.

Lemma zip2_get (a : list (list A)) :
  forall (b : list (list B)) c, zip2 f a b = Ok c ->
    map (@length A) a = map (@length B) b
    /\ map (@length C) c = map (@length A) a
    /\ forall i j, get2 c i j
                   = match get2 a i j, get2 b i j with
                     | Some x, Some y => Some (f x y)
                     | _, _ => None
                     end.
Proof.
  induction a as [|r t IH]; intros [|r' t'] c H; try discriminate.
  - injection H as <-. repeat split. now intros [|i] j.
  - cbn in H. destruct (zip1 f r r') as [c0|] eqn:E0; try discriminate.
    cbn in H. destruct (zip2 f t t') as [c1|] eqn:E1; try discriminate.
    injection H as <-.
    destruct (zip1_nth _ _ _ E0) as (H1 & H2 & H3).
    destruct (IH _ _ E1) as (H4 & H5 & H6).
    cbn [map]. repeat split; try congruence.
    intros [|i] j; [|apply H6]. unfold get2. cbn [nth_error].
    rewrite H3. destruct (nth_error r j) eqn:Er; [reflexivity|].
    destruct (nth_error r' j) eqn:Er'; [|reflexivity].
    apply nth_error_None in Er.
    assert (j < length r') by (apply nth_error_Some; congruence). lia.
Qed.

End Elementwise.

Lemma get2_map {A B} (g : A -> B) (a : list (list A)) (i j : nat) :
  get2 (map (map g) a) i j = option_map g (get2 a i j).
Proof.
  unfold get2. rewrite nth_error_map.
  destruct (nth_error a i) as [r|]; cbn; [|reflexivity].
  apply nth_error_map.
Qed.

Lemma map_length_map {A B} (g : A -> B) (a : list (list A)) :
  map (@length B) (map (map g) a) = map (@length A) a.
Proof.
  rewrite map_map. apply map_ext. intros r. apply length_map.
Qed.

(* ================================================================= *)
(** * The decomposer (C2) *)

Section Decomposer.

Variable L : libm.










(** The decomposer works cell by cell, on arrays of one shape. *)
Lemma decompose_cells (u v : list (list float)) :
  map (@length float) u = map (@length float) v ->
  exists angle speed us vs,
    decompose L u v = Ok (angle, speed, us, vs)
    /\ map (@length float) angle = map (@length float) u
    /\ map (@length float) speed = map (@length float) u
    /\ map (@length float) us = map (@length float) u
    /\ map (@length float) vs = map (@length float) u
    /\ forall i j,
        match get2 u i j, get2 v i j with
        | Some x, Some y =>
            get2 angle i j = Some (fst (Ocfis.uv2spdir1 L x y))
            /\ get2 speed i j = Some (snd (Ocfis.uv2spdir1 L x y))
            /\ get2 us i j
               = Some (fst (Ocfis.spdir2uv1 L F64.one
                              (fst (Ocfis.uv2spdir1 L x y))))
            /\ get2 vs i j
               = Some (snd (Ocfis.spdir2uv1 L F64.one
                              (fst (Ocfis.uv2spdir1 L x y))))
        | _, _ =>
            get2 angle i j = None /\ get2 speed i j = None
            /\ get2 us i j = None /\ get2 vs i j = None
        end.
Proof.
  intros Hs.
  destruct (zip2_total (Ocfis.uv2spdir1 L) u v Hs) as (c1 & E1).
  destruct (zip2_get _ _ _ _ E1) as (_ & Hl1 & Hg1).
  set (angle := map (map fst) c1). set (speed := map (map snd) c1).
  assert (Hs2 : map (@length float) (ones_like speed)
                = map (@length float) angle).
  { unfold ones_like, speed, angle. now rewrite !map_length_map. }
  destruct (zip2_total (Ocfis.spdir2uv1 L) _ _ Hs2) as (c2 & E2).
  destruct (zip2_get _ _ _ _ E2) as (_ & Hl2 & Hg2).
  exists angle, speed, (map (map fst) c2), (map (map snd) c2).
  split.
  { unfold decompose, Ocfis.uv2spdir, Ocfis.spdir2uv.
    unfold asarray, masked_invalid. cbn [ma_data].
    rewrite E1. cbn [Py.bind]. fold angle speed. rewrite E2. reflexivity. }
  assert (Hl3 : map (@length float) (ones_like speed)
                = map (@length float) u).
  { unfold ones_like, speed. now rewrite !map_length_map. }
  split; [unfold angle; rewrite map_length_map; congruence|].
  split; [unfold speed; rewrite map_length_map; congruence|].
  split; [rewrite map_length_map; congruence|].
  split; [rewrite map_length_map; congruence|].
  intros i j. specialize (Hg1 i j). specialize (Hg2 i j).
  assert (Ga : get2 angle i j = option_map fst (get2 c1 i j))
    by apply get2_map.
  assert (Gs : get2 speed i j = option_map snd (get2 c1 i j))
    by apply get2_map.
  assert (Go : get2 (ones_like speed) i j
               = option_map (fun _ => F64.one) (get2 speed i j))
    by apply get2_map.
  assert (Gu : get2 (map (map fst) c2) i j = option_map fst (get2 c2 i j))
    by apply get2_map.
  assert (Gv : get2 (map (map snd) c2) i j = option_map snd (get2 c2 i j))
    by apply get2_map.
  rewrite Gu, Gv, Hg2, Go, Gs, Ga, Hg1.
  destruct (get2 u i j) as [x|]; [|now repeat split].
  destruct (get2 v i j) as [y|]; [|now repeat split].
  cbn [option_map]. repeat split.
Qed.









End Decomposer.


(* ================================================================= *)
(** * The composition runs as [rendered] says *)

Section Composition.

Variable L : libm.

Lemma plot_markers_run (ms : list marker) :
  forall w g rest, figures w = g :: rest ->
    plot_markers ms w
    = (Ok tt, with_figures w (add_markers g ms :: rest)).
Proof.
  induction ms as [|m ms IH]; intros w g rest Hw; cbn [plot_markers].
  - unfold ret, add_markers. rewrite app_nil_r.
    destruct w, g; cbn in *; subst; reflexivity.
  - unfold bindM, Plt.plot, Plt.draw, modify. rewrite Hw.
    rewrite (IH _ (add_markers g [m]) rest) by reflexivity.
    unfold with_figures, add_markers; cbn. now rewrite <- app_assoc.
Qed.

Variables (time : string) (lon lat : ndarray float)
  (u v : list (list float)) (meshgrid : bool) (sub : Z)
  (velocity_min velocity_max : option float)
  (markers : option (list marker)) (title : string).

Lemma bindM_modify {B} (f : world -> world) (k : unit -> M B) (w : world) :
  bindM (modify f) k w = k tt (f w).
Proof. reflexivity. Qed.

Lemma bindM_lift {A B} (r : result A) (k : A -> M B) (w : world) :
  bindM (lift r) k w
  = match r with Ok a => k a w | Raise e => (Raise e, w) end.
Proof. destruct r; reflexivity. Qed.

Lemma bindM_draw {B} (f : figure -> figure) (k : unit -> M B)
  (w : world) (g : figure) (rest : list figure) :
  bindM (Plt.draw f) k (with_figures w (g :: rest))
  = k tt (with_figures w (f g :: rest)).
Proof. reflexivity. Qed.

Lemma bindM_plot_markers {B} (ms : list marker) (k : unit -> M B)
  (w : world) (g : figure) (rest : list figure) :
  bindM (plot_markers ms) k (with_figures w (g :: rest))
  = k tt (with_figures w (add_markers g ms :: rest)).
Proof.
  unfold bindM.
  now rewrite (plot_markers_run ms (with_figures w (g :: rest)) g rest eq_refl).
Qed.

Lemma with_figures_twice (w : world) (a b : list figure) :
  with_figures (with_figures w a) b = with_figures w b.
Proof. reflexivity. Qed.

Lemma figures_with_figures (w : world) (a : list figure) :
  figures (with_figures w a) = a.
Proof. reflexivity. Qed.

Lemma bindM_set_extent {B} (e : list float) (k : unit -> M B)
  (w : world) (g : figure) (rest : list figure) :
  bindM (Plt.set_extent e) k (with_figures w (g :: rest))
  = if Plt.valid_limits e
    then k tt (with_figures w
                 ({| fig_title := fig_title g; fig_quiver := fig_quiver g;
                     fig_colorbar := fig_colorbar g;
                     fig_markers := fig_markers g;
                     fig_gridlines := fig_gridlines g;
                     fig_extent := Some e;
                     fig_features := fig_features g |} :: rest))
    else (Raise ValueError, with_figures w (g :: rest)).
Proof.
  unfold bindM, Plt.set_extent. destruct (Plt.valid_limits e);
    [|reflexivity].
  unfold Plt.draw, modify. cbn [figures with_figures].
  now rewrite with_figures_twice.
Qed.

Ltac fig_norm :=
  cbv beta iota
    delta [fig_title fig_quiver fig_colorbar fig_markers fig_gridlines
             fig_extent fig_features blank add_markers].

Ltac raised :=
  intros [= <- <-]; split; [reflexivity|];
  split; [discriminate|repeat split].

Ltac run_stage r :=
  let e := fresh "e" in
  rewrite bindM_lift; destruct r as [?|e]; cbn [Py.bind]; [|raised].

Ltac draws c :=
  unfold c; rewrite bindM_draw; fig_norm.

(** When the pure part gives a figure, [compose] leaves it as the
    current figure; when it raises, [compose] raises the same exception,
    with the figures it has opened left open. *)
Lemma compose_run (w w' : world) (r : result unit) :
  compose L time lon lat u v meshgrid sub velocity_min velocity_max
    markers title w = (r, w') ->
  match rendered L time lon lat u v meshgrid sub velocity_min
          velocity_max markers title with
  | Ok g => r = Ok tt /\ w' = composed w g
  | Raise e => r = Raise e /\ figures w' <> [] /\ same_files w w'
  end.
Proof.
  unfold rendered, compose, same_files.
  unfold Plt.figure_. rewrite bindM_modify.
  run_stage (decompose L u v).
  destruct a as [[[angle speed] us] vs].
  destruct (if meshgrid then _ else _) as [lons lats].
  run_stage (effective_max velocity_max speed).
  run_stage (clip_stage sub (effective_min velocity_min) a speed).
  unfold Plt.subplots. rewrite bindM_modify.
  rewrite figures_with_figures, with_figures_twice.
  draws Plt.title.
  run_stage (slice2_nd sub lons). run_stage (slice2_nd sub lats).
  run_stage (slice2 sub us). run_stage (slice2 sub vs).
  draws Plt.quiver_. draws Plt.colorbar_.
  rewrite bindM_plot_markers. fig_norm. cbn [app].
  draws Plt.gridlines.
  run_stage (map_extent lon lat).
  rewrite bindM_set_extent. fig_norm.
  destruct (Plt.valid_limits a5); cbn [Py.bind]; [|raised].
  unfold Plt.add_feature. rewrite !bindM_draw. fig_norm. cbn [app].
  unfold modify. intros [= <- <-]. split; reflexivity.
Qed.

Lemma compose_ok (w : world) (g : figure) :
  rendered L time lon lat u v meshgrid sub velocity_min velocity_max
    markers title = Ok g ->
  compose L time lon lat u v meshgrid sub velocity_min velocity_max
    markers title w = (Ok tt, composed w g).
Proof.
  intros H.
  destruct (compose L time lon lat u v meshgrid sub velocity_min
              velocity_max markers title w) as [r w'] eqn:E.
  apply compose_run in E. rewrite H in E. now destruct E as [-> ->].
Qed.

Lemma compose_raise (w : world) (e : exn) :
  rendered L time lon lat u v meshgrid sub velocity_min velocity_max
    markers title = Raise e ->
  exists w',
    compose L time lon lat u v meshgrid sub velocity_min velocity_max
      markers title w = (Raise e, w')
    /\ figures w' <> [] /\ same_files w w'.
Proof.
  intros H.
  destruct (compose L time lon lat u v meshgrid sub velocity_min
              velocity_max markers title w) as [r w'] eqn:E.
  apply compose_run in E. rewrite H in E. destruct E as (-> & E).
  now exists w'.
Qed.

Lemma compose_same_files (w w' : world) (r : result unit) :
  compose L time lon lat u v meshgrid sub velocity_min velocity_max
    markers title w = (r, w') ->
  figures w' <> [] /\ same_files w w'.
Proof.
  intros E. apply compose_run in E.
  destruct (rendered L time lon lat u v meshgrid sub velocity_min
              velocity_max markers title) as [g|e].
  - destruct E as [_ ->]. split; [discriminate|now repeat split].
  - now destruct E as (_ & E).
Qed.

End Composition.

(* ================================================================= *)
(** * The output sink (C5) *)

Section Sink.

Lemma path_eqb_refl (p : path) : path_eqb p p = true.
Proof.
  unfold path_eqb. now destruct (list_eq_dec string_dec p p).
Qed.

Lemma prefixes_self (d : path) : d <> [] -> In d (prefixes d).
Proof.
  induction d as [|c rest IH]; [congruence|]. intros _. cbn.
  destruct rest as [|c' rest']; [now left|].
  right. apply in_map. apply IH. discriminate.
Qed.

(** After [create_dir d] the directory exists, and so does every
    directory that existed before. *)
Lemma create_dir_run (d : path) (w : world) :
  existsb (is_image w) (prefixes d) = false ->
  exists w',
    create_dir d w = (Ok tt, w')
    /\ Plt.dir_exists w' d = true
    /\ (forall q, Plt.dir_exists w q = true -> Plt.dir_exists w' q = true)
    /\ figures w' = figures w /\ images w' = images w
    /\ handles w' = handles w /\ netcdf w' = netcdf w.
Proof.
  intros H. unfold create_dir. rewrite H.
  eexists; split; [reflexivity|]. cbn [figures images handles netcdf].
  split; [|split; [|now repeat split]].
  - destruct d as [|c rest]; [reflexivity|].
    unfold Plt.dir_exists. cbn [dirs with_dirs].
    rewrite existsb_app. apply orb_true_iff.
    destruct (existsb (path_eqb (c :: rest)) (dirs w)) eqn:E;
      [now left|right].
    apply existsb_exists. exists (c :: rest).
    split; [|apply path_eqb_refl].
    apply filter_In. split; [apply prefixes_self; discriminate|].
    unfold Plt.dir_exists. now rewrite E.
  - intros q Hq. destruct q as [|c rest]; [reflexivity|].
    unfold Plt.dir_exists in *. cbn [dirs with_dirs].
    rewrite existsb_app. now rewrite Hq.
Qed.

Lemma create_dir_blocked (d : path) (w : world) :
  existsb (is_image w) (prefixes d) = true ->
  create_dir d w = (Raise OSError, w).
Proof. intros H. unfold create_dir. now rewrite H. Qed.

(** The sink with a destination, on a world where no regular file
    stands in the way of the directory. *)
Lemma output_sink_file (f : path) (w : world) :
  existsb (is_image w) (prefixes (parent f)) = false ->
  exists w',
    output_sink (Some f) w = (Ok None, w')
    /\ figures w' = []
    /\ Plt.dir_exists w' (parent f) = true
    /\ find (fun e => path_eqb f (fst e)) (images w')
       = Some (f, (hd blank (figures w), 150%Z))
    /\ (forall q, Plt.dir_exists w q = true -> Plt.dir_exists w' q = true)
    /\ handles w' = handles w.
Proof.
  intros H.
  destruct (create_dir_run (parent f) w H)
    as (w1 & E1 & Hd & Hold & Hf & Hi & Hh & Hn).
  unfold output_sink, bindM. rewrite E1.
  unfold Plt.savefig. rewrite Hd.
  unfold Plt.close_all, modify, ret.
  eexists; split; [reflexivity|].
  cbn [figures images handles dirs with_figures with_images find fst].
  rewrite path_eqb_refl, Hf.
  repeat split; auto.
Qed.

Lemma output_sink_none (w : world) :
  output_sink None w = (Ok (Some Plt.Pyplot), w).
Proof. reflexivity. Qed.

(** Whatever the sink does, the dataset handles are as before; when it
    raises, so are the figures; when it returns with a destination, it
    returns [None] and no figure is open. *)
Lemma output_sink_inv (o : option path) (w w' : world)
  (r : result (option Plt.pyplot)) :
  output_sink o w = (r, w') ->
  handles w' = handles w
  /\ (forall e, r = Raise e -> figures w' = figures w)
  /\ (forall x, r = Ok x -> o <> None -> x = None /\ figures w' = []).
Proof.
  destruct o as [f|]; cbn [output_sink].
  - unfold bindM, create_dir.
    destruct (existsb (is_image w) (prefixes (parent f))).
    + intros [= <- <-]. repeat split; discriminate.
    + unfold Plt.savefig.
      destruct (Plt.dir_exists _ (parent f)).
      * unfold Plt.close_all, modify, ret. intros [= <- <-].
        repeat split; try discriminate; congruence.
      * intros [= <- <-]. repeat split; discriminate.
  - intros [= <- <-]. repeat split; try discriminate; congruence.
Qed.

End Sink.

(* ================================================================= *)
(** * Returning or writing the figure (C5) *)

Section Output.

Variable L : libm.

Variables (time : string) (lon lat : ndarray float)
  (u v : list (list float)) (meshgrid : bool) (sub : Z)
  (velocity_min velocity_max : option float)
  (markers : option (list marker)) (title : string).

(** C5.  Whenever the figure [g] can be composed: without a destination
    [plot_common] returns the [plt] handle, the composed figure is open
    and current, and no file or directory has changed; with a
    destination [f], and no regular file in the way of its directory,
    [plot_common] returns [None], the directory of [f] exists (with the
    ones that existed), [f] holds the composed figure at 150 dpi, and no
    figure is left open. *)
Theorem C5_return_or_write (w : world) (g : figure) :
  rendered L time lon lat u v meshgrid sub velocity_min velocity_max
    markers title = Ok g ->
  (exists w',
      plot_common L time lon lat u v None meshgrid sub velocity_min
        velocity_max markers title w = (Ok (Some Plt.Pyplot), w')
      /\ hd_error (figures w') = Some g
      /\ images w' = images w /\ dirs w' = dirs w)
  /\ (forall f,
         existsb (is_image w) (prefixes (parent f)) = false ->
         exists w',
           plot_common L time lon lat u v (Some f) meshgrid sub
             velocity_min velocity_max markers title w = (Ok None, w')
           /\ figures w' = []
           /\ Plt.dir_exists w' (parent f) = true
           /\ (forall q, Plt.dir_exists w q = true ->
                         Plt.dir_exists w' q = true)
           /\ find (fun e => path_eqb f (fst e)) (images w')
              = Some (f, (g, 150%Z))).
Proof.
  intros H. split.
  - exists (composed w g). unfold plot_common, bindM.
    rewrite (compose_ok _ _ _ _ _ _ _ _ _ _ _ _ _ _ H).
    now repeat split.
  - intros f Hf.
    destruct (output_sink_file f (composed w g) Hf)
      as (w' & E & H1 & H2 & H3 & H4 & _).
    exists w'. unfold plot_common, bindM.
    rewrite (compose_ok _ _ _ _ _ _ _ _ _ _ _ _ _ _ H), E.
    repeat split; auto.
Qed.

End Output.

(* ================================================================= *)
(** * What is released, and when (C6) *)

Section Cleanup.

Variable L : libm.

Lemma plot_common_inv (time : string) (lon lat : ndarray float)
  (u v : list (list float)) (o : option path) (meshgrid : bool) (sub : Z)
  (velocity_min velocity_max : option float)
  (markers : option (list marker)) (title : string)
  (w w' : world) (r : result (option Plt.pyplot)) :
  plot_common L time lon lat u v o meshgrid sub velocity_min velocity_max
    markers title w = (r, w') ->
  handles w' = handles w
  /\ (forall e, r = Raise e -> figures w' <> [])
  /\ (forall x, r = Ok x -> o <> None -> x = None /\ figures w' = []).
Proof.
  unfold plot_common, bindM.
  destruct (compose L time lon lat u v meshgrid sub velocity_min
              velocity_max markers title w) as [[[]|e1] w1] eqn:E;
    apply compose_same_files in E; destruct E as (Hf & _ & _ & _ & Hh).
  - intros E. apply output_sink_inv in E. destruct E as (H1 & H2 & H3).
    split; [congruence|]. split; [|assumption].
    intros e He. rewrite (H2 e He). assumption.
  - intros [= <- <-]. split; [assumption|].
    split; [intros; assumption|intros; discriminate].
Qed.

(** The adapter, on a dataset file that has every field: the handle is
    closed before the render starts, so it is closed whatever the render
    does. *)
Lemma plot_source_closes (meshgrid : bool) (p : path)
  (entry : path * dataset)
  (o : option path) (sub : Z) (velocity_min velocity_max : option float)
  (markers : option (list marker)) (title : string)
  (w w' : world) (r : result unit) :
  find (fun e => path_eqb p (fst e)) (netcdf w) = Some entry ->
  ds_u (snd entry) <> None -> ds_v (snd entry) <> None ->
  (exists t rest, ds_time (snd entry) = Some (t :: rest)) ->
  ds_lon (snd entry) <> None -> ds_lat (snd entry) <> None ->
  plot_source L meshgrid (FromPath p) o sub velocity_min velocity_max
    markers title w = (r, w') ->
  handles w' = filter (fun q => negb (path_eqb p q)) (handles w)
  /\ ~ In p (handles w').
Proof.
  intros Hfind Hu Hv (t & rest & Ht) Hlon Hlat.
  unfold plot_source. unfold bindM at 1. unfold acquire, open_dataset.
  rewrite Hfind. cbv beta iota.
  unfold bindM at 1. unfold read_fields, getitem.
  destruct (ds_u (snd entry)) as [u|]; [|congruence].
  destruct (ds_v (snd entry)) as [v|]; [|congruence].
  destruct (ds_lon (snd entry)) as [lon|]; [|congruence].
  destruct (ds_lat (snd entry)) as [lat|]; [|congruence].
  rewrite Ht. unfold ret.
  unfold bindM at 1 2 3 4 5. cbv beta iota.
  unfold bindM at 1. unfold close at 1, modify. cbv beta iota.
  unfold bindM.
  destruct (plot_common L t lon lat u v o meshgrid sub velocity_min
              velocity_max markers title _) as [r0 w1] eqn:E.
  apply plot_common_inv in E. destruct E as (Hh & _).
  cbn [handles with_handles filter] in Hh.
  rewrite path_eqb_refl in Hh. cbn [negb] in Hh.
  intros E.
  assert (Hw : w' = w1) by (destruct r0; now injection E).
  subst w'. split; [exact Hh|].
  rewrite Hh. intros Hin. apply filter_In in Hin.
  destruct Hin as [_ Hin]. now rewrite path_eqb_refl in Hin.
Qed.

(** C6, as amended.  The adapters close the dataset handle once the
    fields are read and before the render starts, so a failing render
    leaves no handle open.  [plot_common] closes the figures at its last
    step: when it returns with a destination, no figure is open; when it
    raises, the figures it has opened stay open. *)
Theorem C6_release_at_the_end :
  (forall p entry o sub vmin vmax markers title w r w',
      find (fun e => path_eqb p (fst e)) (netcdf w) = Some entry ->
      ds_u (snd entry) <> None -> ds_v (snd entry) <> None ->
      (exists t rest, ds_time (snd entry) = Some (t :: rest)) ->
      ds_lon (snd entry) <> None -> ds_lat (snd entry) <> None ->
      (plot_radials L (FromPath p) o sub vmin vmax markers title w
       = (r, w') -> ~ In p (handles w'))
      /\ (plot_totals L (FromPath p) o sub vmin vmax markers title w
          = (r, w') -> ~ In p (handles w')))
  /\ (forall time lon lat u v f meshgrid sub vmin vmax markers title
             w x w',
         plot_common L time lon lat u v (Some f) meshgrid sub vmin vmax
           markers title w = (Ok x, w') ->
         x = None /\ figures w' = [])
  /\ (forall time lon lat u v o meshgrid sub vmin vmax markers title
             w e w',
         plot_common L time lon lat u v o meshgrid sub vmin vmax
           markers title w = (Raise e, w') ->
         figures w' <> []).
Proof.
  split; [|split].
  - intros p entry o sub vmin vmax markers title w r w' H1 H2 H3 H4 H5 H6.
    split; intros E;
      eapply plot_source_closes in E; eauto; now destruct E.
  - intros time lon lat u v f meshgrid sub vmin vmax markers title w x w' E.
    apply plot_common_inv in E. destruct E as (_ & _ & E).
    apply (E x eq_refl). discriminate.
  - intros time lon lat u v o meshgrid sub vmin vmax markers title w e w' E.
    apply plot_common_inv in E. destruct E as (_ & E & _).
    now apply (E e).
Qed.

End Cleanup.

(** C6 as stated fails.  A render that raises (here for a stride of zero)
    leaves its figure open although a destination was given, and an
    adapter that raises before [closing()] (here for a dataset without
    [u]) leaves the dataset handle open. *)
Lemma C6_no_cleanup_on_failure :
  (exists w',
      plot_common libm_sample "2019-01-01T00:00:00" sample_lon sample_lat
        (full 4 4 F64.one) (full 4 4 F64.one) (Some sample_png) true 0
        None None None "HF Radar" empty_world = (Raise ValueError, w')
      /\ figures w' = [blank])
  /\ (exists w',
         plot_radials libm_sample (FromPath sample_nc) (Some sample_png) 2
           None None None "HF Radar" (world_with dataset_without_u)
         = (Raise KeyError, w')
         /\ handles w' = [sample_nc]).
Proof.
  split; eexists; split; vm_compute; reflexivity.
Qed.

(* ================================================================= *)
(** * What the composed figure holds *)

Section Rendered.

Variable L : libm.

Variables (time : string) (lon lat : ndarray float)
  (u v : list (list float)) (meshgrid : bool) (sub : Z)
  (velocity_min velocity_max : option float)
  (markers : option (list marker)) (title : string).

Lemma rendered_inv (g : figure) :
  rendered L time lon lat u v meshgrid sub velocity_min velocity_max
    markers title = Ok g ->
  exists angle speed us vs hi c X Y U V e,
    decompose L u v = Ok (angle, speed, us, vs)
    /\ effective_max velocity_max speed = Ok hi
    /\ clip_stage sub (effective_min velocity_min) hi speed = Ok c
    /\ slice2_nd sub (lons_of lon lat meshgrid) = Ok X
    /\ slice2_nd sub (lats_of lon lat meshgrid) = Ok Y
    /\ slice2 sub us = Ok U
    /\ slice2 sub vs = Ok V
    /\ map_extent lon lat = Ok e
    /\ fig_quiver g
       = Some {| q_X := X; q_Y := Y; q_U := U; q_V := V; q_C := c;
                 q_cmap := "jet"; q_scale := 60 |}
    /\ fig_colorbar g
       = Some {| cb_ticks := colorbar_ticks (effective_min velocity_min) hi;
                 cb_ticklabels :=
                   tick_labels
                     (colorbar_ticks (effective_min velocity_min) hi);
                 cb_label := "cm/s" |}
    /\ fig_extent g = Some e
    /\ Plt.valid_limits e = true.
Proof.
  unfold rendered, lons_of, lats_of.
  destruct (decompose L u v) as [[[[angle speed] us] vs]|]; cbn [Py.bind];
    [|discriminate].
  destruct meshgrid;
    destruct (effective_max velocity_max speed) as [hi|] eqn:E1;
    cbn [Py.bind]; try discriminate;
    destruct (clip_stage sub _ hi speed) as [c|] eqn:E2; cbn [Py.bind];
    try discriminate;
    match goal with
    | |- context [slice2_nd sub ?a] =>
        destruct (slice2_nd sub a) as [X|] eqn:E3; cbn [Py.bind];
        try discriminate
    end;
    match goal with
    | |- context [Py.bind (slice2_nd sub ?a)] =>
        destruct (slice2_nd sub a) as [Y|] eqn:E4; cbn [Py.bind];
        try discriminate
    end;
    destruct (slice2 sub us) as [U|] eqn:E5; cbn [Py.bind];
    try discriminate;
    destruct (slice2 sub vs) as [V|] eqn:E6; cbn [Py.bind];
    try discriminate;
    destruct (map_extent lon lat) as [e|] eqn:E7; cbn [Py.bind];
    try discriminate;
    destruct (Plt.valid_limits e) eqn:E8; cbn [Py.bind];
    try discriminate;
    intros [= <-]; exists angle, speed, us, vs, hi, c, X, Y, U, V, e;
    repeat split; try assumption; reflexivity.
Qed.

End Rendered.


(* ================================================================= *)
(** * Where a failing composition stops *)

Section Failures.

Variable L : libm.

Variables (time : string) (lon lat : ndarray float)
  (u v : list (list float)) (meshgrid : bool) (sub : Z)
  (velocity_min velocity_max : option float)
  (markers : option (list marker)) (title : string).

(** The statements before [plt.subplots()]: a failure there leaves the
    one figure of [plt.figure()] and nothing else. *)
Lemma compose_fails_early (w : world) (e : exn) :
  decompose L u v = Raise e
  \/ (exists angle speed us vs,
         decompose L u v = Ok (angle, speed, us, vs)
         /\ (effective_max velocity_max speed = Raise e
             \/ exists hi,
                 effective_max velocity_max speed = Ok hi
                 /\ clip_stage sub (effective_min velocity_min) hi speed
                    = Raise e)) ->
  compose L time lon lat u v meshgrid sub velocity_min velocity_max
    markers title w
  = (Raise e, with_figures w (blank :: figures w)).
Proof.
  unfold compose. unfold Plt.figure_. rewrite bindM_modify.
  rewrite bindM_lift.
  intros [H|(angle & speed & us & vs & H & H')]; rewrite H; [reflexivity|].
  destruct (if meshgrid then _ else _) as [lons lats].
  rewrite bindM_lift.
  destruct H' as [H'|(hi & H' & H'')]; rewrite H'; [reflexivity|].
  rewrite bindM_lift. now rewrite H''.
Qed.

(** The decomposer and the ceiling raise only [ValueError]. *)
Lemma zip1_raises {A B C} (f : A -> B -> C) (l1 : list A) :
  forall (l2 : list B) e, zip1 f l1 l2 = Raise e -> e = ValueError.
Proof.
  induction l1 as [|x t IH]; intros [|y t'] e; cbn; try congruence.
  destruct (zip1 f t t') eqn:E; cbn; [discriminate|].
  intros [= <-]. eauto.
Qed.

Lemma zip2_raises {A B C} (f : A -> B -> C) (a : list (list A)) :
  forall (b : list (list B)) e, zip2 f a b = Raise e -> e = ValueError.
Proof.
  induction a as [|r t IH]; intros [|r' t'] e; cbn; try congruence.
  destruct (zip1 f r r') eqn:E1; cbn.
  - destruct (zip2 f t t') eqn:E2; cbn; [discriminate|].
    intros [= <-]. eauto.
  - intros [= <-]. eapply zip1_raises; eauto.
Qed.

Lemma decompose_raises (e : exn) :
  decompose L u v = Raise e -> e = ValueError.
Proof.
  unfold decompose, Ocfis.uv2spdir, Ocfis.spdir2uv.
  destruct (zip2 (Ocfis.uv2spdir1 L) _ _) as [c1|e1] eqn:E1; cbn [Py.bind].
  - destruct (zip2 (Ocfis.spdir2uv1 L) _ _) as [c2|e2] eqn:E2;
      cbn [Py.bind]; [discriminate|].
    intros [= <-]. eapply zip2_raises; eauto.
  - intros [= <-]. eapply zip2_raises; eauto.
Qed.

Lemma effective_max_raises (speed : list (list float)) (e : exn) :
  effective_max velocity_max speed = Raise e ->
  e = ValueError /\ concat speed = [].
Proof.
  unfold effective_max, speed_ceiling, nanmax, reduce. cbn [ravel].
  destruct velocity_max as [a|]; [destruct (truthy a); [discriminate|]|];
    destruct (concat speed); cbn [Py.bind]; try discriminate;
    now intros [= <-].
Qed.

Lemma plot_common_of_raise (o : option path) (w w1 : world) (e : exn) :
  compose L time lon lat u v meshgrid sub velocity_min velocity_max
    markers title w = (Raise e, w1) ->
  plot_common L time lon lat u v o meshgrid sub velocity_min velocity_max
    markers title w = (Raise e, w1).
Proof. intros H. unfold plot_common, bindM. now rewrite H. Qed.

Lemma concat_nil_of_lengths {A B} (a : list (list A)) :
  forall b : list (list B),
    map (@length A) a = map (@length B) b -> concat b = [] -> concat a = [].
Proof.
  induction a as [|r t IH]; intros [|r' t'] H Hb; try discriminate;
    [reflexivity|].
  injection H as H H'. cbn in Hb. apply app_eq_nil in Hb as [-> Hb].
  destruct r; [|discriminate]. cbn. eauto.
Qed.

Lemma effective_max_ok (speed : list (list float)) :
  concat speed <> [] ->
  exists hi, effective_max velocity_max speed = Ok hi.
Proof.
  intros H. destruct (effective_max velocity_max speed) as [hi|e] eqn:E;
    [now exists hi|].
  apply effective_max_raises in E. now destruct E.
Qed.

(** The field is decomposed, given a ceiling and sampled whenever [u] and
    [v] have one shape and hold a cell, and the stride is not zero. *)
Lemma sampling_ok :
  map (@length float) u = map (@length float) v ->
  concat u <> [] -> sub <> 0%Z ->
  exists angle speed us vs hi c U V,
    decompose L u v = Ok (angle, speed, us, vs)
    /\ effective_max velocity_max speed = Ok hi
    /\ clip_stage sub (effective_min velocity_min) hi speed = Ok c
    /\ slice2 sub us = Ok U /\ slice2 sub vs = Ok V.
Proof.
  intros Hs Hne Hsub.
  destruct (decompose_cells L u v Hs)
    as (angle & speed & us & vs & Hd & _ & Hl & _ & _ & _).
  assert (Hsp : concat speed <> []).
  { intros E. apply Hne.
    exact (concat_nil_of_lengths u speed (eq_sym Hl) E). }
  destruct (effective_max_ok speed Hsp) as (hi & Hhi).
  exists angle, speed, us, vs, hi.
  unfold clip_stage. destruct sub as [|p|p]; [congruence| |];
    cbn [slice2 Py.bind]; do 3 eexists; repeat split; eauto.
Qed.

End Failures.

(* ================================================================= *)
(** * Where a failing composition stops, continued *)

Section Trace.

Variable L : libm.

Variables (time : string) (lon lat : ndarray float)
  (u v : list (list float)) (meshgrid : bool) (sub : Z)
  (velocity_min velocity_max : option float)
  (markers : option (list marker)) (title : string).

Ltac norm_fig :=
  cbv beta iota
    delta [fig_title fig_quiver fig_colorbar fig_markers fig_gridlines
             fig_extent fig_features blank add_markers].

Ltac stops :=
  intros [= <- <-]; split; [reflexivity|];
  first [left; reflexivity | right; eexists; reflexivity].

Ltac stage r :=
  let e := fresh "e" in
  rewrite bindM_lift; destruct r as [?|e]; cbn [Py.bind]; [|stops].

Ltac drawing c :=
  unfold c; rewrite bindM_draw; norm_fig.

(** A composition that raises has changed neither the default figure
    size nor the figures that were open; it leaves the blank figure of
    [plt.figure()] and, when it had reached [plt.subplots()], the
    unfinished map above it. *)
Lemma compose_trace (w w' : world) (e : exn) :
  compose L time lon lat u v meshgrid sub velocity_min velocity_max
    markers title w = (Raise e, w') ->
  rc_figsize w' = rc_figsize w
  /\ (figures w' = blank :: figures w
      \/ exists g, figures w' = g :: blank :: figures w).
Proof.
  unfold compose.
  unfold Plt.figure_. rewrite bindM_modify.
  stage (decompose L u v).
  destruct a as [[[angle speed] us] vs].
  destruct (if meshgrid then _ else _) as [lons lats].
  stage (effective_max velocity_max speed).
  stage (clip_stage sub (effective_min velocity_min) a speed).
  unfold Plt.subplots. rewrite bindM_modify.
  rewrite figures_with_figures, with_figures_twice.
  drawing Plt.title.
  stage (slice2_nd sub lons). stage (slice2_nd sub lats).
  stage (slice2 sub us). stage (slice2 sub vs).
  drawing Plt.quiver_. drawing Plt.colorbar_.
  rewrite bindM_plot_markers. norm_fig. cbn [app].
  drawing Plt.gridlines.
  stage (map_extent lon lat).
  rewrite bindM_set_extent. norm_fig.
  destruct (Plt.valid_limits a5); [|stops].
  unfold Plt.add_feature. rewrite !bindM_draw. norm_fig. cbn [app].
  unfold modify. discriminate.
Qed.

Lemma output_sink_frame (o : option path) (w w' : world)
  (r : result (option Plt.pyplot)) :
  output_sink o w = (r, w') ->
  rc_figsize w' = rc_figsize w /\ netcdf w' = netcdf w
  /\ (o = None -> w' = w).
Proof.
  destruct o as [f|]; cbn [output_sink].
  - unfold bindM, create_dir.
    destruct (existsb (is_image w) (prefixes (parent f))).
    + intros [= <- <-]. repeat split; discriminate.
    + unfold Plt.savefig.
      destruct (Plt.dir_exists _ (parent f)).
      * unfold Plt.close_all, modify, ret. intros [= <- <-].
        repeat split; discriminate.
      * intros [= <- <-]. repeat split; discriminate.
  - intros [= <- <-]. repeat split.
Qed.

End Trace.

(* ================================================================= *)
(** * What [plot_common] raises *)

Section Raises.

Variable L : libm.

Variables (time : string) (lon lat : ndarray float)
  (u v : list (list float)) (meshgrid : bool) (sub : Z)
  (velocity_min velocity_max : option float)
  (markers : option (list marker)) (title : string).

Lemma slice2_ok {A} (a : list (list A)) :
  sub <> 0%Z -> exists s, slice2 sub a = Ok s.
Proof. destruct sub; [congruence| |]; intros _; now eexists. Qed.

Lemma slice2_raises {A} (a : list (list A)) (e : exn) :
  slice2 sub a = Raise e -> e = ValueError /\ sub = 0%Z.
Proof. destruct sub; cbn; try discriminate. now intros [= <-]. Qed.

Lemma map_extent_ok :
  ravel lon <> [] -> ravel lat <> [] -> exists e, map_extent lon lat = Ok e.
Proof.
  intros H1 H2. unfold map_extent, amin, amax, reduce.
  destruct (ravel lon); [congruence|]. destruct (ravel lat); [congruence|].
  now eexists.
Qed.

Lemma map_extent_raises (e : exn) :
  map_extent lon lat = Raise e ->
  e = ValueError /\ (ravel lon = [] \/ ravel lat = []).
Proof.
  unfold map_extent, amin, amax, reduce.
  destruct (ravel lon); cbn [Py.bind]; [intros [= <-]; auto|].
  destruct (ravel lat); cbn [Py.bind]; [intros [= <-]; auto|discriminate].
Qed.

Lemma plot_common_failed (o : option path) (w : world) (e : exn) :
  rendered L time lon lat u v meshgrid sub velocity_min velocity_max
    markers title = Raise e ->
  exists w',
    plot_common L time lon lat u v o meshgrid sub velocity_min velocity_max
      markers title w = (Raise e, w')
    /\ dirs w' = dirs w /\ images w' = images w
    /\ netcdf w' = netcdf w /\ handles w' = handles w
    /\ rc_figsize w' = rc_figsize w.
Proof.
  intros H.
  destruct (compose_raise _ _ _ _ _ _ _ _ _ _ _ _ w e H)
    as (w' & E & _ & H1 & H2 & H3 & H4).
  exists w'. split; [now apply plot_common_of_raise|].
  repeat split; try assumption.
  now apply (compose_trace _ _ _ _ _ _ _ _ _ _ _ _ _ _ _ E).
Qed.

(** Without [meshgrid] the coordinates are sliced as they are: when one
    of them is not of rank two, a request that is well formed otherwise
    ends in [IndexError]. *)
Lemma rendered_index_error :
  map (@length float) u = map (@length float) v ->
  concat u <> [] -> sub <> 0%Z ->
  meshgrid = false ->
  length (shape lon) <> 2 \/ length (shape lat) <> 2 ->
  rendered L time lon lat u v meshgrid sub velocity_min velocity_max
    markers title = Raise IndexError.
Proof.
  intros Hs Hne Hsub -> Hrank.
  destruct (sampling_ok L u v sub velocity_min velocity_max Hs Hne Hsub)
    as (angle & speed & us & vs & hi & c & U & V & Hd & Hhi & Hc & HU & HV).
  unfold rendered. rewrite Hd. cbn [Py.bind]. rewrite Hhi. cbn [Py.bind].
  rewrite Hc. cbn [Py.bind].
  destruct lon as [x|l|X]; try reflexivity.
  cbn [slice2_nd]. destruct (slice2_ok X Hsub) as (X' & ->). cbn [Py.bind].
  destruct lat as [y|l|Y]; try reflexivity.
  cbn in Hrank. destruct Hrank; congruence.
Qed.

Lemma clip_stage_raises (lo hi : float) (speed : list (list float))
  (e : exn) :
  clip_stage sub lo hi speed = Raise e -> e = ValueError.
Proof.
  unfold clip_stage. destruct (slice2 sub speed) eqn:E; cbn [Py.bind];
    [discriminate|].
  intros [= <-]. now apply slice2_raises in E.
Qed.

Lemma slice2_nd_raises (a : ndarray float) (e : exn) :
  slice2_nd sub a = Raise e ->
  e = ValueError \/ (e = IndexError /\ length (shape a) <> 2).
Proof.
  destruct a as [x|l|X]; cbn [slice2_nd].
  - intros [= <-]. right. split; [reflexivity|discriminate].
  - intros [= <-]. right. split; [reflexivity|discriminate].
  - intros H. left. now apply slice2_raises in H.
Qed.

(** What the composition raises: [ValueError], and [IndexError] for
    coordinates that are not of rank two and not expanded by
    [meshgrid]. *)
Lemma rendered_raises (e : exn) :
  rendered L time lon lat u v meshgrid sub velocity_min velocity_max
    markers title = Raise e ->
  e = ValueError
  \/ (e = IndexError /\ meshgrid = false
      /\ (length (shape lon) <> 2 \/ length (shape lat) <> 2)).
Proof.
  unfold rendered.
  destruct (decompose L u v) as [[[[angle speed] us] vs]|e0] eqn:Hd;
    cbn [Py.bind];
    [|intros [= <-]; left; now apply (decompose_raises L u v)].
  destruct meshgrid.
  - destruct (effective_max velocity_max speed) as [hi|e0] eqn:Hm;
      cbn [Py.bind];
      [|intros [= <-]; left; now apply effective_max_raises in Hm].
    destruct (clip_stage sub _ hi speed) as [c|e0] eqn:Hc; cbn [Py.bind];
      [|intros [= <-]; left; now apply clip_stage_raises in Hc].
    cbn [slice2_nd].
    destruct (slice2 sub (fst _)) as [X|e0] eqn:HX; cbn [Py.bind];
      [|intros [= <-]; left; now apply slice2_raises in HX].
    destruct (slice2 sub (snd _)) as [Y|e0] eqn:HY; cbn [Py.bind];
      [|intros [= <-]; left; now apply slice2_raises in HY].
    destruct (slice2 sub us) as [U|e0] eqn:HU; cbn [Py.bind];
      [|intros [= <-]; left; now apply slice2_raises in HU].
    destruct (slice2 sub vs) as [V|e0] eqn:HV; cbn [Py.bind];
      [|intros [= <-]; left; now apply slice2_raises in HV].
    destruct (map_extent lon lat) as [x|e0] eqn:He; cbn [Py.bind];
      [|intros [= <-]; left; now apply map_extent_raises in He].
    destruct (Plt.valid_limits x); cbn [Py.bind]; [discriminate|].
    intros [= <-]. now left.
  - destruct (effective_max velocity_max speed) as [hi|e0] eqn:Hm;
      cbn [Py.bind];
      [|intros [= <-]; left; now apply effective_max_raises in Hm].
    destruct (clip_stage sub _ hi speed) as [c|e0] eqn:Hc; cbn [Py.bind];
      [|intros [= <-]; left; now apply clip_stage_raises in Hc].
    destruct (slice2_nd sub lon) as [X|e0] eqn:HX; cbn [Py.bind].
    2:{ intros [= <-]. apply slice2_nd_raises in HX.
        destruct HX as [->|[-> HX]]; [now left|right; auto]. }
    destruct (slice2_nd sub lat) as [Y|e0] eqn:HY; cbn [Py.bind].
    2:{ intros [= <-]. apply slice2_nd_raises in HY.
        destruct HY as [->|[-> HY]]; [now left|right; auto]. }
    destruct (slice2 sub us) as [U|e0] eqn:HU; cbn [Py.bind];
      [|intros [= <-]; left; now apply slice2_raises in HU].
    destruct (slice2 sub vs) as [V|e0] eqn:HV; cbn [Py.bind];
      [|intros [= <-]; left; now apply slice2_raises in HV].
    destruct (map_extent lon lat) as [x|e0] eqn:He; cbn [Py.bind];
      [|intros [= <-]; left; now apply map_extent_raises in He].
    destruct (Plt.valid_limits x); cbn [Py.bind]; [discriminate|].
    intros [= <-]. now left.
Qed.

End Raises.
(* ================================================================= *)
(** * What a call that returns has drawn *)

Section Returned.

Variable L : libm.

Variables (time : string) (lon lat : ndarray float)
  (u v : list (list float)) (meshgrid : bool) (sub : Z)
  (velocity_min velocity_max : option float)
  (markers : option (list marker)) (title : string).

(** A call that returns has composed the figure of [rendered], and has
    left it as the current figure or written it to the destination. *)
Lemma plot_common_returned (o : option path) (w w' : world)
  (x : option Plt.pyplot) :
  plot_common L time lon lat u v o meshgrid sub velocity_min velocity_max
    markers title w = (Ok x, w') ->
  exists g,
    rendered L time lon lat u v meshgrid sub velocity_min velocity_max
      markers title = Ok g
    /\ drawn o w' g
    /\ match o with
       | None => x = Some Plt.Pyplot /\ w' = composed w g
       | Some f => x = None /\ figures w' = []
       end.
Proof.
  unfold plot_common, bindM.
  destruct (compose L time lon lat u v meshgrid sub velocity_min
              velocity_max markers title w) as [[[]|e] w1] eqn:E;
    [|discriminate].
  pose proof (compose_run _ _ _ _ _ _ _ _ _ _ _ _ _ _ _ E) as R.
  destruct (rendered L time lon lat u v meshgrid sub velocity_min
              velocity_max markers title) as [g|e'] eqn:Hg;
    [|now destruct R].
  destruct R as [_ ->]. intros S. exists g. split; [reflexivity|].
  destruct o as [f|].
  - destruct (existsb (is_image (composed w g)) (prefixes (parent f)))
      eqn:B.
    + unfold output_sink, bindM in S.
      rewrite (create_dir_blocked _ _ B) in S. discriminate.
    + destruct (output_sink_file f _ B)
        as (w2 & S2 & HF & _ & HI & _).
      rewrite S2 in S. injection S as <- <-.
      split; [exact HI|]. now split.
  - rewrite output_sink_none in S. injection S as <- <-.
    split; [reflexivity|]. now split.
Qed.

(** Without a destination, a figure that can be composed is returned
    as the current figure. *)
Lemma plot_common_returns (w : world) (g : figure) :
  rendered L time lon lat u v meshgrid sub velocity_min velocity_max
    markers title = Ok g ->
  plot_common L time lon lat u v None meshgrid sub velocity_min
    velocity_max markers title w
  = (Ok (Some Plt.Pyplot), composed w g).
Proof.
  intros Hg. unfold plot_common, bindM.
  now rewrite (compose_ok _ _ _ _ _ _ _ _ _ _ _ _ _ _ Hg).
Qed.

End Returned.

(* ================================================================= *)
(** * The map extent (C10) *)

Section Extent.

Import F64Facts.

Variables lon lat : ndarray float.






End Extent.



(* ================================================================= *)
(** * The colorbar (C9) *)

Section Ticks.

Import F64Facts.

Local Open Scope string_scope.





End Ticks.

Section Colorbar.

Import F64Facts.

Local Open Scope string_scope.







Lemma decompose_full (L : libm) (n m : nat) (x y : float) :
  decompose L (full n m x) (full n m y)
  = Ok (full n m (fst (Ocfis.uv2spdir1 L x y)),
        full n m (snd (Ocfis.uv2spdir1 L x y)),
        full n m (fst (Ocfis.spdir2uv1 L F64.one
                         (fst (Ocfis.uv2spdir1 L x y)))),
        full n m (snd (Ocfis.spdir2uv1 L F64.one
                         (fst (Ocfis.uv2spdir1 L x y))))).
Proof.
  assert (Z1 : forall {A B C} (f : A -> B -> C) a b k,
             zip1 f (repeat a k) (repeat b k) = Ok (repeat (f a b) k)).
  { intros A B C f a b k. induction k as [|k IH]; [reflexivity|].
    cbn. now rewrite IH. }
  assert (Z2 : forall {A B C} (f : A -> B -> C) a b,
             zip2 f (full n m a) (full n m b) = Ok (full n m (f a b))).
  { intros A B C f a b. unfold full. induction n as [|k IH];
      [reflexivity|]. cbn. now rewrite Z1, IH. }
  assert (M : forall {A B} (g : A -> B) a,
             map (map g) (full n m a) = full n m (g a)).
  { intros A B g a. unfold full. now rewrite !map_repeat. }
  unfold decompose, Ocfis.uv2spdir, Ocfis.spdir2uv, asarray,
    masked_invalid. cbn [ma_data].
  rewrite Z2. cbn [Py.bind]. rewrite !M. unfold ones_like at 1.
  rewrite M, Z2. cbn [Py.bind]. now rewrite !M.
Qed.

End Colorbar.

Section Scenario.

Import F64Facts.

Local Open Scope string_scope.








End Scenario.

(* ================================================================= *)
(** * The arrays handed to [quiver] (C4) *)

Section Alignment.

Variable L : libm.

Lemma shape2_of_lengths {A B} (a : list (list A)) (b : list (list B)) :
  map (@length A) a = map (@length B) b -> shape2 a = shape2 b.
Proof.
  intros H. unfold shape2. f_equal.
  - rewrite <- (length_map (@length A) a), H. apply length_map.
  - destruct a, b; try discriminate; [reflexivity|]. now injection H.
Qed.

(** The four arrays of the decomposer have the shape of [u]. *)
Lemma decompose_shapes (u v angle speed us vs : list (list float)) :
  decompose L u v = Ok (angle, speed, us, vs) ->
  shape2 angle = shape2 u /\ shape2 speed = shape2 u
  /\ shape2 us = shape2 u /\ shape2 vs = shape2 u.
Proof.
  intros H.
  assert (Hs : map (@length float) u = map (@length float) v).
  { unfold decompose, Ocfis.uv2spdir, asarray, masked_invalid in H.
    cbn [ma_data] in H.
    destruct (zip2 (Ocfis.uv2spdir1 L) u v) as [c|] eqn:E;
      [|discriminate].
    now destruct (zip2_get _ _ _ _ E) as (Hs & _). }
  destruct (decompose_cells L u v Hs)
    as (a' & s' & us' & vs' & Hd & H1 & H2 & H3 & H4 & _).
  rewrite H in Hd. injection Hd as <- <- <- <-.
  repeat split; now apply shape2_of_lengths.
Qed.

Lemma slice2_pos {A} (p : positive) (a X : list (list A)) :
  slice2 (Zpos p) a = Ok X ->
  (forall i j,
      get2 X i j = get2 a (i * Pos.to_nat p) (j * Pos.to_nat p))
  /\ shape2 X
     = ((fst (shape2 a) + Pos.to_nat p - 1) / Pos.to_nat p,
        (snd (shape2 a) + Pos.to_nat p - 1) / Pos.to_nat p).
Proof.
  intros H. split.
  - intros i j. destruct (slice2_get p a i j) as (s & Hs & Hg).
    rewrite H in Hs. now injection Hs as ->.
  - cbn in H. injection H as <-. apply slice2_shape.
Qed.

(** C4, as amended.  With a positive stride [s], the arrays handed to
    [quiver] are these: cell (i, j) of the coordinates and of the unit
    components is cell (i * s, j * s) of the full arrays; the colours
    are the clip of the speed at the same cells, in the same row-major
    order, as an array from which the axes of length one have been
    removed.  The two unit components have one shape, the shape of [u]
    divided by the stride and rounded up; the coordinates have it too
    when they have the shape of [u]. *)
Theorem C4_subsampled_alignment (time : string) (lon lat : ndarray float)
  (u v : list (list float)) (meshgrid : bool) (p : positive)
  (vmin vmax : option float) (markers : option (list marker))
  (title : string) (g : figure) :
  rendered L time lon lat u v meshgrid (Zpos p) vmin vmax markers title
  = Ok g ->
  exists angle speed us vs lons lats hi q sp,
    decompose L u v = Ok (angle, speed, us, vs)
    /\ lons_of lon lat meshgrid = Arr2 lons
    /\ lats_of lon lat meshgrid = Arr2 lats
    /\ effective_max vmax speed = Ok hi
    /\ fig_quiver g = Some q
    /\ (forall i j,
          get2 (q_X q) i j
          = get2 lons (i * Pos.to_nat p) (j * Pos.to_nat p)
          /\ get2 (q_Y q) i j
             = get2 lats (i * Pos.to_nat p) (j * Pos.to_nat p)
          /\ get2 (q_U q) i j
             = get2 us (i * Pos.to_nat p) (j * Pos.to_nat p)
          /\ get2 (q_V q) i j
             = get2 vs (i * Pos.to_nat p) (j * Pos.to_nat p)
          /\ get2 sp i j
             = option_map (clip1 (effective_min vmin) hi)
                 (get2 speed (i * Pos.to_nat p) (j * Pos.to_nat p)))
    /\ q_C q = squeeze (Arr2 sp)
    /\ ravel (q_C q) = concat sp
    /\ shape2 sp = shape2 (q_U q)
    /\ shape2 (q_V q) = shape2 (q_U q)
    /\ shape2 (q_U q)
       = ((fst (shape2 u) + Pos.to_nat p - 1) / Pos.to_nat p,
          (snd (shape2 u) + Pos.to_nat p - 1) / Pos.to_nat p)
    /\ (shape2 lons = shape2 u -> shape2 (q_X q) = shape2 (q_U q))
    /\ (shape2 lats = shape2 u -> shape2 (q_Y q) = shape2 (q_U q)).
Proof.
  intros Hg. apply rendered_inv in Hg.
  destruct Hg as (angle & speed & us & vs & hi & c & X & Y & U & V & e
                  & Hd & Hhi & Hc & HX & HY & HU & HV & _ & Hq & _ & _).
  destruct (lons_of lon lat meshgrid) as [|?|lons] eqn:El;
    try discriminate.
  destruct (lats_of lon lat meshgrid) as [|?|lats] eqn:Ea;
    try discriminate.
  cbn [slice2_nd] in HX, HY.
  unfold clip_stage in Hc.
  destruct (slice2 (Z.pos p) speed) as [S|] eqn:HS; [|discriminate].
  cbn [Py.bind] in Hc. injection Hc as <-.
  destruct (slice2_pos p _ _ HX) as (GX & SX).
  destruct (slice2_pos p _ _ HY) as (GY & SY).
  destruct (slice2_pos p _ _ HU) as (GU & SU).
  destruct (slice2_pos p _ _ HV) as (GV & SV).
  destruct (slice2_pos p _ _ HS) as (GS & SS).
  destruct (decompose_shapes _ _ _ _ _ _ Hd) as (_ & Ssp & Sus & Svs).
  exists angle, speed, us, vs, lons, lats, hi.
  eexists. exists (map (map (clip1 (effective_min vmin) hi)) S).
  split; [assumption|]. split; [reflexivity|]. split; [reflexivity|].
  split; [assumption|]. split; [exact Hq|]. cbn [q_X q_Y q_U q_V q_C].
  split.
  { intros i j. rewrite get2_map, GX, GY, GU, GV, GS. repeat split. }
  split; [reflexivity|].
  split; [exact (ravel_squeeze (Arr2 _))|].
  assert (Hm : shape2 (map (map (clip1 (effective_min vmin) hi)) S)
               = shape2 S)
    by (apply shape2_of_lengths, map_length_map).
  rewrite Hm, SS, SU, SV, SX, SY, Ssp, Sus, Svs.
  split; [reflexivity|]. split; [reflexivity|]. split; [reflexivity|].
  split; now intros ->.
Qed.

End Alignment.

Lemma C4_subsampled_alignment_witness :
  exists g q,
    rendered libm_sample "2019-01-01T00:00:00" sample_lon sample_lat
      (full 4 4 F64.one) (full 4 4 F64.one) true 2 None None None "HF Radar"
    = Ok g
    /\ fig_quiver g = Some q
    /\ shape2 (q_V q) = shape2 (q_U q)
    /\ shape2 (q_U q) = (2, 2).
Proof.
  assert (H : exists g,
             rendered libm_sample "2019-01-01T00:00:00" sample_lon sample_lat
               (full 4 4 F64.one) (full 4 4 F64.one) true 2 None None None
               "HF Radar" = Ok g)
    by (eexists; vm_compute; reflexivity).
  destruct H as (g & Hg). exists g.
  destruct (C4_subsampled_alignment libm_sample _ _ _ _ _ _ _ _ _ _ _ _ Hg)
    as (angle & speed & us & vs & lons & lats & hi & q & sp & _ & _ & _ & _
        & Hq & _ & _ & _ & _ & HV & HU & _).
  exists q. split; [exact Hg|]. split; [exact Hq|]. split; [exact HV|].
  exact HU.
Defined.

(** C4 as stated fails on a field with a single row: the coordinates and
    the unit components handed to [quiver] have the shape (1, 2), the
    colours the shape (2,). *)
Lemma C4_squeezed_colours_differ_in_shape :
  exists g q,
    rendered libm_sample "2019-01-01T00:00:00"
      (Arr1 [F64.of_Z (-75); F64.of_Z (-74)]) (Arr1 [F64.of_Z 35])
      (full 1 2 F64.one) (full 1 2 F64.one) true 1 None None None "HF Radar"
    = Ok g
    /\ fig_quiver g = Some q
    /\ shape (Arr2 (q_X q)) = [1; 2]
    /\ shape (Arr2 (q_Y q)) = [1; 2]
    /\ shape (Arr2 (q_U q)) = [1; 2]
    /\ shape (Arr2 (q_V q)) = [1; 2]
    /\ shape (q_C q) = [2]
    /\ shape (q_C q) <> shape (Arr2 (q_U q)).
Proof.
  eexists. eexists.
  split; [vm_compute; reflexivity|].
  split; [reflexivity|].
  repeat split; try reflexivity. discriminate.
Qed.

(* ================================================================= *)
(** * The unit vectors (C7) *)

Section UnitVectors.

Variable L : libm.

Local Open Scope R_scope.




End UnitVectors.


(* ================================================================= *)
(** * The theorems at the sample values *)


Lemma C5_return_or_write_witness :
  exists g,
    rendered libm_sample "2019-01-01T00:00:00" sample_lon sample_lat
      (full 4 4 F64.one) (full 4 4 F64.one) true 2 None None None "HF Radar"
    = Ok g
    /\ (exists w',
           plot_common libm_sample "2019-01-01T00:00:00" sample_lon
             sample_lat (full 4 4 F64.one) (full 4 4 F64.one) None true 2
             None None None "HF Radar" empty_world
           = (Ok (Some Plt.Pyplot), w')
           /\ hd_error (figures w') = Some g
           /\ images w' = [] /\ dirs w' = [])
    /\ (exists w',
           plot_common libm_sample "2019-01-01T00:00:00" sample_lon
             sample_lat (full 4 4 F64.one) (full 4 4 F64.one)
             (Some sample_png) true 2 None None None "HF Radar" empty_world
           = (Ok None, w')
           /\ figures w' = []
           /\ Plt.dir_exists w' (parent sample_png) = true
           /\ find (fun e => path_eqb sample_png (fst e)) (images w')
              = Some (sample_png, (g, 150%Z))).
Proof.
  assert (H : exists g,
             rendered libm_sample "2019-01-01T00:00:00" sample_lon sample_lat
               (full 4 4 F64.one) (full 4 4 F64.one) true 2 None None None
               "HF Radar" = Ok g)
    by (eexists; vm_compute; reflexivity).
  destruct H as (g & Hg). exists g. split; [exact Hg|].
  destruct (C5_return_or_write libm_sample _ _ _ _ _ _ _ _ _ _ _
              empty_world g Hg) as (H1 & H2).
  split; [exact H1|].
  destruct (H2 sample_png eq_refl) as (w' & E & F1 & F2 & _ & F3).
  exists w'. repeat split; assumption.
Defined.

Lemma C6_release_at_the_end_witness :
  (exists x w',
      plot_common libm_sample "2019-01-01T00:00:00" sample_lon sample_lat
        (full 4 4 F64.one) (full 4 4 F64.one) (Some sample_png) true 2
        None None None "HF Radar" empty_world = (Ok x, w')
      /\ x = None /\ figures w' = [])
  /\ (exists r w',
         plot_totals libm_sample (FromPath sample_nc) (Some sample_png) 0
           None None None "HF Radar" (world_with sample_dataset) = (r, w')
         /\ r = Raise ValueError
         /\ ~ In sample_nc (handles w')).
Proof.
  destruct (C6_release_at_the_end libm_sample) as (A & B & _).
  split.
  - assert (E : exists x w',
               plot_common libm_sample "2019-01-01T00:00:00" sample_lon
                 sample_lat (full 4 4 F64.one) (full 4 4 F64.one)
                 (Some sample_png) true 2 None None None "HF Radar"
                 empty_world = (Ok x, w'))
      by (eexists; eexists; vm_compute; reflexivity).
    destruct E as (x & w' & E). exists x, w'. split; [exact E|].
    exact (B _ _ _ _ _ _ _ _ _ _ _ _ _ _ _ E).
  - assert (E : exists w',
               plot_totals libm_sample (FromPath sample_nc) (Some sample_png)
                 0 None None None "HF Radar" (world_with sample_dataset)
               = (Raise ValueError, w'))
      by (eexists; vm_compute; reflexivity).
    destruct E as (w' & E). exists (Raise ValueError), w'.
    split; [exact E|]. split; [reflexivity|].
    refine (proj2 (A sample_nc (sample_nc, sample_dataset) _ _ _ _ _ _
                     (world_with sample_dataset) _ _ eq_refl _ _ _ _ _) E);
      try discriminate.
    now exists "2019-01-01T00:00:00"%string, [].
Defined.

(* ================================================================= *)
(** * Errors of [plot_common] *)

Section Errors.

Variable L : libm.

Variables (time : string) (lon lat : ndarray float)
  (u v : list (list float)) (output_file : option path) (meshgrid : bool)
  (velocity_min velocity_max : option float)
  (markers : option (list marker)) (title : string).

(** A stride of zero always ends in [ValueError], before the map figure
    is opened: the blank figure of [plt.figure()] is all that is left. *)
Theorem stride_zero_is_value_error (w : world) :
  plot_common L time lon lat u v output_file meshgrid 0 velocity_min
    velocity_max markers title w
  = (Raise ValueError, with_figures w (blank :: figures w)).
Proof.
  apply plot_common_of_raise, compose_fails_early.
  destruct (decompose L u v) as [[[[angle speed] us] vs]|e] eqn:Hd.
  - right. exists angle, speed, us, vs. split; [reflexivity|].
    destruct (effective_max velocity_max speed) as [hi|e] eqn:Hm.
    + right. now exists hi.
    + left. apply effective_max_raises in Hm. now destruct Hm as [-> _].
  - left. now rewrite (decompose_raises L u v e Hd).
Qed.

(** A field without cells and no usable [velocity_max]: [np.nanmax] of
    the empty speed raises [ValueError]. *)
Theorem empty_field_is_value_error (sub : Z) (w : world) :
  map (@length float) u = map (@length float) v ->
  concat u = [] ->
  match velocity_max with
  | Some a => F64.is_zero a = true
  | None => True
  end ->
  plot_common L time lon lat u v output_file meshgrid sub velocity_min
    velocity_max markers title w
  = (Raise ValueError, with_figures w (blank :: figures w)).
Proof.
  intros Hs He Hv.
  apply plot_common_of_raise, compose_fails_early.
  destruct (decompose_cells L u v Hs)
    as (angle & speed & us & vs & Hd & _ & Hl & _ & _ & _).
  right. exists angle, speed, us, vs. split; [assumption|]. left.
  assert (Hsp : concat speed = [])
    by exact (concat_nil_of_lengths speed u Hl He).
  unfold effective_max, speed_ceiling, nanmax, reduce. cbn [ravel].
  rewrite Hsp.
  destruct velocity_max as [a|]; [|reflexivity].
  rewrite F64Facts.truthy_is_zero, Hv. reflexivity.
Qed.

End Errors.

Lemma empty_field_is_value_error_witness :
  plot_common libm_sample "2019-01-01T00:00:00" (Arr1 []) (Arr1 [])
    [] [] None true 2 None (Some F64.zero) None "HF Radar" empty_world
  = (Raise ValueError, with_figures empty_world [blank]).
Proof.
  apply (empty_field_is_value_error libm_sample); reflexivity.
Defined.

(* ================================================================= *)
(** * The figures a call leaves open *)

Section Accounting.

Variable L : libm.

Variables (time : string) (lon lat : ndarray float)
  (u v : list (list float)) (meshgrid : bool) (sub : Z)
  (velocity_min velocity_max : option float)
  (markers : option (list marker)) (title : string).
(** The figures after a call.  Without a destination a call that returns
    has added two figures to the open ones, the map above a blank one;
    with a destination a call that returns has closed every figure, the
    ones that were open before it included; a call that raises has added
    the blank figure, or the blank figure and the map, and closed none. *)
Theorem figures_after_a_call (o : option path) (w w' : world)
  (r : result (option Plt.pyplot)) :
  plot_common L time lon lat u v o meshgrid sub velocity_min velocity_max
    markers title w = (r, w') ->
  match r, o with
  | Ok _, None =>
      exists g,
        rendered L time lon lat u v meshgrid sub velocity_min velocity_max
          markers title = Ok g
        /\ figures w' = g :: blank :: figures w
  | Ok _, Some _ => figures w' = []
  | Raise _, _ =>
      figures w' = blank :: figures w
      \/ exists g, figures w' = g :: blank :: figures w
  end.
Proof.
  unfold plot_common, bindM.
  destruct (compose L time lon lat u v meshgrid sub velocity_min
              velocity_max markers title w) as [[[]|e] w1] eqn:E.
  - pose proof (compose_run _ _ _ _ _ _ _ _ _ _ _ _ _ _ _ E) as R.
    destruct (rendered L time lon lat u v meshgrid sub velocity_min
                velocity_max markers title) as [g|e'] eqn:Hg;
      [|now destruct R].
    destruct R as [_ ->]. intros S.
    destruct (output_sink_inv _ _ _ _ S) as (_ & HR & HO).
    destruct r as [x|e'].
    + destruct o as [f|].
      * now apply (HO x eq_refl).
      * destruct (output_sink_frame _ _ _ _ S) as (_ & _ & HN).
        rewrite (HN eq_refl). now exists g.
    + right. exists g. now rewrite (HR e' eq_refl).
  - intros [= <- <-]. now apply compose_trace in E.
Qed.

(** A call that returns has set the default figure size of the process
    to 12 by 8.5, whatever it was; a call that raises while composing has
    left it as it was. *)
Theorem default_figure_size (o : option path) (w w' : world)
  (r : result (option Plt.pyplot)) :
  plot_common L time lon lat u v o meshgrid sub velocity_min velocity_max
    markers title w = (r, w') ->
  match r with
  | Ok _ => rc_figsize w' = (F64.of_Z 12, F64.div (F64.of_Z 17) (F64.of_Z 2))
  | Raise e =>
      rendered L time lon lat u v meshgrid sub velocity_min velocity_max
        markers title = Raise e ->
      rc_figsize w' = rc_figsize w
  end.
Proof.
  unfold plot_common, bindM.
  destruct (compose L time lon lat u v meshgrid sub velocity_min
              velocity_max markers title w) as [[[]|e] w1] eqn:E.
  - pose proof (compose_run _ _ _ _ _ _ _ _ _ _ _ _ _ _ _ E) as R.
    destruct (rendered L time lon lat u v meshgrid sub velocity_min
                velocity_max markers title) as [g|e'] eqn:Hg;
      [|now destruct R].
    destruct R as [_ ->]. intros S.
    destruct (output_sink_frame _ _ _ _ S) as (HF & _).
    destruct r; [exact HF|discriminate].
  - intros [= <- <-]. intros _. now apply compose_trace in E.
Qed.

End Accounting.

(* ================================================================= *)
(** * When [plot_common] returns, and what it raises *)

Section Outcomes.

Variable L : libm.

Variables (time : string) (lon lat : ndarray float)
  (u v : list (list float)) (meshgrid : bool) (sub : Z)
  (velocity_min velocity_max : option float)
  (markers : option (list marker)) (title : string).

(** [plot_common] returns on a well-formed request: [u] and [v] of one
    shape with a cell in them, a stride that is not zero, and
    coordinates that are not empty, whose padded bounding box is made of
    numbers, and that fit the field: with [meshgrid], as many longitudes
    as the field has columns and as many latitudes as it has rows;
    without it, two arrays of rank two with the rows of the field. *)
Theorem well_formed_request_returns (w : world) :
  map (@length float) u = map (@length float) v ->
  concat u <> [] -> sub <> 0%Z ->
  ravel lon <> [] -> ravel lat <> [] ->
  (forall e, map_extent lon lat = Ok e -> Plt.valid_limits e = true) ->
  (if meshgrid
   then length (ravel lon) = snd (shape2 u)
        /\ length (ravel lat) = fst (shape2 u)
   else exists X Y,
       lon = Arr2 X /\ lat = Arr2 Y
       /\ map (@length float) X = map (@length float) u
       /\ map (@length float) Y = map (@length float) u) ->
  exists g,
    rendered L time lon lat u v meshgrid sub velocity_min velocity_max
      markers title = Ok g
    /\ plot_common L time lon lat u v None meshgrid sub velocity_min
         velocity_max markers title w
       = (Ok (Some Plt.Pyplot), composed w g).
Proof.
  intros Hs Hne Hsub Hlon Hlat Hfin Hfit.
  assert (Hrank : meshgrid = true
                  \/ exists X Y, lon = Arr2 X /\ lat = Arr2 Y).
  { destruct meshgrid; [now left|right].
    destruct Hfit as (X & Y & HX & HY & _). now exists X, Y. }
  clear Hfit.
  destruct (sampling_ok L u v sub velocity_min velocity_max Hs Hne Hsub)
    as (angle & speed & us & vs & hi & c & U & V & Hd & Hhi & Hc & HU & HV).
  destruct (map_extent_ok lon lat Hlon Hlat) as (e & He).
  pose proof (Hfin e He) as Hv.
  assert (HX : exists X, slice2_nd sub (lons_of lon lat meshgrid) = Ok X).
  { unfold lons_of. destruct Hrank as [->|(X & Y & -> & ->)].
    - apply slice2_ok, Hsub.
    - destruct meshgrid; apply slice2_ok, Hsub. }
  assert (HY : exists Y, slice2_nd sub (lats_of lon lat meshgrid) = Ok Y).
  { unfold lats_of. destruct Hrank as [->|(X & Y & -> & ->)].
    - apply slice2_ok, Hsub.
    - destruct meshgrid; apply slice2_ok, Hsub. }
  destruct HX as (X & HX). destruct HY as (Y & HY).
  unfold lons_of in HX. unfold lats_of in HY.
  assert (Hg : exists g,
             rendered L time lon lat u v meshgrid sub velocity_min
               velocity_max markers title = Ok g).
  { unfold rendered. rewrite Hd. cbn [Py.bind].
    destruct meshgrid; rewrite Hhi; cbn [Py.bind]; rewrite Hc;
      cbn [Py.bind]; rewrite HX; cbn [Py.bind]; rewrite HY; cbn [Py.bind];
      rewrite HU; cbn [Py.bind]; rewrite HV; cbn [Py.bind]; rewrite He;
      cbn [Py.bind]; rewrite Hv; cbn [Py.bind]; now eexists. }
  destruct Hg as (g & Hg). exists g. split; [assumption|].
  exact (plot_common_returns L _ _ _ _ _ _ _ _ _ _ _ w g Hg).
Qed.

(** An error in composing the figure goes to the caller as it is, and
    nothing has been written: the files, the directories, the dataset
    handles and the default figure size are as before. *)
Theorem failed_composition_writes_nothing (o : option path) (w : world)
  (e : exn) :
  rendered L time lon lat u v meshgrid sub velocity_min velocity_max
    markers title = Raise e ->
  exists w',
    plot_common L time lon lat u v o meshgrid sub velocity_min velocity_max
      markers title w = (Raise e, w')
    /\ dirs w' = dirs w /\ images w' = images w
    /\ netcdf w' = netcdf w /\ handles w' = handles w
    /\ rc_figsize w' = rc_figsize w.
Proof. exact (plot_common_failed L _ _ _ _ _ _ _ _ _ _ _ o w e). Qed.

(** Coordinates that are not of rank two, without [meshgrid]: a request
    that is well formed otherwise ends in [IndexError], and nothing is
    written. *)
Theorem flat_coordinates_are_an_index_error (o : option path) (w : world) :
  map (@length float) u = map (@length float) v ->
  concat u <> [] -> sub <> 0%Z ->
  meshgrid = false ->
  length (shape lon) <> 2 \/ length (shape lat) <> 2 ->
  exists w',
    plot_common L time lon lat u v o meshgrid sub velocity_min velocity_max
      markers title w = (Raise IndexError, w')
    /\ images w' = images w /\ dirs w' = dirs w.
Proof.
  intros Hs Hne Hsub Hm Hrank.
  destruct (plot_common_failed L _ _ _ _ _ _ _ _ _ _ _ o w IndexError
              (rendered_index_error L time lon lat u v meshgrid sub
                 velocity_min velocity_max markers title
                 Hs Hne Hsub Hm Hrank))
    as (w' & E & H1 & H2 & _).
  now exists w'.
Qed.

(** Empty coordinates on a grid: the request ends in [ValueError]
    whatever the field, and nothing is written. *)
Theorem empty_coordinates_are_a_value_error (o : option path) (w : world) :
  meshgrid = true ->
  ravel lon = [] \/ ravel lat = [] ->
  exists w',
    plot_common L time lon lat u v o meshgrid sub velocity_min velocity_max
      markers title w = (Raise ValueError, w')
    /\ images w' = images w /\ dirs w' = dirs w.
Proof.
  intros Hm Hempty.
  destruct (rendered L time lon lat u v meshgrid sub velocity_min
              velocity_max markers title) as [g|e] eqn:Hg.
  - exfalso. apply rendered_inv in Hg.
    destruct Hg as (? & ? & ? & ? & ? & ? & ? & ? & ? & ? & x & Hg).
    destruct Hg as (_ & _ & _ & _ & _ & _ & _ & He & _).
    unfold map_extent, amin, amax, reduce in He.
    destruct Hempty as [E|E].
    + rewrite E in He. discriminate.
    + rewrite E in He. destruct (ravel lon); discriminate.
  - destruct (rendered_raises L _ _ _ _ _ _ _ _ _ _ _ e Hg)
      as [->|(_ & Hf & _)]; [|congruence].
    destruct (plot_common_failed L _ _ _ _ _ _ _ _ _ _ _ o w ValueError Hg)
      as (w' & E & H1 & H2 & _).
    now exists w'.
Qed.

End Outcomes.

(* ================================================================= *)
(** * The colours under the bounds *)

Section Colours.

Import F64Facts.

Lemma In_every_from {A} (k : nat) (l : list A) (x : A) :
  forall c, In x (every_from k c l) -> In x l.
Proof.
  induction l as [|y t IH]; intros c; cbn; [tauto|].
  destruct c as [|c]; cbn.
  - intros [H|H]; [now left|right; now apply (IH k)].
  - intros H. right. now apply (IH c).
Qed.

Lemma In_slice2 {A} (sub : Z) (a s : list (list A)) (x : A) :
  slice2 sub a = Ok s -> In x (concat s) -> In x (concat a).
Proof.
  unfold slice2, every.
  destruct sub as [|p|p]; [discriminate| |]; intros [= <-] H;
    apply in_concat in H; destruct H as (r & Hr & Hx);
    apply in_map_iff in Hr; destruct Hr as (r0 & <- & Hr0);
    apply In_every_from in Hx; apply In_every_from in Hr0;
    apply in_concat.
  - now exists r0.
  - apply in_rev in Hx. apply in_rev in Hr0. now exists r0.
Qed.

Lemma clip_stage_cells (sub : Z) (lo hi : float)
  (speed s : list (list float)) (c : ndarray float) :
  slice2 sub speed = Ok s ->
  clip_stage sub lo hi speed = Ok c ->
  ravel c = map (clip1 lo hi) (concat s).
Proof.
  unfold clip_stage. intros ->. cbn [Py.bind]. intros H.
  replace c with (squeeze (clip (Arr2 s) lo hi)) by congruence.
  rewrite ravel_squeeze. unfold clip. rewrite ravel_amap. reflexivity.
Qed.

Lemma clip1_inverted (lo hi x : float) :
  F64.ltb hi lo = true -> F64.is_nan x = false -> clip1 lo hi x = hi.
Proof.
  intros H Hx. destruct (ltb_not_nan _ _ H) as [Hh Hl].
  unfold clip1, clip_max. rewrite Hx.
  change (F64.gtb x lo) with (F64.ltb lo x).
  destruct (F64.ltb lo x) eqn:E; unfold clip_min.
  - rewrite Hx.
    assert (E' : F64.ltb hi x = true).
    { apply leb_ltb_trans with lo; [now apply ltb_leb|assumption]. }
    now rewrite (ltb_asym _ _ E').
  - rewrite Hl. now rewrite (ltb_asym _ _ H).
Qed.

Lemma zero_le_fifteen (x : float) :
  F64.is_zero x = true -> F64.leb x (F64.of_Z 15) = true.
Proof. destruct x as [[]|[]| |[] ? ?]; try discriminate; reflexivity. Qed.

Lemma zero_le (x y : float) :
  F64.is_zero x = true -> F64.ltb y F64.zero = false ->
  F64.is_nan y = false -> F64.leb x y = true.
Proof.
  intros Hx Hy Hn.
  assert (H0 : F64.leb F64.zero y = true) by now apply not_ltb_leb.
  apply leb_trans with F64.zero; [|assumption].
  destruct x as [[]|[]| |[] ? ?]; try discriminate; reflexivity.
Qed.

(** With the default bounds, a field without negative speeds is not
    changed by the clip: a cell that is a number keeps its value, and a
    NaN stays a NaN. *)
Lemma default_clip_keeps (speed : list (list float)) (hi x : float) :
  (forall y, In y (concat speed) -> F64.ltb y F64.zero = false) ->
  effective_max None speed = Ok hi ->
  In x (concat speed) ->
  if F64.is_nan x then clip1 (effective_min None) hi x = x
  else F64.eqb (clip1 (effective_min None) hi x) x = true.
Proof.
  intros Hpos Hhi Hx.
  destruct (F64.is_nan x) eqn:Hn; [now apply clip1_is_nan|].
  assert (Hne : ravel (Arr2 speed) <> []).
  { cbn [ravel]. intros E. rewrite E in Hx. destruct Hx. }
  destruct (nanmax_spec (Arr2 speed) Hne) as (m & Hm & Hinv).
  unfold effective_max, speed_ceiling in Hhi. rewrite Hm in Hhi.
  cbn [Py.bind] in Hhi. injection Hhi as <-.
  cbn [ravel] in Hinv.
  destruct Hinv as [[_ Hall]|(Hmn & Hin & Hmax)].
  { rewrite Forall_forall in Hall. rewrite (Hall x Hx) in Hn.
    discriminate. }
  assert (Hxm : F64.leb x m = true) by now apply Hmax.
  assert (H0x : F64.leb (effective_min None) x = true).
  { apply zero_le; auto. }
  apply clip1_inside; [assumption|].
  rewrite truthy_is_zero. destruct (F64.is_zero m) eqn:Hz; cbn [negb].
  - apply leb_trans with m; [assumption|now apply zero_le_fifteen].
  - assumption.
Qed.

End Colours.

Section ColoursOfTheMap.

Variable L : libm.

Variables (time : string) (lon lat : ndarray float)
  (u v : list (list float)) (meshgrid : bool) (sub : Z)
  (markers : option (list marker)) (title : string).

Lemma Forall2_map_self {A B} (f : A -> B) (P : B -> A -> Prop)
  (l : list A) :
  (forall x, In x l -> P (f x) x) -> Forall2 P (map f l) l.
Proof.
  induction l as [|x t IH]; intros H; cbn; constructor.
  - apply H. now left.
  - apply IH. intros y Hy. apply H. now right.
Qed.

(** With neither bound given, the colours of a field without negative
    speeds are its subsampled speeds: the clip changes no cell. *)
Theorem default_bounds_do_not_clip (g : figure) :
  rendered L time lon lat u v meshgrid sub None None markers title = Ok g ->
  exists angle speed us vs s q,
    decompose L u v = Ok (angle, speed, us, vs)
    /\ slice2 sub speed = Ok s
    /\ fig_quiver g = Some q
    /\ ((forall y, In y (concat speed) -> F64.ltb y F64.zero = false) ->
        Forall2 (fun c x => if F64.is_nan x then c = x
                            else F64.eqb c x = true)
          (ravel (q_C q)) (concat s)).
Proof.
  intros Hg. apply rendered_inv in Hg.
  destruct Hg as (angle & speed & us & vs & hi & c & X & Y & U & V & e
                  & Hd & Hhi & Hc & _ & _ & _ & _ & _ & Hq & _).
  destruct (slice2 sub speed) as [s|e0] eqn:Hs.
  2:{ unfold clip_stage in Hc. rewrite Hs in Hc. discriminate. }
  exists angle, speed, us, vs, s.
  eexists. split; [exact Hd|]. split; [exact Hs|].
  split; [exact Hq|].
  intros Hpos. cbn [q_C].
  rewrite (clip_stage_cells _ _ _ _ _ _ Hs Hc).
  apply Forall2_map_self. intros x Hx.
  apply (default_clip_keeps speed hi x Hpos Hhi).
  now apply (In_slice2 sub speed s).
Qed.

(** A lower bound above the upper bound is no error: every cell that is
    not a NaN is drawn in the colour of the upper bound. *)
Theorem reversed_bounds_colour_every_cell_alike
  (velocity_min velocity_max : option float) (g : figure) :
  rendered L time lon lat u v meshgrid sub velocity_min velocity_max
    markers title = Ok g ->
  exists angle speed us vs hi q,
    decompose L u v = Ok (angle, speed, us, vs)
    /\ effective_max velocity_max speed = Ok hi
    /\ fig_quiver g = Some q
    /\ (F64.ltb hi (effective_min velocity_min) = true ->
        forall c, In c (ravel (q_C q)) -> F64.is_nan c = false -> c = hi).
Proof.
  intros Hg. apply rendered_inv in Hg.
  destruct Hg as (angle & speed & us & vs & hi & c & X & Y & U & V & e
                  & Hd & Hhi & Hc & _ & _ & _ & _ & _ & Hq & _).
  destruct (slice2 sub speed) as [s|e0] eqn:Hs.
  2:{ unfold clip_stage in Hc. rewrite Hs in Hc. discriminate. }
  exists angle, speed, us, vs, hi.
  eexists. split; [exact Hd|]. split; [exact Hhi|].
  split; [exact Hq|].
  intros Hrev y Hy Hn. cbn [q_C] in Hy.
  rewrite (clip_stage_cells _ _ _ _ _ _ Hs Hc) in Hy.
  apply in_map_iff in Hy. destruct Hy as (x & <- & Hx).
  destruct (F64.is_nan x) eqn:Hxn.
  - rewrite clip1_is_nan in Hn by assumption. congruence.
  - now apply clip1_inverted.
Qed.

End ColoursOfTheMap.

(* ================================================================= *)
(** * Where the arrows stand *)

Section Placement.

Variable L : libm.

Variables (time : string) (lon lat : ndarray float)
  (u v : list (list float)) (sub : Z)
  (velocity_min velocity_max : option float)
  (markers : option (list marker)) (title : string).

Lemma meshgrid_fst_get {A} (x y : ndarray A) (i j : nat) :
  get2 (fst (Np.meshgrid x y)) i j
  = if i <? length (ravel y) then nth_error (ravel x) j else None.
Proof.
  unfold Np.meshgrid, get2. cbn [fst]. rewrite nth_error_map.
  destruct (Nat.ltb_spec i (length (ravel y))) as [H|H].
  - destruct (nth_error (ravel y) i) eqn:E; [reflexivity|].
    apply nth_error_None in E. lia.
  - apply nth_error_None in H. now rewrite H.
Qed.

Lemma meshgrid_snd_get {A} (x y : ndarray A) (i j : nat) :
  get2 (snd (Np.meshgrid x y)) i j
  = if j <? length (ravel x) then nth_error (ravel y) i else None.
Proof.
  unfold Np.meshgrid, get2. cbn [snd]. rewrite nth_error_map.
  destruct (nth_error (ravel y) i) as [b|] eqn:E; cbn [option_map].
  - rewrite nth_error_map.
    destruct (Nat.ltb_spec j (length (ravel x))) as [H|H].
    + destruct (nth_error (ravel x) j) eqn:E'; [reflexivity|].
      apply nth_error_None in E'. lia.
    + apply nth_error_None in H. now rewrite H.
  - now destruct (j <? length (ravel x)).
Qed.

(** On a grid the arrow in row [i] and column [j] of the map stands at
    the longitude of index [j * sub] and the latitude of index
    [i * sub]: the rows of the field run along the latitudes and its
    columns along the longitudes. *)
Theorem arrows_stand_on_the_grid (p : positive) (g : figure) :
  rendered L time lon lat u v true (Zpos p) velocity_min velocity_max
    markers title = Ok g ->
  exists q,
    fig_quiver g = Some q
    /\ forall i j,
        get2 (q_X q) i j
        = (if i * Pos.to_nat p <? length (ravel lat)
           then nth_error (ravel lon) (j * Pos.to_nat p) else None)
        /\ get2 (q_Y q) i j
           = (if j * Pos.to_nat p <? length (ravel lon)
              then nth_error (ravel lat) (i * Pos.to_nat p) else None).
Proof.
  intros Hg. apply rendered_inv in Hg.
  destruct Hg as (angle & speed & us & vs & hi & c & X & Y & U & V & e
                  & _ & _ & _ & HX & HY & _ & _ & _ & Hq & _).
  eexists. split; [exact Hq|]. cbn [q_X q_Y].
  unfold lons_of in HX. unfold lats_of in HY. cbn [slice2_nd] in HX, HY.
  destruct (slice2_pos p _ _ HX) as [GX _].
  destruct (slice2_pos p _ _ HY) as [GY _].
  intros i j. rewrite GX, GY, meshgrid_fst_get, meshgrid_snd_get.
  split; reflexivity.
Qed.

End Placement.

(* ================================================================= *)
(** * What a call that returns has drawn *)

Section Drawn.

Variable L : libm.

Variables (time : string) (lon lat : ndarray float)
  (u v : list (list float)) (meshgrid : bool) (sub : Z)
  (velocity_min velocity_max : option float)
  (markers : option (list marker)) (title : string).

Lemma rendered_decorations (g : figure) :
  rendered L time lon lat u v meshgrid sub velocity_min velocity_max
    markers title = Ok g ->
  fig_title g = Some (title ++ newline ++ time)%string
  /\ fig_markers g = match markers with Some m => m | None => [] end
  /\ fig_gridlines g = true
  /\ fig_features g = ["land"; "lakes"; "borders"; "state_lines"]%string
  /\ (exists q, fig_quiver g = Some q
                /\ q_cmap q = "jet"%string /\ q_scale q = 60%Z)
  /\ (exists c, fig_colorbar g = Some c /\ cb_label c = "cm/s"%string
                /\ length (cb_ticks c) = 5
                /\ cb_ticklabels c = map format_2f (cb_ticks c)).
Proof.
  unfold rendered.
  destruct (decompose L u v) as [[[[angle speed] us] vs]|]; cbn [Py.bind];
    [|discriminate].
  destruct (if meshgrid then _ else _) as [lons lats].
  destruct (effective_max velocity_max speed) as [hi|]; cbn [Py.bind];
    [|discriminate].
  destruct (clip_stage sub _ hi speed) as [c|]; cbn [Py.bind];
    [|discriminate].
  destruct (slice2_nd sub lons) as [X|]; cbn [Py.bind]; [|discriminate].
  destruct (slice2_nd sub lats) as [Y|]; cbn [Py.bind]; [|discriminate].
  destruct (slice2 sub us) as [U|]; cbn [Py.bind]; [|discriminate].
  destruct (slice2 sub vs) as [V|]; cbn [Py.bind]; [|discriminate].
  destruct (map_extent lon lat) as [e|]; cbn [Py.bind]; [|discriminate].
  destruct (Plt.valid_limits e); cbn [Py.bind]; [|discriminate].
  intros [= <-].
  cbn [fig_title fig_markers fig_gridlines fig_features fig_quiver
         fig_colorbar].
  repeat (split; [reflexivity|]).
  split.
  - eexists. split; [reflexivity|]. split; reflexivity.
  - eexists. split; [reflexivity|]. cbn [cb_label cb_ticks cb_ticklabels].
    split; [reflexivity|]. split; [|reflexivity].
    unfold colorbar_ticks, linspace. cbn [Nat.ltb Nat.leb].
    unfold set_last.
    match goal with
    | |- length (match ?l with [] => [] | _ :: _ => _ end) = 5 =>
        assert (E : length l = 5)
          by (destruct (F64.eqb _ F64.zero);
              now rewrite !length_map, length_seq);
        destruct l as [|x0 t0]; [discriminate|];
        rewrite length_app; cbn [length];
        assert (E' : length (removelast (x0 :: t0)) = 4);
        [|lia]
    end.
    clear -E. destruct t0 as [|x1 [|x2 [|x3 [|x4 [|? ?]]]]];
      try discriminate. reflexivity.
Qed.

(** What a call that returns has drawn, on the figure it leaves as the
    current one or in the file it has written at 150 dots per inch: the
    title above the time, the markers in the order given (none for
    [None]), grid lines, the four features in their order, arrows in
    the [jet] colours at scale 60, and a colour bar of five ticks, each
    labelled by the format [.2f], in cm/s. *)
Theorem what_is_on_the_map (o : option path) (w w' : world)
  (x : option Plt.pyplot) :
  plot_common L time lon lat u v o meshgrid sub velocity_min velocity_max
    markers title w = (Ok x, w') ->
  exists g,
    drawn o w' g
    /\ x = match o with None => Some Plt.Pyplot | Some _ => None end
    /\ fig_title g = Some (title ++ newline ++ time)%string
    /\ fig_markers g = match markers with Some m => m | None => [] end
    /\ fig_gridlines g = true
    /\ fig_features g = ["land"; "lakes"; "borders"; "state_lines"]%string
    /\ (exists q, fig_quiver g = Some q
                  /\ q_cmap q = "jet"%string /\ q_scale q = 60%Z)
    /\ (exists c, fig_colorbar g = Some c /\ cb_label c = "cm/s"%string
                  /\ length (cb_ticks c) = 5
                  /\ cb_ticklabels c = map format_2f (cb_ticks c)).
Proof.
  intros H.
  destruct (plot_common_returned L _ _ _ _ _ _ _ _ _ _ _ _ _ _ _ H)
    as (g & Hg & Hdr & Ho).
  exists g. split; [exact Hdr|].
  split; [|now apply rendered_decorations].
  destruct o as [f|]; now destruct Ho.
Qed.

End Drawn.

(* ================================================================= *)
(** * The adapters and the renderer *)

Section Adapters.

Variable L : libm.

Variables (o : option path) (sub : Z)
  (velocity_min velocity_max : option float)
  (markers : option (list marker)) (title : string).

Variables (d : dataset) (u v : list (list float)) (t : string)
  (rest : list string) (lon lat : ndarray float).

Hypothesis has_u : ds_u d = Some u.
Hypothesis has_v : ds_v d = Some v.
Hypothesis has_time : ds_time d = Some (t :: rest).
Hypothesis has_lon : ds_lon d = Some lon.
Hypothesis has_lat : ds_lat d = Some lat.

Lemma read_fields_complete (w : world) :
  read_fields d w = (Ok (t, lon, lat, u, v), w).
Proof.
  unfold read_fields, getitem.
  rewrite has_u, has_v, has_time, has_lon, has_lat. reflexivity.
Qed.

Lemma plot_source_in_memory (meshgrid : bool) (w : world) :
  plot_source L meshgrid (InMemory d) o sub velocity_min velocity_max
    markers title w
  = (let (r, w') :=
       plot_common L t lon lat u v o meshgrid sub velocity_min velocity_max
         markers title w in
     (match r with Ok _ => Ok tt | Raise e => Raise e end, w')).
Proof.
  unfold plot_source. unfold bindM at 1.
  unfold acquire, open_dataset, raise. cbv beta iota.
  unfold bindM at 1. rewrite read_fields_complete. cbv beta iota.
  unfold bindM at 1. unfold ret at 1. cbv beta iota.
  unfold bindM, ret.
  destruct (plot_common L t lon lat u v o meshgrid sub velocity_min
              velocity_max markers title w) as [[x|e] w1]; reflexivity.
Qed.




(** The adapters, on a dataset that has every field: [plot_radials] is
    [plot_common] without [meshgrid] and [plot_totals] is [plot_common]
    with it, on the fields of the dataset and the first of its times;
    what [plot_common] returns is dropped, and what it raises goes to the
    caller. *)
Theorem adapters_run_the_renderer (w : world) :
  plot_radials L (InMemory d) o sub velocity_min velocity_max markers
    title w
  = (let (r, w') :=
       plot_common L t lon lat u v o false sub velocity_min velocity_max
         markers title w in
     (match r with Ok _ => Ok tt | Raise e => Raise e end, w'))
  /\ plot_totals L (InMemory d) o sub velocity_min velocity_max markers
       title w
     = (let (r, w') :=
          plot_common L t lon lat u v o true sub velocity_min velocity_max
            markers title w in
        (match r with Ok _ => Ok tt | Raise e => Raise e end, w')).
Proof.
  split; [apply (plot_source_in_memory false)
         |apply (plot_source_in_memory true)].
Qed.


End Adapters.

Section MissingFields.

Variable L : libm.

Variables (meshgrid : bool) (o : option path) (sub : Z)
  (velocity_min velocity_max : option float)
  (markers : option (list marker)) (title : string).

(** The first field that cannot be read, in the order of the reads. *)
Lemma read_fields_raises (d : dataset) (w : world) :
  ds_u d = None \/ ds_v d = None \/ ds_time d = None \/ ds_time d = Some []
  \/ ds_lon d = None \/ ds_lat d = None ->
  exists e, read_fields d w = (Raise e, w)
            /\ (e = KeyError \/ e = AttributeError \/ e = IndexError).
Proof.
  intros H. unfold read_fields, getitem, bindM, ret, raise.
  destruct (ds_u d); [|eauto].
  destruct (ds_v d); [|eauto].
  destruct (ds_time d) as [[|t0 r0]|]; [eauto| |eauto].
  destruct (ds_lon d); [|eauto].
  destruct (ds_lat d); [|eauto].
  exfalso. decompose [or] H; discriminate.
Qed.

(** A dataset file that lacks a field: the adapter raises on the read,
    with the file it has opened left open; no figure has been opened and
    nothing is written. *)
Theorem a_missing_field_leaves_the_file_open (p q : path) (d : dataset)
  (w : world) :
  find (fun e => path_eqb p (fst e)) (netcdf w) = Some (q, d) ->
  ds_u d = None \/ ds_v d = None \/ ds_time d = None \/ ds_time d = Some []
  \/ ds_lon d = None \/ ds_lat d = None ->
  exists e,
    plot_source L meshgrid (FromPath p) o sub velocity_min velocity_max
      markers title w
    = (Raise e, with_handles w (p :: handles w))
    /\ (e = KeyError \/ e = AttributeError \/ e = IndexError).
Proof.
  intros Hfind Hmiss.
  destruct (read_fields_raises d (with_handles w (p :: handles w)) Hmiss)
    as (e & He & Hk).
  exists e. split; [|assumption].
  unfold plot_source. unfold bindM at 1.
  unfold acquire, open_dataset. rewrite Hfind. cbv beta iota. cbn [snd].
  unfold bindM at 1. now rewrite He.
Qed.

Lemma read_fields_frame (d : dataset) (w w' : world)
  (r : result (string * ndarray float * ndarray float
               * list (list float) * list (list float))) :
  read_fields d w = (r, w') -> w' = w.
Proof.
  unfold read_fields, getitem, bindM, ret, raise.
  destruct (ds_u d); [|now intros [= _ <-]].
  destruct (ds_v d); [|now intros [= _ <-]].
  destruct (ds_time d) as [[|t0 r0]|]; try (now intros [= _ <-]).
  destruct (ds_lon d); [|now intros [= _ <-]].
  destruct (ds_lat d); now intros [= _ <-].
Qed.

Lemma plot_common_frame (time : string) (lon lat : ndarray float)
  (u v : list (list float)) (w w' : world)
  (r : result (option Plt.pyplot)) :
  plot_common L time lon lat u v o meshgrid sub velocity_min velocity_max
    markers title w = (r, w') ->
  handles w' = handles w /\ netcdf w' = netcdf w.
Proof.
  intros E. split; [now apply plot_common_inv in E|].
  unfold plot_common, bindM in E.
  destruct (compose L time lon lat u v meshgrid sub velocity_min
              velocity_max markers title w) as [[[]|e1] w3] eqn:C;
    apply compose_same_files in C; destruct C as (_ & _ & _ & Hn & _).
  - apply output_sink_frame in E. destruct E as (_ & Hn' & _). congruence.
  - injection E as _ <-. assumption.
Qed.

(** A dataset given as an object is never closed and no file is opened
    for it, whatever the adapter does. *)
Theorem a_dataset_object_is_not_closed (d : dataset) (w w' : world)
  (r : result unit) :
  plot_source L meshgrid (InMemory d) o sub velocity_min velocity_max
    markers title w = (r, w') ->
  handles w' = handles w /\ netcdf w' = netcdf w.
Proof.
  unfold plot_source. unfold bindM at 1.
  unfold acquire, open_dataset, raise. cbv beta iota.
  unfold bindM at 1.
  destruct (read_fields d w) as [[f|e] w1] eqn:R;
    apply read_fields_frame in R; subst w1.
  - destruct f as [[[[t lon] lat] u] v].
    unfold bindM at 1. unfold ret at 1. cbv beta iota.
    unfold bindM.
    destruct (plot_common L t lon lat u v o meshgrid sub velocity_min
                velocity_max markers title w) as [r0 w2] eqn:E.
    intros E'.
    assert (w' = w2) by (destruct r0; now injection E'). subst w2.
    now apply plot_common_frame in E.
  - intros [= _ <-]. now split.
Qed.

End MissingFields.

(* ================================================================= *)
(** * More on the bounds *)

Section Bounds.

Import F64Facts.

Lemma clip_max_mono (lo x y : float) :
  F64.is_nan lo = false -> F64.leb x y = true ->
  F64.leb (clip_max x lo) (clip_max y lo) = true.
Proof.
  intros Hl H. destruct (leb_not_nan _ _ H) as [Hx Hy].
  unfold clip_max. rewrite Hx, Hy.
  change (F64.gtb x lo) with (F64.ltb lo x).
  change (F64.gtb y lo) with (F64.ltb lo y).
  destruct (F64.ltb lo x) eqn:E1, (F64.ltb lo y) eqn:E2.
  - assumption.
  - apply leb_trans with y; [assumption|now apply not_ltb_leb].
  - now apply ltb_leb.
  - now apply leb_refl.
Qed.

Lemma clip_min_mono (hi x y : float) :
  F64.is_nan hi = false -> F64.leb x y = true ->
  F64.leb (clip_min x hi) (clip_min y hi) = true.
Proof.
  intros Hh H. destruct (leb_not_nan _ _ H) as [Hx Hy].
  unfold clip_min. rewrite Hx, Hy.
  destruct (F64.ltb x hi) eqn:E1, (F64.ltb y hi) eqn:E2.
  - assumption.
  - now apply ltb_leb.
  - apply leb_trans with x; [now apply not_ltb_leb|assumption].
  - now apply leb_refl.
Qed.

(** The clip keeps the order of the speeds: of two cells, the faster one
    never gets the lower colour, whatever the two bounds are (in either
    order), as long as neither is a NaN. *)
Theorem clipping_keeps_the_order (lo hi x y : float) :
  F64.is_nan lo = false -> F64.is_nan hi = false ->
  F64.leb x y = true ->
  F64.leb (clip1 lo hi x) (clip1 lo hi y) = true.
Proof.
  intros Hl Hh H. unfold clip1.
  apply clip_min_mono; [assumption|]. now apply clip_max_mono.
Qed.

Lemma effective_min_zero (a : float) :
  F64.is_zero a = true -> effective_min (Some a) = effective_min None.
Proof.
  intros H. unfold effective_min, or_else.
  now rewrite truthy_is_zero, H.
Qed.

Lemma effective_max_zero (a : float) (speed : list (list float)) :
  F64.is_zero a = true ->
  effective_max (Some a) speed = effective_max None speed.
Proof.
  intros H. unfold effective_max. now rewrite truthy_is_zero, H.
Qed.

End Bounds.

Section ZeroBounds.

Variable L : libm.

Variables (time : string) (lon lat : ndarray float)
  (u v : list (list float)) (o : option path) (meshgrid : bool) (sub : Z)
  (markers : option (list marker)) (title : string).

Lemma compose_zero_min (a : float) (velocity_max : option float) :
  F64.is_zero a = true ->
  compose L time lon lat u v meshgrid sub (Some a) velocity_max markers
    title
  = compose L time lon lat u v meshgrid sub None velocity_max markers title.
Proof.
  intros H. unfold compose. now rewrite (effective_min_zero a H).
Qed.

Lemma compose_zero_max (a : float) (velocity_min : option float)
  (w : world) :
  F64.is_zero a = true ->
  compose L time lon lat u v meshgrid sub velocity_min (Some a) markers
    title w
  = compose L time lon lat u v meshgrid sub velocity_min None markers
      title w.
Proof.
  intros H. unfold compose.
  unfold Plt.figure_. rewrite !bindM_modify, !bindM_lift.
  destruct (decompose L u v) as [[[[angle speed] us] vs]|e];
    [|reflexivity].
  destruct (if meshgrid then _ else _) as [lons lats].
  now rewrite (effective_max_zero a speed H).
Qed.

(** A bound of zero counts as a bound that is not given: with
    [velocity_min] at zero of either sign the lower bound is the
    default, and with [velocity_max] at zero the upper bound is taken
    from the data, so that a call does what it does without the bound. *)
Theorem a_zero_bound_counts_as_not_given (a : float)
  (velocity_min velocity_max : option float) (w : world) :
  F64.is_zero a = true ->
  plot_common L time lon lat u v o meshgrid sub (Some a) velocity_max
    markers title w
  = plot_common L time lon lat u v o meshgrid sub None velocity_max
      markers title w
  /\ plot_common L time lon lat u v o meshgrid sub velocity_min (Some a)
       markers title w
     = plot_common L time lon lat u v o meshgrid sub velocity_min None
         markers title w.
Proof.
  intros H. unfold plot_common. split.
  - now rewrite (compose_zero_min a velocity_max H).
  - unfold bindM. now rewrite (compose_zero_max a velocity_min w H).
Qed.

End ZeroBounds.

(* ================================================================= *)
(** * The shape of the colours *)

Section ColourShape.

Variable L : libm.

Lemma squeeze_shape {A} (rows : list (list A)) :
  shape (squeeze (Arr2 rows)) = shape (Arr2 rows)
  <-> fst (shape2 rows) <> 1 /\ snd (shape2 rows) <> 1.
Proof.
  destruct rows as [|r [|r' t0]].
  - cbn. split; [intros _; split; discriminate|reflexivity].
  - destruct r as [|x [|y r0]]; cbn; split;
      try discriminate; intros [H _]; congruence.
  - destruct r as [|x [|y r0]]; cbn; split;
      try discriminate; try reflexivity; try (intros _; split; discriminate);
      intros [_ H]; congruence.
Qed.

(** The colours have the shape of the arrows exactly when the
    subsampled field has no axis of length one: [squeeze] removes such
    an axis from the colours alone. *)
Theorem colours_have_the_shape_of_the_arrows (time : string)
  (lon lat : ndarray float) (u v : list (list float)) (meshgrid : bool)
  (p : positive) (vmin vmax : option float)
  (markers : option (list marker)) (title : string) (g : figure) :
  rendered L time lon lat u v meshgrid (Zpos p) vmin vmax markers title
  = Ok g ->
  exists q,
    fig_quiver g = Some q
    /\ (shape (q_C q) = shape (Arr2 (q_U q))
        <-> fst (shape2 (q_U q)) <> 1 /\ snd (shape2 (q_U q)) <> 1).
Proof.
  intros Hg. apply rendered_inv in Hg.
  destruct Hg as (angle & speed & us & vs & hi & c & X & Y & U & V & e
                  & Hd & Hhi & Hc & _ & _ & HU & _ & _ & Hq & _ & _).
  unfold clip_stage in Hc.
  destruct (slice2 (Z.pos p) speed) as [S|] eqn:HS; [|discriminate].
  cbn [Py.bind] in Hc.
  assert (Ec : c = squeeze (Arr2 (map (map (clip1 (effective_min vmin) hi))
                                    S))) by (unfold clip, amap in Hc;
                                             congruence).
  clear Hc.
  destruct (slice2_pos p _ _ HU) as (_ & SU).
  destruct (slice2_pos p _ _ HS) as (_ & SS).
  destruct (decompose_shapes _ _ _ _ _ _ _ Hd) as (_ & Ssp & Sus & _).
  assert (Hm : shape2 (map (map (clip1 (effective_min vmin) hi)) S)
               = shape2 U).
  { rewrite (shape2_of_lengths _ S) by apply map_length_map.
    rewrite SS, SU, Ssp, Sus. reflexivity. }
  eexists. split; [exact Hq|]. cbn [q_C q_U]. rewrite Ec.
  rewrite <- Hm.
  replace (shape (Arr2 U))
    with (shape (Arr2 (map (map (clip1 (effective_min vmin) hi)) S)))
    by (cbn [shape]; now rewrite Hm).
  apply squeeze_shape.
Qed.

End ColourShape.

(* ================================================================= *)
(** * The file a call writes *)

Section Written.

Variable L : libm.

Variables (time : string) (lon lat : ndarray float)
  (u v : list (list float)) (meshgrid : bool) (sub : Z)
  (velocity_min velocity_max : option float)
  (markers : option (list marker)) (title : string).

Lemma path_eqb_eq (p q : path) : path_eqb p q = true <-> p = q.
Proof.
  unfold path_eqb. destruct (list_eq_dec string_dec p q); split;
    congruence.
Qed.

Lemma output_sink_images (f : path) (w w' : world)
  (x : option Plt.pyplot) :
  output_sink (Some f) w = (Ok x, w') ->
  images w'
  = (f, (hd blank (figures w), 150%Z))
      :: filter (fun e => negb (path_eqb f (fst e))) (images w).
Proof.
  cbn [output_sink]. unfold bindM, create_dir.
  destruct (existsb (is_image w) (prefixes (parent f))); [discriminate|].
  unfold Plt.savefig. destruct (Plt.dir_exists _ (parent f));
    [|discriminate].
  unfold Plt.close_all, modify, ret. now intros [= _ <-].
Qed.

Lemma find_other (f q : path) (x : figure * Z)
  (l : list (path * (figure * Z))) :
  q <> f ->
  find (fun e => path_eqb q (fst e))
    ((f, x) :: filter (fun e => negb (path_eqb f (fst e))) l)
  = find (fun e => path_eqb q (fst e)) l.
Proof.
  intros N. cbn [find fst].
  destruct (path_eqb q f) eqn:E; [apply path_eqb_eq in E; congruence|].
  clear E. induction l as [|e t0 IH]; [reflexivity|]. cbn [filter find].
  destruct (path_eqb f (fst e)) eqn:E1; cbn [negb].
  - apply path_eqb_eq in E1. rewrite <- E1.
    destruct (path_eqb q f) eqn:E2;
      [apply path_eqb_eq in E2; congruence|exact IH].
  - cbn [find]. destruct (path_eqb q (fst e)); [reflexivity|exact IH].
Qed.

Lemma filter_filter_negb {A} (p : A -> bool) (l : list A) :
  filter p (filter (fun e => negb (p e)) l) = [].
Proof.
  induction l as [|e t0 IH]; [reflexivity|]. cbn [filter].
  destruct (p e) eqn:E; cbn [negb filter]; [exact IH|].
  now rewrite E.
Qed.

(** A call that returns with a destination has written that file and no
    other: the destination holds the map, once, whatever it held
    before, and every other image file is as it was. *)
Theorem only_the_destination_is_written (f : path) (w w' : world)
  (x : option Plt.pyplot) :
  plot_common L time lon lat u v (Some f) meshgrid sub velocity_min
    velocity_max markers title w = (Ok x, w') ->
  exists g,
    rendered L time lon lat u v meshgrid sub velocity_min velocity_max
      markers title = Ok g
    /\ filter (fun e => path_eqb f (fst e)) (images w') = [(f, (g, 150%Z))]
    /\ forall q, q <> f ->
         find (fun e => path_eqb q (fst e)) (images w')
         = find (fun e => path_eqb q (fst e)) (images w).
Proof.
  unfold plot_common, bindM.
  destruct (compose L time lon lat u v meshgrid sub velocity_min
              velocity_max markers title w) as [[[]|e] w1] eqn:E;
    [|discriminate].
  pose proof (compose_run _ _ _ _ _ _ _ _ _ _ _ _ _ _ _ E) as R.
  destruct (rendered L time lon lat u v meshgrid sub velocity_min
              velocity_max markers title) as [g|e'] eqn:Hg;
    [|now destruct R].
  destruct R as [_ ->]. intros S. exists g. split; [reflexivity|].
  apply output_sink_images in S. rewrite S.
  change (images (composed w g)) with (images w).
  change (hd blank (figures (composed w g))) with g.
  split.
  - cbn [filter fst]. rewrite path_eqb_refl.
    now rewrite (filter_filter_negb (fun e => path_eqb f (fst e))).
  - intros q N. now apply find_other.
Qed.

End Written.

(* ================================================================= *)
(** * The further theorems at the sample values *)

Lemma figures_after_a_call_witness :
  exists g w',
    plot_common libm_sample "2019-01-01T00:00:00" sample_lon sample_lat
      (full 4 4 F64.one) (full 4 4 F64.one) None true 2 None None None
      "HF Radar" empty_world = (Ok (Some Plt.Pyplot), w')
    /\ figures w' = [g; blank].
Proof.
  assert (E : exists w',
             plot_common libm_sample "2019-01-01T00:00:00" sample_lon
               sample_lat (full 4 4 F64.one) (full 4 4 F64.one) None true 2
               None None None "HF Radar" empty_world
             = (Ok (Some Plt.Pyplot), w'))
    by (eexists; vm_compute; reflexivity).
  destruct E as (w' & E).
  destruct (figures_after_a_call libm_sample _ _ _ _ _ _ _ _ _ _ _ _ _ _ _
              E) as (g & _ & Hf).
  exists g, w'. split; [exact E|exact Hf].
Defined.

Lemma default_figure_size_witness :
  exists w',
    plot_common libm_sample "2019-01-01T00:00:00" sample_lon sample_lat
      (full 4 4 F64.one) (full 4 4 F64.one) (Some sample_png) true 2 None
      None None "HF Radar" empty_world = (Ok None, w')
    /\ rc_figsize w' = (F64.of_Z 12, F64.div (F64.of_Z 17) (F64.of_Z 2)).
Proof.
  assert (E : exists w',
             plot_common libm_sample "2019-01-01T00:00:00" sample_lon
               sample_lat (full 4 4 F64.one) (full 4 4 F64.one)
               (Some sample_png) true 2 None None None "HF Radar"
               empty_world = (Ok None, w'))
    by (eexists; vm_compute; reflexivity).
  destruct E as (w' & E). exists w'. split; [exact E|].
  exact (default_figure_size libm_sample _ _ _ _ _ _ _ _ _ _ _ _ _ _ _ E).
Defined.

Lemma well_formed_request_returns_witness :
  exists g,
    rendered libm_sample "2019-01-01T00:00:00" sample_lon sample_lat
      (full 4 4 F64.one) (full 4 4 F64.one) true 2 None None None "HF Radar"
    = Ok g
    /\ plot_common libm_sample "2019-01-01T00:00:00" sample_lon sample_lat
         (full 4 4 F64.one) (full 4 4 F64.one) None true 2 None None None
         "HF Radar" empty_world
       = (Ok (Some Plt.Pyplot), composed empty_world g).
Proof.
  refine (well_formed_request_returns libm_sample "2019-01-01T00:00:00"
            sample_lon sample_lat (full 4 4 F64.one) (full 4 4 F64.one)
            true 2 None None None "HF Radar" empty_world eq_refl _ _ _ _ _ _).
  - vm_compute. discriminate.
  - discriminate.
  - discriminate.
  - discriminate.
  - intros e He.
    apply (f_equal (fun r => match r with
                             | Ok l => Plt.valid_limits l
                             | Raise _ => true
                             end)) in He.
    cbv beta iota in He. rewrite <- He. vm_compute. reflexivity.
  - split; reflexivity.
Defined.

Lemma failed_composition_writes_nothing_witness :
  exists w',
    plot_common libm_sample "2019-01-01T00:00:00" sample_lon sample_lat
      (full 4 4 F64.one) (full 4 4 F64.one) (Some sample_png) true 0 None
      None None "HF Radar" empty_world = (Raise ValueError, w')
    /\ dirs w' = [] /\ images w' = [].
Proof.
  assert (E : rendered libm_sample "2019-01-01T00:00:00" sample_lon
                sample_lat (full 4 4 F64.one) (full 4 4 F64.one) true 0 None
                None None "HF Radar" = Raise ValueError)
    by (vm_compute; reflexivity).
  destruct (failed_composition_writes_nothing libm_sample _ _ _ _ _ _ _ _
              _ _ _ (Some sample_png) empty_world _ E)
    as (w' & Hr & Hd & Hi & _).
  exists w'. split; [exact Hr|]. split; [exact Hd|exact Hi].
Defined.

Lemma flat_coordinates_are_an_index_error_witness :
  exists w',
    plot_common libm_sample "2019-01-01T00:00:00" sample_lon sample_lat
      (full 4 4 F64.one) (full 4 4 F64.one) None false 2 None None None
      "HF Radar" empty_world = (Raise IndexError, w')
    /\ images w' = [] /\ dirs w' = [].
Proof.
  refine (flat_coordinates_are_an_index_error libm_sample
            "2019-01-01T00:00:00" sample_lon sample_lat (full 4 4 F64.one)
            (full 4 4 F64.one) false 2 None None None "HF Radar" None
            empty_world eq_refl _ _ eq_refl _).
  - vm_compute. discriminate.
  - discriminate.
  - left. vm_compute. discriminate.
Defined.

Lemma empty_coordinates_are_a_value_error_witness :
  exists w',
    plot_common libm_sample "2019-01-01T00:00:00" (Arr1 []) sample_lat
      (full 4 4 F64.one) (full 4 4 F64.one) None true 2 None None None
      "HF Radar" empty_world = (Raise ValueError, w')
    /\ images w' = [] /\ dirs w' = [].
Proof.
  refine (empty_coordinates_are_a_value_error libm_sample
            "2019-01-01T00:00:00" (Arr1 []) sample_lat (full 4 4 F64.one)
            (full 4 4 F64.one) true 2 None None None "HF Radar" None
            empty_world eq_refl _).
  left. reflexivity.
Defined.

Lemma default_bounds_do_not_clip_witness :
  exists g q s,
    rendered libm_sample "2019-01-01T00:00:00" sample_lon sample_lat
      (full 4 4 F64.one) (full 4 4 F64.one) true 2 None None None "HF Radar"
    = Ok g
    /\ fig_quiver g = Some q
    /\ Forall2 (fun c x => if F64.is_nan x then c = x
                           else F64.eqb c x = true)
         (ravel (q_C q)) (concat s).
Proof.
  assert (H : exists g,
             rendered libm_sample "2019-01-01T00:00:00" sample_lon sample_lat
               (full 4 4 F64.one) (full 4 4 F64.one) true 2 None None None
               "HF Radar" = Ok g)
    by (eexists; vm_compute; reflexivity).
  destruct H as (g & Hg).
  destruct (default_bounds_do_not_clip libm_sample _ _ _ _ _ _ _ _ _ g Hg)
    as (angle & speed & us & vs & s & q & Hd & _ & Hq & HF).
  exists g, q, s. split; [exact Hg|]. split; [exact Hq|].
  apply HF. rewrite decompose_full in Hd.
  apply (f_equal (fun r => match r with
                           | Ok (_, sp, _, _) => sp
                           | Raise _ => []
                           end)) in Hd.
  cbv beta iota in Hd. rewrite <- Hd.
  intros y Hy. apply in_concat in Hy. destruct Hy as (r & Hr & Hy).
  apply repeat_spec in Hr. subst r. apply repeat_spec in Hy. subst y.
  vm_compute. reflexivity.
Defined.

Lemma reversed_bounds_colour_every_cell_alike_witness :
  exists g q,
    rendered libm_sample "2019-01-01T00:00:00" sample_lon sample_lat
      (full 4 4 F64.one) (full 4 4 F64.one) true 2 (Some (F64.of_Z 10))
      (Some (F64.of_Z 5)) None "HF Radar" = Ok g
    /\ fig_quiver g = Some q
    /\ forall c, In c (ravel (q_C q)) -> F64.is_nan c = false ->
                 c = F64.of_Z 5.
Proof.
  assert (H : exists g,
             rendered libm_sample "2019-01-01T00:00:00" sample_lon sample_lat
               (full 4 4 F64.one) (full 4 4 F64.one) true 2
               (Some (F64.of_Z 10)) (Some (F64.of_Z 5)) None "HF Radar"
             = Ok g)
    by (eexists; vm_compute; reflexivity).
  destruct H as (g & Hg).
  destruct (reversed_bounds_colour_every_cell_alike libm_sample _ _ _ _ _
              _ _ _ _ _ _ g Hg)
    as (angle & speed & us & vs & hi & q & _ & Hhi & Hq & HF).
  exists g, q. split; [exact Hg|]. split; [exact Hq|].
  assert (Eh : hi = F64.of_Z 5).
  { change (Ok (F64.of_Z 5) = Ok hi) in Hhi. now injection Hhi. }
  subst hi. apply HF. reflexivity.
Defined.

Lemma arrows_stand_on_the_grid_witness :
  exists g q,
    rendered libm_sample "2019-01-01T00:00:00" sample_lon sample_lat
      (full 4 4 F64.one) (full 4 4 F64.one) true 2 None None None "HF Radar"
    = Ok g
    /\ fig_quiver g = Some q
    /\ get2 (q_X q) 1 1 = Some (F64.of_Z (-73))
    /\ get2 (q_Y q) 1 1 = Some (F64.of_Z 37).
Proof.
  assert (H : exists g,
             rendered libm_sample "2019-01-01T00:00:00" sample_lon sample_lat
               (full 4 4 F64.one) (full 4 4 F64.one) true 2 None None None
               "HF Radar" = Ok g)
    by (eexists; vm_compute; reflexivity).
  destruct H as (g & Hg).
  destruct (arrows_stand_on_the_grid libm_sample _ _ _ _ _ _ _ _ _ _ g Hg)
    as (q & Hq & HXY).
  exists g, q. split; [exact Hg|]. split; [exact Hq|].
  exact (HXY 1%nat 1%nat).
Defined.

Lemma what_is_on_the_map_witness :
  exists g w',
    plot_common libm_sample "2019-01-01T00:00:00" sample_lon sample_lat
      (full 4 4 F64.one) (full 4 4 F64.one) None true 2 None None None
      "HF Radar" empty_world = (Ok (Some Plt.Pyplot), w')
    /\ hd_error (figures w') = Some g
    /\ fig_markers g = []
    /\ fig_features g = ["land"; "lakes"; "borders"; "state_lines"]%string.
Proof.
  assert (E : exists w',
             plot_common libm_sample "2019-01-01T00:00:00" sample_lon
               sample_lat (full 4 4 F64.one) (full 4 4 F64.one) None true 2
               None None None "HF Radar" empty_world
             = (Ok (Some Plt.Pyplot), w'))
    by (eexists; vm_compute; reflexivity).
  destruct E as (w' & E).
  destruct (what_is_on_the_map libm_sample _ _ _ _ _ _ _ _ _ _ _ _ _ _ _ E)
    as (g & Hh & _ & _ & Hm & _ & Hf & _).
  exists g, w'. split; [exact E|]. split; [exact Hh|].
  split; [exact Hm|exact Hf].
Defined.

Lemma adapters_run_the_renderer_witness :
  plot_radials libm_sample (InMemory sample_dataset) None 2 None None None
    "HF Radar" empty_world
  = (let (r, w') :=
       plot_common libm_sample "2019-01-01T00:00:00" sample_lon sample_lat
         (full 4 4 F64.one) (full 4 4 F64.one) None false 2 None None None
         "HF Radar" empty_world in
     (match r with Ok _ => Ok tt | Raise e => Raise e end, w'))
  /\ plot_totals libm_sample (InMemory sample_dataset) None 2 None None None
       "HF Radar" empty_world
     = (let (r, w') :=
          plot_common libm_sample "2019-01-01T00:00:00" sample_lon
            sample_lat (full 4 4 F64.one) (full 4 4 F64.one) None true 2
            None None None "HF Radar" empty_world in
        (match r with Ok _ => Ok tt | Raise e => Raise e end, w')).
Proof.
  exact (adapters_run_the_renderer libm_sample None 2 None None None
           "HF Radar" sample_dataset (full 4 4 F64.one) (full 4 4 F64.one)
           "2019-01-01T00:00:00" [] sample_lon sample_lat
           eq_refl eq_refl eq_refl eq_refl eq_refl empty_world).
Defined.


Lemma a_missing_field_leaves_the_file_open_witness :
  exists e,
    plot_source libm_sample false (FromPath sample_nc) None 2 None None None
      "HF Radar" (world_with dataset_without_u)
    = (Raise e, with_handles (world_with dataset_without_u) [sample_nc])
    /\ (e = KeyError \/ e = AttributeError \/ e = IndexError).
Proof.
  refine (a_missing_field_leaves_the_file_open libm_sample false None 2
            None None None "HF Radar" sample_nc sample_nc dataset_without_u
            (world_with dataset_without_u) eq_refl _).
  left. reflexivity.
Defined.

Lemma a_dataset_object_is_not_closed_witness :
  exists r w',
    plot_source libm_sample true (InMemory sample_dataset) None 2 None None
      None "HF Radar" (world_with sample_dataset) = (r, w')
    /\ handles w' = [] /\ netcdf w' = [(sample_nc, sample_dataset)].
Proof.
  assert (E : exists r w',
             plot_source libm_sample true (InMemory sample_dataset) None 2
               None None None "HF Radar" (world_with sample_dataset)
             = (r, w'))
    by (eexists; eexists; vm_compute; reflexivity).
  destruct E as (r & w' & E). exists r, w'. split; [exact E|].
  exact (a_dataset_object_is_not_closed libm_sample _ _ _ _ _ _ _ _ _ _ _
           E).
Defined.

Lemma clipping_keeps_the_order_witness :
  F64.leb (clip1 (F64.of_Z 0) (F64.of_Z 10) F64.one)
    (clip1 (F64.of_Z 0) (F64.of_Z 10) (F64.of_Z 50)) = true.
Proof.
  apply (clipping_keeps_the_order (F64.of_Z 0) (F64.of_Z 10) F64.one
           (F64.of_Z 50)); reflexivity.
Defined.

Lemma a_zero_bound_counts_as_not_given_witness :
  plot_common libm_sample "2019-01-01T00:00:00" sample_lon sample_lat
    (full 4 4 F64.one) (full 4 4 F64.one) None true 2 (Some F64.zero) None
    None "HF Radar" empty_world
  = plot_common libm_sample "2019-01-01T00:00:00" sample_lon sample_lat
      (full 4 4 F64.one) (full 4 4 F64.one) None true 2 None None None
      "HF Radar" empty_world
  /\ plot_common libm_sample "2019-01-01T00:00:00" sample_lon sample_lat
       (full 4 4 F64.one) (full 4 4 F64.one) None true 2 None
       (Some F64.zero) None "HF Radar" empty_world
     = plot_common libm_sample "2019-01-01T00:00:00" sample_lon sample_lat
         (full 4 4 F64.one) (full 4 4 F64.one) None true 2 None None None
         "HF Radar" empty_world.
Proof.
  apply (a_zero_bound_counts_as_not_given libm_sample); reflexivity.
Defined.

Lemma colours_have_the_shape_of_the_arrows_witness :
  exists g q,
    rendered libm_sample "2019-01-01T00:00:00" sample_lon sample_lat
      (full 4 4 F64.one) (full 4 4 F64.one) true 2 None None None "HF Radar"
    = Ok g
    /\ fig_quiver g = Some q
    /\ shape (q_C q) = shape (Arr2 (q_U q)).
Proof.
  destruct (rendered libm_sample "2019-01-01T00:00:00" sample_lon sample_lat
              (full 4 4 F64.one) (full 4 4 F64.one) true 2 None None None
              "HF Radar") as [g|e] eqn:Hg;
    [|vm_compute in Hg; discriminate].
  destruct (colours_have_the_shape_of_the_arrows libm_sample _ _ _ _ _ _ _
              _ _ _ _ g Hg) as (q & Hq & Hiff).
  exists g, q. split; [reflexivity|]. split; [exact Hq|].
  apply Hiff.
  vm_compute in Hg. injection Hg as <-.
  vm_compute in Hq. injection Hq as <-.
  split; discriminate.
Defined.

Lemma only_the_destination_is_written_witness :
  exists g w',
    plot_common libm_sample "2019-01-01T00:00:00" sample_lon sample_lat
      (full 4 4 F64.one) (full 4 4 F64.one) (Some sample_png) true 2 None
      None None "HF Radar" empty_world = (Ok None, w')
    /\ filter (fun e => path_eqb sample_png (fst e)) (images w')
       = [(sample_png, (g, 150%Z))].
Proof.
  assert (E : exists w',
             plot_common libm_sample "2019-01-01T00:00:00" sample_lon
               sample_lat (full 4 4 F64.one) (full 4 4 F64.one)
               (Some sample_png) true 2 None None None "HF Radar"
               empty_world = (Ok None, w'))
    by (eexists; vm_compute; reflexivity).
  destruct E as (w' & E).
  destruct (only_the_destination_is_written libm_sample _ _ _ _ _ _ _ _ _
              _ _ _ _ _ _ E) as (g & _ & Hf & _).
  exists g, w'. split; [exact E|exact Hf].
Defined.
